(** * gdb-load-ovl: overlay symbol loading for gdb

    A shallow embedding of [gdb_load_z64overlay.py] (the [z64ovl] command,
    with its load and free breakpoints) and of [gdb_load_ovl.py] (the older
    [ovl] command).

    Python integers are unbounded: they are [Z], with no wrap-around.  Text
    is [string]; the model covers ASCII text, which is what gdb prints for
    the addresses, symbols and section names handled here.  The scripts run
    inside gdb and call its Python API: the answers gdb gives are the fields
    of a record [Host], and every [gdb.execute] is appended to a log kept in
    the state, next to what the scripts print.  Within one command the host
    answers a question the same way each time it is asked; the one command
    that changes what gdb knows, the registration, comes last.  An exception
    is its class, its arguments and its notes; the cause of a
    [raise ... from] is not kept. *)

From Stdlib Require Import ZArith Ascii String List HexString DecimalString.
From stdpp Require Import gmap strings list.

Local Open Scope string_scope.
Local Open Scope Z_scope.
Local Open Scope list_scope.

(** ** Python [str] operations *)

Module Py.

Definition chr (n : nat) : string := String (ascii_of_nat n) EmptyString.

(** The characters that cannot be written inside a string literal. *)
Definition DQ : string := chr 34.
Definition NL : string := chr 10.
Definition TAB : string := chr 9.

Definition code (c : ascii) : nat := nat_of_ascii c.

Definition in_range (lo hi : nat) (c : ascii) : bool :=
  (Nat.leb lo (code c) && Nat.leb (code c) hi)%bool.

(** [c.isspace()] on ASCII. *)
Definition isspace (c : ascii) : bool :=
  (in_range 9 13 c || in_range 28 32 c)%bool.

(** The white space [int] skips around an ASCII literal. *)
Definition is_literal_space (c : ascii) : bool :=
  (in_range 9 13 c || Nat.eqb (code c) 32)%bool.

Definition isdigit (c : ascii) : bool := in_range 48 57 c.

Definition upper_char (c : ascii) : ascii :=
  if in_range 97 122 c then ascii_of_nat (code c - 32) else c.

Definition lower_char (c : ascii) : ascii :=
  if in_range 65 90 c then ascii_of_nat (code c + 32) else c.

Fixpoint map_str (f : ascii -> ascii) (s : string) : string :=
  match s with
  | EmptyString => EmptyString
  | String c s' => String (f c) (map_str f s')
  end.

(** [s.upper()] and [s.lower()] on ASCII text: a character outside ASCII
    is left as it is. *)
Definition upper : string -> string := map_str upper_char.
Definition lower : string -> string := map_str lower_char.

Fixpoint rev_onto (s acc : string) : string :=
  match s with
  | EmptyString => acc
  | String c s' => rev_onto s' (String c acc)
  end.

Definition rev (s : string) : string := rev_onto s EmptyString.

Fixpoint lstrip_by (p : ascii -> bool) (s : string) : string :=
  match s with
  | String c s' => if p c then lstrip_by p s' else s
  | EmptyString => EmptyString
  end.

Definition rstrip_by (p : ascii -> bool) (s : string) : string :=
  rev (lstrip_by p (rev s)).

(** [s.rstrip()] and [s.strip()], without argument: white space is removed. *)
Definition rstrip (s : string) : string := rstrip_by isspace s.
Definition strip (s : string) : string := rstrip (lstrip_by isspace s).

Fixpoint drop (n : nat) (s : string) : string :=
  match n, s with
  | O, _ => s
  | S k, String _ s' => drop k s'
  | S _, EmptyString => EmptyString
  end.

(** [s.removeprefix(p)]. *)
Definition removeprefix (p s : string) : string :=
  if String.prefix p s then drop (String.length p) s else s.

(** [s.split(sep)] for a separator that is not empty: the occurrences of
    [sep] are found from the left and do not overlap.  [skip] counts the
    characters of a separator just found that are still to be passed, [cur]
    is the piece being read, reversed. *)
Fixpoint split_go (sep : string) (skip : nat) (cur s : string) : list string :=
  match s with
  | EmptyString => [rev cur]
  | String c s' =>
      match skip with
      | S k => split_go sep k cur s'
      | O =>
          if String.prefix sep s
          then rev cur :: split_go sep (String.length sep - 1) EmptyString s'
          else split_go sep O (String c cur) s'
      end
  end.

Definition split (sep s : string) : list string := split_go sep O EmptyString s.

(** [s.partition(sep)]: the text before the first [sep], [sep], and the
    text after it; the whole of [s] and two empty strings when [sep] does not
    occur. *)
Fixpoint partition_go (sep : string) (cur s : string) : option (string * string) :=
  if String.prefix sep s then Some (rev cur, drop (String.length sep) s)
  else match s with
       | EmptyString => None
       | String c s' => partition_go sep (String c cur) s'
       end.

Definition partition (sep s : string) : string * string * string :=
  match partition_go sep EmptyString s with
  | Some (a, b) => (a, sep, b)
  | None => (s, EmptyString, EmptyString)
  end.

(** The line boundaries of [str.splitlines] within ASCII: LF, VT, FF, CR,
    FS, GS and RS; CR followed by LF is one boundary. *)
Definition is_linebreak (c : ascii) : bool :=
  (in_range 10 13 c || in_range 28 30 c)%bool.

Fixpoint splitlines_go (cur s : string) : list string :=
  match s with
  | EmptyString =>
      match cur with EmptyString => [] | _ => [rev cur] end
  | String c s' =>
      if is_linebreak c then
        match s' with
        | String c' s'' =>
            if (Nat.eqb (code c) 13 && Nat.eqb (code c') 10)%bool
            then rev cur :: splitlines_go EmptyString s''
            else rev cur :: splitlines_go EmptyString s'
        | EmptyString => [rev cur]
        end
      else splitlines_go (String c cur) s'
  end.

Definition splitlines (s : string) : list string := splitlines_go EmptyString s.

(** [s[:-1]]. *)
Definition drop_last (s : string) : string :=
  String.substring 0 (String.length s - 1) s.

(** [sep.join(l)]. *)
Fixpoint join (sep : string) (l : list string) : string :=
  match l with
  | [] => EmptyString
  | [x] => x
  | x :: l' => x +:+ sep +:+ join sep l'
  end.

End Py.

(** ** Python [int] conversions and formatting *)

Module PyInt.

(** [f"{n:#x}"] and [hex(n)]: a sign, [0x], lower-case digits. *)
Definition hex (n : Z) : string := HexString.of_Z n.

(** [str(n)]. *)
Definition str (n : Z) : string := NilZero.string_of_int (Z.to_int n).

Definition digit_value (c : ascii) : option Z :=
  if Py.in_range 48 57 c then Some (Z.of_nat (Py.code c) - 48)
  else if Py.in_range 97 102 c then Some (Z.of_nat (Py.code c) - 87)
  else if Py.in_range 65 70 c then Some (Z.of_nat (Py.code c) - 55)
  else None.

Definition is_hexdigit (c : ascii) : bool :=
  match digit_value c with Some _ => true | None => false end.

(** What the digit reader has just passed: nothing, the base prefix, a digit
    or an underscore.  An underscore may only follow a digit or the prefix,
    and the literal must end on a digit. *)
Inductive seen := SeenNothing | SeenPrefix | SeenDigit | SeenUnderscore.

Fixpoint digits16 (acc : Z) (last : seen) (s : string) : option Z :=
  match s with
  | EmptyString =>
      match last with SeenDigit => Some acc | _ => None end
  | String c s' =>
      if Ascii.eqb c "_"%char then
        match last with
        | SeenDigit | SeenPrefix => digits16 acc SeenUnderscore s'
        | _ => None
        end
      else
        match digit_value c with
        | Some v => digits16 (16 * acc + v) SeenDigit s'
        | None => None
        end
  end.

Definition unsigned16 (s : string) : option Z :=
  if (String.prefix "0x" s || String.prefix "0X" s)%bool
  then digits16 0 SeenPrefix (Py.drop 2 s)
  else digits16 0 SeenNothing s.

(** [int(s, 16)]: surrounding white space, a sign, an optional [0x], and
    hexadecimal digits that single underscores may separate.  [None] is the
    [ValueError] Python raises. *)
Definition int16 (s : string) : option Z :=
  match Py.rstrip_by Py.is_literal_space (Py.lstrip_by Py.is_literal_space s) with
  | String "-" s' => Z.opp <$> unsigned16 s'
  | String "+" s' => unsigned16 s'
  | s' => unsigned16 s'
  end.

Fixpoint digits10 (acc : Z) (s : string) : Z :=
  match s with
  | EmptyString => acc
  | String c s' => digits10 (10 * acc + (Z.of_nat (Py.code c) - 48)) s'
  end.

(** The longest decimal literal [int] converts (Python 3.11 and later). *)
Definition max_str_digits : nat := 4300.

(** [int(s)] for a string of decimal digits, as the pattern's [\d+] group
    gives; [None] is the [ValueError] for a literal that is too long. *)
Definition int10_of_digits (s : string) : option Z :=
  if Nat.ltb max_str_digits (String.length s) then None
  else Some (digits10 0 s).

(** [repr(s)]: quoted with ['], or with the double quote when [s] holds a
    ['] and no double quote; the quote, the backslash and the control
    characters are escaped. *)
Fixpoint contains_char (c : ascii) (s : string) : bool :=
  match s with
  | EmptyString => false
  | String d s' => (Ascii.eqb c d || contains_char c s')%bool
  end.

Definition hex_digit (n : nat) : string :=
  String.substring n 1 "0123456789abcdef".

Definition repr_char (quote c : ascii) : string :=
  if (Ascii.eqb c quote || Ascii.eqb c "\"%char)%bool
  then String "\"%char (String c EmptyString)
  else if Nat.eqb (Py.code c) 9 then "\t"
  else if Nat.eqb (Py.code c) 10 then "\n"
  else if Nat.eqb (Py.code c) 13 then "\r"
  else if (Nat.ltb (Py.code c) 32 || Nat.eqb (Py.code c) 127)%bool
  then "\x" +:+ hex_digit (Py.code c / 16) +:+ hex_digit (Py.code c mod 16)
  else String c EmptyString.

Fixpoint repr_body (quote : ascii) (s : string) : string :=
  match s with
  | EmptyString => EmptyString
  | String c s' => repr_char quote c +:+ repr_body quote s'
  end.

Definition repr (s : string) : string :=
  let quote :=
    if (contains_char "'"%char s && negb (contains_char "034"%char s))%bool
    then "034"%char else "'"%char in
  String quote (repr_body quote s) +:+ String quote EmptyString.

End PyInt.

(** ** Exceptions, state and the command monad *)

Inductive exn_class :=
| ValueError
| AssertionError
| IndexError
| AttributeError
| TypeError
| NameError
| PlainException      (* [Exception] itself *)
| GdbError            (* [gdb.error] and its subclasses *)
| KeyboardInterrupt.  (* outside [Exception] *)

Record pyexn := MkExn {
  exn_class_of : exn_class;
  exn_args : list string;
  exn_notes : list string }.

(** [except ValueError] and [except Exception]. *)
Definition is_ValueError (e : pyexn) : bool :=
  match exn_class_of e with ValueError => true | _ => false end.

Definition is_Exception (e : pyexn) : bool :=
  match exn_class_of e with KeyboardInterrupt => false | _ => true end.

(** [e.add_note(n)]. *)
Definition add_note (n : string) (e : pyexn) : pyexn :=
  MkExn (exn_class_of e) (exn_args e) (exn_notes e ++ [n]).

Inductive result (A : Type) :=
| Ok (a : A)
| Raise (e : pyexn).
Arguments Ok {A} a.
Arguments Raise {A} e.

(** The module-level state of the two scripts, what they have printed, and
    the commands they have passed to [gdb.execute], oldest first.
    [obj_address_map] is the dictionary [gdb_load_ovl.py] assigns into: no
    script binds the name, so nothing ever writes the field. *)
Record state := MkState {
  loaded_z64overlay_objects : gmap Z string;
  obj_address_map : gmap string string;
  bp_load_enabled : bool;
  stdout : list string;
  gdb_log : list string }.

Definition M (A : Type) : Type := state -> result A * state.

Definition ret {A} (a : A) : M A := fun s => (Ok a, s).

Definition raise {A} (e : pyexn) : M A := fun s => (Raise e, s).

Definition bind {A B} (m : M A) (k : A -> M B) : M B :=
  fun s => match m s with
           | (Ok a, s') => k a s'
           | (Raise e, s') => (Raise e, s')
           end.

(** [try: m except: h], where [h] chooses the exceptions it handles by
    raising the others again. *)
Definition try_except {A} (m : M A) (h : pyexn -> M A) : M A :=
  fun s => match m s with
           | (Ok a, s') => (Ok a, s')
           | (Raise e, s') => h e s'
           end.

Definition lift {A} (r : result A) : M A := fun s => (r, s).

Notation "'let*' x ':=' m 'in' k" := (bind m (fun x => k))
  (at level 10, x pattern, m at level 100, k at level 200).
Notation "m ';;' k" := (bind m (fun _ => k))
  (at level 100, k at level 200, right associativity).

Definition print (line : string) : M unit :=
  fun s => (Ok tt, MkState (loaded_z64overlay_objects s) (obj_address_map s)
                           (bp_load_enabled s) (stdout s ++ [line]) (gdb_log s)).

Definition set_loaded (m : gmap Z string) : M unit :=
  fun s => (Ok tt, MkState m (obj_address_map s) (bp_load_enabled s)
                           (stdout s) (gdb_log s)).

Definition set_bp_load_enabled (b : bool) : M unit :=
  fun s => (Ok tt, MkState (loaded_z64overlay_objects s) (obj_address_map s) b
                           (stdout s) (gdb_log s)).

Definition get_loaded : M (gmap Z string) :=
  fun s => (Ok (loaded_z64overlay_objects s), s).

(** ** The host: gdb's Python API and [pathlib]

    Each field is what the host answers to one call; [Raise] is the call
    raising.  A table, as [gdb.lookup_global_symbol(name).value()] gives it,
    is read by index and field name. *)

Definition table := Z -> string -> result Z.

Record Host := MkHost {
  (* gdb.execute(cmd, False, True): the text the command prints *)
  gdb_execute : string -> result string;
  (* gdb.Value(addr).cast(TYPE_VOIDP).format_string(raw=True, symbols=True) *)
  format_string : Z -> result string;
  (* gdb.lookup_symbol(name)[0].symtab.filename *)
  lookup_symbol_filename : string -> result string;
  (* gdb.lookup_symbol(name)[0].value() *)
  lookup_symbol_value : string -> result Z;
  (* gdb.lookup_global_symbol(name), None when there is no such symbol *)
  lookup_global_symbol : string -> option table;
  (* gdb.current_progspace().filename, which may be None *)
  progspace_filename : option string;
  (* gdb.selected_frame().read_var(name) *)
  frame_read_var : string -> result Z;
  (* gdb.selected_frame().read_var(name)[field] *)
  frame_read_var_field : string -> string -> result Z;
  (* str((Path(elf).parent / c_file).with_suffix(".o")) *)
  object_path : string -> string -> result string;
  (* Path(p).stem *)
  path_stem : string -> string;
  (* whether the name get_section_address is bound where gdb_load_ovl.py
     runs: gdb runs the scripts it sources in one namespace, so it is once
     gdb_load_z64overlay.py has been sourced *)
  get_section_address_defined : bool }.

(** [v.cast(TYPE_U32)]: the low 32 bits. *)
Definition cast_u32 (v : Z) : Z := v mod 2 ^ 32.

(** ** The patterns of [gdb_load_z64overlay.py] *)

(** The longest run of hexadecimal digits at the head of [s], and the rest. *)
Fixpoint span_hexdigits (s : string) : string * string :=
  match s with
  | String c s' =>
      if PyInt.is_hexdigit c
      then let (ds, r) := span_hexdigits s' in (String c ds, r)
      else (EmptyString, s)
  | EmptyString => (EmptyString, EmptyString)
  end.

(** The group [0x] and hexadecimal digits at the head of [s], ignoring case:
    the text of the group
    and what follows it.  The digits are taken greedily, and no shorter run
    can be followed by the rest of either pattern. *)
Definition match_hex_literal (s : string) : option (string * string) :=
  match s with
  | String c0 (String c1 s') =>
      if (Ascii.eqb c0 "0" && Ascii.eqb (Py.lower_char c1) "x")%bool then
        match span_hexdigits s' with
        | (EmptyString, _) => None
        | (ds, r) => Some (String c0 (String c1 ds), r)
        end
      else None
  | _ => None
  end.

(** A literal of a pattern compiled with [re.IGNORECASE] at the head of [s]. *)
Definition prefix_nocase (p s : string) : bool :=
  String.eqb (Py.lower p) (Py.lower (String.substring 0 (String.length p) s)).

(** [INFO_FILE_LINE_PATTERN.fullmatch(line)]: the three groups of the
    pattern, which are a hexadecimal literal, then [ - ], a second literal,
    then [ is ], and the rest of the line.  The whole line has to match, from
    its first character on, and the dot of the last group does not match a
    line feed. *)
Definition INFO_FILE_LINE_PATTERN_fullmatch (line : string)
  : option (string * string * string) :=
  match match_hex_literal line with
  | Some (start_str, r1) =>
      if String.prefix " - " r1 then
        match match_hex_literal (Py.drop 3 r1) with
        | Some (end_str, r2) =>
            if (prefix_nocase " is " r2
                && negb (PyInt.contains_char "010"%char (Py.drop 4 r2)))%bool
            then Some (start_str, end_str, Py.drop 4 r2)
            else None
        | None => None
        end
      else None
  | None => None
  end.

Fixpoint all_chars (p : ascii -> bool) (s : string) : bool :=
  match s with
  | EmptyString => true
  | String c s' => (p c && all_chars p s')%bool
  end.

(** The text before the first [+] of [s] and the text after it. *)
Definition cut_at_plus (s : string) : option (string * string) :=
  Py.partition_go "+" EmptyString s.

(** What follows [ <] in a full match of [VALUE_SYM_FMT_PATTERN], up to the
    end of the text: a name of one character or more without [+], then
    possibly [+] and decimal digits, then [>]. *)
Definition match_sym_part (body : string) : option (string * option string) :=
  match cut_at_plus body with
  | None =>
      let n := (String.length body - 1)%nat in
      if (String.eqb (Py.drop n body) ">" && negb (Nat.eqb n 0))%bool
      then Some (String.substring 0 n body, None)
      else None
  | Some (name, after) =>
      let n := (String.length after - 1)%nat in
      let digits := String.substring 0 n after in
      if (negb (String.eqb name EmptyString)
          && String.eqb (Py.drop n after) ">"
          && negb (Nat.eqb n 0)
          && all_chars Py.isdigit digits)%bool
      then Some (name, Some digits)
      else None
  end.

(** [VALUE_SYM_FMT_PATTERN.fullmatch(s)]: the three groups (the address,
    the symbol name and the offset), the last two being [None] when they
    take no part in the match. *)
Definition VALUE_SYM_FMT_PATTERN_fullmatch (s : string)
  : option (string * option string * option string) :=
  match match_hex_literal s with
  | Some (addr_str, EmptyString) => Some (addr_str, None, None)
  | Some (addr_str, r) =>
      if String.prefix " <" r then
        match match_sym_part (Py.drop 2 r) with
        | Some (name, off) => Some (addr_str, Some name, off)
        | None => None
        end
      else None
  | None => None
  end.

(** ** [gdb_load_z64overlay.py] *)

Inductive SectionType := TEXT | DATA | RODATA | BSS.

Definition section_name (sec : SectionType) : string :=
  match sec with
  | TEXT => ".text" | DATA => ".data" | RODATA => ".rodata" | BSS => ".bss"
  end.

Definition linker_script_name (sec : SectionType) : string :=
  match sec with
  | TEXT => "Text" | DATA => "Data" | RODATA => "RoData" | BSS => "Bss"
  end.

(** The members of the enumeration, in the order iterating it gives. *)
Definition SectionTypes : list SectionType := [TEXT; DATA; RODATA; BSS].

Definition AUTOLOAD_ENABLED_BY_DEFAULT : bool := false.

(** The state once both scripts are loaded. *)
Definition initial_state : state :=
  MkState ∅ ∅ AUTOLOAD_ENABLED_BY_DEFAULT [] [].

(** The name [get_section_address] resolves. *)
Definition section_start_name (ovl_name sec_name : string) : string :=
  "_" +:+ ovl_name +:+ "Segment" +:+ sec_name +:+ "Start".

(** The offsets of [load_z64overlay_object], from the addresses of the four
    section symbols. *)
Definition ovl_offsets (alloc_address vram_address : Z)
    (ovl_addresses : SectionType -> Z) (sec : SectionType) : Z :=
  alloc_address + (ovl_addresses sec - vram_address).

Definition add_symbol_file_command (path : string) (offsets : SectionType -> Z)
  : string :=
  "add-symbol-file -readnow " +:+ path +:+ " -o 0xFF000000"
  +:+ Py.join EmptyString
        (map (fun sec => " -s " +:+ section_name sec +:+ " "
                         +:+ PyInt.hex (offsets sec)) SectionTypes).

Section Scripts.

Variable h : Host.

(** [gdb.execute(cmd, ...)]: the command is logged, whatever comes of it. *)
Definition execute (cmd : string) : M string :=
  fun s => (gdb_execute h cmd,
            MkState (loaded_z64overlay_objects s) (obj_address_map s)
                    (bp_load_enabled s) (stdout s) (gdb_log s ++ [cmd])).

Definition printf_command (name : string) : string :=
  "printf " +:+ Py.DQ +:+ "%x" +:+ Py.DQ +:+ ", &" +:+ name.

Definition get_sym_addr_from_name (name : string) : M Z :=
  let* printf_out := execute (printf_command name) in
  match PyInt.int16 printf_out with
  | Some n => ret n
  | None =>
      raise (MkExn ValueError
               ["Unexpected result for `" +:+ printf_command name +:+ "`";
                printf_out] [])
  end.

Definition get_sym_name_from_addr (addr : Z) : M string :=
  let* s := lift (format_string h addr) in
  match VALUE_SYM_FMT_PATTERN_fullmatch s with
  | None =>
      raise (MkExn ValueError
               ["Unexpected result for getting name of " +:+ PyInt.hex addr; s] [])
  | Some (addr_str, sym_name, offset_str) =>
      if negb (String.eqb (Py.lower addr_str) (PyInt.hex addr)) then
        raise (MkExn ValueError
                 ["Unexpected result (different addr) for getting name of "
                  +:+ PyInt.hex addr; s] [])
      else
        match sym_name with
        | None =>
            raise (MkExn ValueError ["No symbol found for " +:+ PyInt.hex addr] [])
        | Some sym_name =>
            match offset_str with
            | Some offset_str =>
                match PyInt.int10_of_digits offset_str with
                | None =>
                    raise (MkExn ValueError
                             ["Exceeds the limit (4300 digits) for integer string conversion"] [])
                | Some n =>
                    if Z.eqb n 0 then raise (MkExn AssertionError [s] [])
                    else raise (MkExn ValueError
                                  ["No symbol found for " +:+ PyInt.hex addr
                                   +:+ " (but the addr is " +:+ sym_name +:+ "+"
                                   +:+ offset_str +:+ ")"] [])
                end
            | None => ret sym_name
            end
        end
  end.

(** [get_sym_section] for an address, as [load_z64overlay_object] calls it. *)
Definition get_sym_section (sym : Z) : M string :=
  let sym := PyInt.hex sym in
  let* info_sym := execute ("info symbol " +:+ sym) in
  match Py.split "in section " info_sym with
  | [_; part1] =>
      match Py.split " of " part1 with
      | part2 :: _ => ret (Py.strip part2)
      | [] => raise (MkExn IndexError ["list index out of range"] [])
      end
  | _ =>
      raise (MkExn ValueError
               ["Unexpected result for `info symbol " +:+ sym +:+ "`"; info_sym] [])
  end.

(** [int(s, 16)], raising as Python does. *)
Definition int16_or_raise (s : string) : M Z :=
  match PyInt.int16 s with
  | Some n => ret n
  | None =>
      raise (MkExn ValueError
               ["invalid literal for int() with base 16: " +:+ PyInt.repr s] [])
  end.

(** The loop of [get_section_by_addr] over the lines of [info file], and the
    [raise] that follows it. *)
Fixpoint scan_lines (addr : Z) (lines : list string) : M string :=
  match lines with
  | [] =>
      raise (MkExn ValueError
               ["No section found for address " +:+ PyInt.hex addr] [])
  | line :: rest =>
      match INFO_FILE_LINE_PATTERN_fullmatch line with
      | None => scan_lines addr rest
      | Some (start_str, end_str, section) =>
          let* start := int16_or_raise start_str in
          let* end_ := int16_or_raise end_str in
          let start := Z.land start 0xFFFFFFFF in
          let end_ := Z.land end_ 0xFFFFFFFF in
          if (Z.leb start addr && Z.ltb addr end_)%bool then ret section
          else scan_lines addr rest
      end
  end.

Definition get_section_by_addr (addr : Z) : M string :=
  let* info_file := execute "info file" in
  scan_lines addr (Py.splitlines info_file).

Definition section_start_note (section_start_name : string) : string :=
  "section_start_name=" +:+ PyInt.repr section_start_name.

Definition get_section_address (ovl_name section_name : string) : M Z :=
  let section_start_name := section_start_name ovl_name section_name in
  try_except (get_sym_addr_from_name section_start_name)
    (fun e => if is_Exception e
              then raise (add_note (section_start_note section_start_name) e)
              else raise e).

(** A dictionary comprehension over [SectionType]: the values are computed
    in the order of the members. *)
Definition for_each_section {V} (f : SectionType -> M V) : M (SectionType -> V) :=
  let* v_text := f TEXT in
  let* v_data := f DATA in
  let* v_rodata := f RODATA in
  let* v_bss := f BSS in
  ret (fun sec => match sec with
                  | TEXT => v_text | DATA => v_data
                  | RODATA => v_rodata | BSS => v_bss
                  end).

(** The section name [load_z64overlay_object] works with (its [try]
    statement and the [removeprefix] after it): read from [info symbol], or
    else from [info file], and without leading dots. *)
Definition overlay_section_name (vram_address : Z) : M string :=
  let* ovl_sec_name :=
    try_except (get_sym_section vram_address)
      (fun e => if is_ValueError e
                then print "get_sym_section() failed, trying get_section_by_addr()" ;;
                     get_section_by_addr vram_address
                else raise e) in
  ret (Py.removeprefix ".." ovl_sec_name).

Definition load_z64overlay_object (alloc_address vram_address : Z) : M unit :=
  let* loaded := get_loaded in
  match loaded !! alloc_address with
  | Some _ => raise (MkExn PlainException ["Already loaded"] [])
  | None =>
      let* ovl_sec_name := overlay_section_name vram_address in
      let* ovl_addresses :=
        for_each_section
          (fun sec => get_section_address ovl_sec_name (linker_script_name sec)) in
      let offsets := ovl_offsets alloc_address vram_address ovl_addresses in
      let* sym_name := get_sym_name_from_addr vram_address in
      let* target_filename_c := lift (lookup_symbol_filename h sym_name) in
      let* rom_elf_filename :=
        match progspace_filename h with
        | Some f => ret f
        | None =>
            raise (MkExn TypeError
                     ["expected str, bytes or os.PathLike object, not NoneType"] [])
        end in
      let* target_filename_o_p :=
        lift (object_path h rom_elf_filename target_filename_c) in
      let* loaded := get_loaded in
      set_loaded (<[alloc_address := target_filename_o_p]> loaded) ;;
      print ("Reading " +:+ path_stem h target_filename_o_p +:+ "...") ;;
      let* _ := execute (add_symbol_file_command target_filename_o_p offsets) in
      print "Complete."
  end.

Definition unload_z64overlay_object (alloc_address : Z) : M unit :=
  let* loaded := get_loaded in
  match loaded !! alloc_address with
  | Some obj_p =>
      set_loaded (delete alloc_address loaded) ;;
      let* loaded := get_loaded in
      print ("Unloading overlay: " +:+ path_stem h obj_p +:+ " "
             +:+ "(" +:+ PyInt.str (Z.of_nat (size loaded)) +:+ " left)") ;;
      let* _ := execute ("remove-symbol-file " +:+ obj_p) in
      ret tt
  | None => ret tt
  end.

Definition load_z64overlay_object_from_table (overlay_table : table) (index : Z)
  : M unit :=
  let* v := lift (overlay_table index "loadedRamAddr") in
  let alloc_address := cast_u32 v in
  if Z.eqb alloc_address 0 then
    print "ERROR: Requested overlay is not currently loaded"
  else
    let* v := lift (overlay_table index "vramStart") in
    let vram_address := cast_u32 v in
    load_z64overlay_object alloc_address vram_address.

(** [gdb.lookup_global_symbol(name).value()]. *)
Definition global_value (name : string) : M table :=
  match lookup_global_symbol h name with
  | Some t => ret t
  | None =>
      raise (MkExn AttributeError
               ["'NoneType' object has no attribute 'value'"] [])
  end.

Fixpoint span_not_underscore (s : string) : string :=
  match s with
  | String c s' =>
      if Ascii.eqb c "_" then EmptyString else String c (span_not_underscore s')
  | EmptyString => EmptyString
  end.

(** [re.findall(pattern, arg)] for the pattern of the two commands, one
    character or more other than [_] at the very start of [arg]: at most one
    match. *)
Definition findall_type_prefix (arg : string) : list string :=
  match span_not_underscore arg with
  | EmptyString => []
  | p => [p]
  end.

(** The table an overlay type names, if it is one of the three. *)
Definition table_of_type (ovl_type : string) : option string :=
  if String.eqb ovl_type "GAMESTATE" then Some "gGameStateOverlayTable"
  else if String.eqb ovl_type "ACTOR" then Some "gActorOverlayTable"
  else if String.eqb ovl_type "EFFECT" then Some "gEffectSsOverlayTable"
  else None.

Definition is_pause_alias (arg : string) : bool :=
  (String.eqb arg "PAUSE" || String.eqb arg "KALEIDO"
   || String.eqb arg "KALEIDO_SCOPE")%bool.

Definition LoadZ64OvlCmd_invoke (arg : string) : M unit :=
  let arg := Py.upper arg in
  if String.eqb arg "AUTO ON" then
    set_bp_load_enabled true ;;
    print "z64 overlays will be automatically loaded"
  else if String.eqb arg "AUTO OFF" then
    set_bp_load_enabled false ;;
    print "z64 overlays will NOT be automatically loaded"
  else if is_pause_alias arg then
    let* table := global_value "gKaleidoMgrOverlayTable" in
    load_z64overlay_object_from_table table 0
  else if String.eqb arg "ACTOR_PLAYER" then
    let* table := global_value "gKaleidoMgrOverlayTable" in
    load_z64overlay_object_from_table table 1
  else
    match findall_type_prefix arg with
    | [] => raise (MkExn IndexError ["list index out of range"] [])
    | ovl_type :: _ =>
        match table_of_type ovl_type with
        | None => print "ERROR: Type of enum provided is not supported"
        | Some table_name =>
            let* table := global_value table_name in
            match lookup_symbol_value h arg with
            | Raise _ =>
                print "ERROR: Provided enum value could not be found in the elf"
            | Ok v => load_z64overlay_object_from_table table (cast_u32 v)
            end
        end
    end.

(** The [stop] methods of the three breakpoint classes. *)
Definition BreakpointOverlayLoad_stop : M bool :=
  let* v := lift (frame_read_var h "allocatedRamAddr") in
  let alloc_address := cast_u32 v in
  let* v := lift (frame_read_var h "vramStart") in
  let vram_address := cast_u32 v in
  load_z64overlay_object alloc_address vram_address ;;
  ret false.

Definition BreakpointFree_stop : M bool :=
  let* v := lift (frame_read_var h "ptr") in
  unload_z64overlay_object (cast_u32 v) ;;
  ret false.

Definition BreakpointKaleidoFree_stop : M bool :=
  let* v := lift (frame_read_var_field h "ovl" "loadedRamAddr") in
  unload_z64overlay_object (cast_u32 v) ;;
  ret false.

(** ** [gdb_load_ovl.py]

    The script calls [get_section_address] and assigns into
    [obj_address_map] without defining either.  The function is the one of
    [gdb_load_z64overlay.py] when that script has been sourced too, and the
    call is a [NameError] otherwise; the dictionary is bound by neither
    script, so the assignment is a [NameError] always. *)

Definition name_error (name : string) : pyexn :=
  MkExn NameError ["name '" +:+ name +:+ "' is not defined"] [].

(** A call of the global name [get_section_address]. *)
Definition global_get_section_address (ovl_name section_name : string) : M Z :=
  if get_section_address_defined h
  then get_section_address ovl_name section_name
  else raise (name_error "get_section_address").

(** [obj_address_map[key] = value]: the value is at hand, then the name is
    looked up. *)
Definition assign_obj_address_map (key value : string) : M unit :=
  raise (name_error "obj_address_map").

Definition GetAllocAddress (t : table) (index : Z) : M Z :=
  let* v := lift (t index "loadedRamAddr") in
  ret (cast_u32 v).

(** The four offsets of [AddOverlaySymbols]: text, data, rodata, bss. *)
Definition AddOverlaySymbols_offsets
    (alloc_address : Z) (ovl_addresses : SectionType -> Z) (sec : SectionType) : Z :=
  match sec with
  | TEXT => alloc_address
  | DATA => alloc_address + (ovl_addresses DATA - ovl_addresses TEXT)
  | RODATA => alloc_address + (ovl_addresses RODATA - ovl_addresses TEXT)
  | BSS => alloc_address + (ovl_addresses BSS - ovl_addresses TEXT)
  end.

Definition AddOverlaySymbols (alloc_address : Z) : M unit :=
  if Z.eqb alloc_address 0 then
    print "ERROR: Requested overlay is not currently loaded"
  else
    print (Py.join " " ["Loading symbols for actor at "; PyInt.str alloc_address]) ;;
    let* out := execute "info symbol vramStart" in
    let target_func_name := Py.rstrip (Py.partition " " out).1.1 in
    let* ovl_sec_name := execute ("info sym " +:+ target_func_name) in
    let ovl_sec_name :=
      Py.rstrip (Py.partition " " (Py.partition "section .." ovl_sec_name).2).1.1 in
    let* ovl_address_text := global_get_section_address ovl_sec_name "Text" in
    let* ovl_address_data := global_get_section_address ovl_sec_name "Data" in
    let* ovl_address_rodata := global_get_section_address ovl_sec_name "RoData" in
    let* ovl_address_bss := global_get_section_address ovl_sec_name "Bss" in
    let ovl_addresses := fun sec =>
      match sec with
      | TEXT => ovl_address_text | DATA => ovl_address_data
      | RODATA => ovl_address_rodata | BSS => ovl_address_bss
      end in
    let ovl_offset_text := AddOverlaySymbols_offsets alloc_address ovl_addresses TEXT in
    let ovl_offset_data := AddOverlaySymbols_offsets alloc_address ovl_addresses DATA in
    let ovl_offset_rodata := AddOverlaySymbols_offsets alloc_address ovl_addresses RODATA in
    let ovl_offset_bss := AddOverlaySymbols_offsets alloc_address ovl_addresses BSS in
    let* target_filename := lift (lookup_symbol_filename h target_func_name) in
    let obj_name := "build/" +:+ Py.drop_last target_filename +:+ "o" in
    assign_obj_address_map (PyInt.hex alloc_address) obj_name ;;
    print (Py.join " "
             ["Loading overlay: "; obj_name;
              "(text:"; PyInt.hex ovl_offset_text;
              " data:"; PyInt.hex ovl_offset_data;
              " rodata:"; PyInt.hex ovl_offset_rodata;
              " bss:"; PyInt.hex ovl_offset_bss; ")"]) ;;
    let* _ := execute ("add-symbol-file -readnow " +:+ obj_name +:+
                       " -o 0xFF000000" +:+
                       " -s .text " +:+ PyInt.hex ovl_offset_text +:+
                       " -s .data " +:+ PyInt.hex ovl_offset_data +:+
                       " -s .rodata " +:+ PyInt.hex ovl_offset_rodata +:+
                       " -s .bss " +:+ PyInt.hex ovl_offset_bss) in
    ret tt.

Definition LoadOvlCmd_invoke (arg : string) : M unit :=
  let arg := Py.upper arg in
  if is_pause_alias arg then
    let* table := global_value "gKaleidoMgrOverlayTable" in
    let* alloc_address := GetAllocAddress table 0 in
    AddOverlaySymbols alloc_address
  else if String.eqb arg "ACTOR_PLAYER" then
    let* table := global_value "gKaleidoMgrOverlayTable" in
    let* alloc_address := GetAllocAddress table 1 in
    AddOverlaySymbols alloc_address
  else
    match lookup_symbol_value h arg with
    | Raise _ => print "ERROR: Provided enum value could not be found in the elf"
    | Ok v =>
        let index := cast_u32 v in
        match findall_type_prefix arg with
        | [] => raise (MkExn IndexError ["list index out of range"] [])
        | ovl_type :: _ =>
            match table_of_type ovl_type with
            | None =>
                raise (MkExn PlainException
                         ["Type of enum provided is not supported"] [])
            | Some table_name =>
                let* table := global_value table_name in
                let* alloc_address := GetAllocAddress table index in
                AddOverlaySymbols alloc_address
            end
        end
    end.

End Scripts.

(** ** A host for the examples

    An actor overlay [ovl_En_Kusa], linked at [0x80800000] and loaded at
    [0x80300000]; the symbol [ITEM_BOW] resolves but names no overlay. *)

Module Demo.

Definition info_file : string :=
  "Symbols from " +:+ Py.DQ +:+ "/oot/build/oot.elf" +:+ Py.DQ +:+ "." +:+ Py.NL
  +:+ "0x00000000 - 0x00001060 is ..makerom" +:+ Py.NL
  +:+ "0x00001060 - 0x00002000 is ..boot" +:+ Py.NL
  +:+ "0xffffffff80800000 - 0xffffffff80801800 is ..ovl_En_Kusa" +:+ Py.NL.

Definition execute (info_symbol info_file : string) (cmd : string) : result string :=
  if String.eqb cmd "info symbol 0x80800000" then Ok info_symbol
  else if String.eqb cmd "info file" then Ok info_file
  else if String.eqb cmd "info symbol vramStart"
  then Ok ("EnKusa_Init in section ..ovl_En_Kusa" +:+ Py.NL)
  else if String.eqb cmd "info sym EnKusa_Init"
  then Ok ("EnKusa_Init in section ..ovl_En_Kusa of /oot/build/oot.elf" +:+ Py.NL)
  else if String.eqb cmd (printf_command "_ovl_En_KusaSegmentTextStart")
  then Ok "80800000"
  else if String.eqb cmd (printf_command "_ovl_En_KusaSegmentDataStart")
  then Ok "80801000"
  else if String.eqb cmd (printf_command "_ovl_En_KusaSegmentRoDataStart")
  then Ok "80801400"
  else if String.eqb cmd (printf_command "_ovl_En_KusaSegmentBssStart")
  then Ok "80801800"
  else if String.prefix "add-symbol-file " cmd then Ok EmptyString
  else if String.prefix "remove-symbol-file " cmd then Ok EmptyString
  else Raise (MkExn GdbError ["No symbol in current context."] []).

Definition actor_table : table := fun index field =>
  if Z.eqb index 0x125 then
    if String.eqb field "loadedRamAddr" then Ok 0x80300000
    else if String.eqb field "vramStart" then Ok 0x80800000
    else Raise (MkExn GdbError ["There is no member with that name."] [])
  else if String.eqb field "loadedRamAddr" then Ok 0
  else Ok 0x80900000.

Definition host (info_symbol info_file : string) : Host := {|
  gdb_execute := execute info_symbol info_file;
  format_string := fun addr =>
    if Z.eqb addr 0x80800000 then Ok "0x80800000 <EnKusa_Init>"
    else Ok (PyInt.hex addr);
  lookup_symbol_filename := fun name =>
    if String.eqb name "EnKusa_Init"
    then Ok "src/overlays/actors/ovl_En_Kusa/z_en_kusa.c"
    else Raise (MkExn AttributeError
                  ["'NoneType' object has no attribute 'symtab'"] []);
  lookup_symbol_value := fun name =>
    if String.eqb name "ACTOR_EN_KUSA" then Ok 0x125
    else if String.eqb name "ACTOR_EN_DAIKU" then Ok 0x133
    else if String.eqb name "ITEM_BOW" then Ok 3
    else Raise (MkExn AttributeError
                  ["'NoneType' object has no attribute 'value'"] []);
  lookup_global_symbol := fun name =>
    if String.eqb name "gActorOverlayTable" then Some actor_table else None;
  progspace_filename := Some "/oot/build/oot.elf";
  frame_read_var := fun name =>
    if String.eqb name "allocatedRamAddr" then Ok 0x80300000
    else if String.eqb name "vramStart" then Ok 0x80800000
    else if String.eqb name "ptr" then Ok 0x80300000
    else Raise (MkExn ValueError ["Variable '" +:+ name +:+ "' not found."] []);
  frame_read_var_field := fun _ _ => Ok 0x80300000;
  object_path := fun elf c_file =>
    Ok ("/oot/build/" +:+ Py.drop_last c_file +:+ "o");
  path_stem := fun _ => "z_en_kusa";
  get_section_address_defined := true |}.

(** gdb names the overlay's section when asked about [0x80800000]. *)
Definition gdb : Host :=
  host ("EnKusa_Init in section ..ovl_En_Kusa of /oot/build/oot.elf" +:+ Py.NL)
       info_file.

(** A state in which the overlay is already registered. *)
Definition loaded_state : state :=
  MkState {[ 0x80300000 := "/oot/build/src/overlays/actors/ovl_En_Kusa/z_en_kusa.o" ]}
          ∅ false [] [].

End Demo.

(** ** The vocabulary of the statements *)

(** A command the host takes as a symbol-file registration. *)
Definition is_registration (cmd : string) : bool :=
  String.prefix "add-symbol-file" cmd.

(** The registrations both scripts are meant to issue: read at once, with
    the base [0xFF000000], and an address for each of the four sections. *)
Definition eager_registration (cmd : string) : Prop :=
  exists path text data rodata bss,
    cmd = "add-symbol-file -readnow " +:+ path +:+ " -o 0xFF000000"
          +:+ " -s .text " +:+ PyInt.hex text
          +:+ " -s .data " +:+ PyInt.hex data
          +:+ " -s .rodata " +:+ PyInt.hex rodata
          +:+ " -s .bss " +:+ PyInt.hex bss.

(** The state after [m]. *)
Definition after {A} (m : M A) (s : state) : state := (m s).2.

(** [m] takes every state to one related to it by [R]. *)
Definition steps (R : state -> state -> Prop) {A} (m : M A) : Prop :=
  forall s, R s (after m s).

(** Relations that the queries of the scripts respect: printing, and any
    command passed to gdb that is not a registration. *)
Record query_closed (R : state -> state -> Prop) : Prop := {
  qc_refl : forall s, R s s;
  qc_trans : forall a b c, R a b -> R b c -> R a c;
  qc_print : forall line, steps R (print line);
  qc_execute : forall h cmd, is_registration cmd = false -> steps R (execute h cmd) }.

(** The dictionaries and the breakpoint flag are as they were. *)
Definition same_tables (s s' : state) : Prop :=
  loaded_z64overlay_objects s' = loaded_z64overlay_objects s
  /\ obj_address_map s' = obj_address_map s
  /\ bp_load_enabled s' = bp_load_enabled s.

(** The log has grown by commands that all satisfy [P]. *)
Definition log_grows (P : string -> Prop) (s s' : state) : Prop :=
  exists new, gdb_log s' = gdb_log s ++ new /\ Forall P new.

(** A command is in order when, if it is a registration, it is an eager one. *)
Definition command_in_order (cmd : string) : Prop :=
  is_registration cmd = true -> eager_registration cmd.

(** No command but queries: the tables are kept and nothing was registered. *)
Definition queried (s s' : state) : Prop :=
  same_tables s s' /\ log_grows (fun cmd => is_registration cmd = false) s s'.

(** The four section symbols of [ovl_name] resolve to [addrs] on the host. *)
Definition resolved (h : Host) (ovl_name : string) (addrs : SectionType -> Z) : Prop :=
  forall sec, exists out,
    gdb_execute h
      (printf_command (section_start_name ovl_name (linker_script_name sec))) = Ok out
    /\ PyInt.int16 out = Some (addrs sec).

(** The line lists a range, and the range holds [addr]: the bounds are
    taken modulo [2^32], the lower one is included and the upper one is not. *)
Definition line_contains (addr : Z) (line : string) : bool :=
  match INFO_FILE_LINE_PATTERN_fullmatch line with
  | Some (start_str, end_str, _) =>
      match PyInt.int16 start_str, PyInt.int16 end_str with
      | Some a, Some b => ((a mod 2 ^ 32 <=? addr) && (addr <? b mod 2 ^ 32))%bool
      | _, _ => false
      end
  | None => false
  end.

(** The state once [cmd] has been passed to gdb, and once [line] has been
    printed. *)
Definition logged (cmd : string) (s : state) : state :=
  MkState (loaded_z64overlay_objects s) (obj_address_map s) (bp_load_enabled s)
          (stdout s) (gdb_log s ++ [cmd]).

Definition printed (line : string) (s : state) : state :=
  MkState (loaded_z64overlay_objects s) (obj_address_map s) (bp_load_enabled s)
          (stdout s ++ [line]) (gdb_log s).

Definition no_section_found (addr : Z) : pyexn :=
  MkExn ValueError ["No section found for address " +:+ PyInt.hex addr] [].

Definition already_loaded : pyexn := MkExn PlainException ["Already loaded"] [].

(** The arguments [z64ovl] treats apart, once in upper case: the two [AUTO]
    sub-commands and the aliases; [ovl] knows the aliases only. *)
Definition z64_subcommand_or_alias (arg : string) : bool :=
  (String.eqb arg "AUTO ON" || String.eqb arg "AUTO OFF"
   || is_pause_alias arg || String.eqb arg "ACTOR_PLAYER")%bool.

Definition ovl_alias (arg : string) : bool :=
  (is_pause_alias arg || String.eqb arg "ACTOR_PLAYER")%bool.

Definition unsupported_type : string := "ERROR: Type of enum provided is not supported".
Definition enum_not_found : string :=
  "ERROR: Provided enum value could not be found in the elf".
Definition not_loaded : string := "ERROR: Requested overlay is not currently loaded".

Definition unsupported_type_error : pyexn :=
  MkExn PlainException ["Type of enum provided is not supported"] [].

(** A character [repr] leaves as it is between single quotes. *)
Definition plain_char (c : ascii) : bool :=
  (Py.in_range 32 126 c && negb (Ascii.eqb c "'") && negb (Ascii.eqb c "\"))%bool.

Definition auto_on_message : string := "z64 overlays will be automatically loaded".
Definition auto_off_message : string := "z64 overlays will NOT be automatically loaded".

(** The state after an [AUTO] sub-command: the flag set to [b] and one line
    printed; the dictionaries and the log are those of [s]. *)
Definition auto_set (b : bool) (line : string) (s : state) : state :=
  MkState (loaded_z64overlay_objects s) (obj_address_map s) b
          (stdout s ++ [line]) (gdb_log s).

(** The addresses the demonstration host gives the four section symbols. *)
Definition demo_addresses (sec : SectionType) : Z :=
  match sec with
  | TEXT => 0x80800000 | DATA => 0x80801000
  | RODATA => 0x80801400 | BSS => 0x80801800
  end.

(** ** Vocabulary for the further properties *)

(** A 32-bit value, as [cast(TYPE_U32)] gives. *)
Definition is_u32 (k : Z) : Prop := 0 <= k < 2 ^ 32.

(** The registry is as it was, or has one entry more, at a 32-bit address
    that was free. *)
Definition registry_step (s s' : state) : Prop :=
  loaded_z64overlay_objects s' = loaded_z64overlay_objects s
  \/ exists k path,
       is_u32 k
       /\ loaded_z64overlay_objects s !! k = None
       /\ loaded_z64overlay_objects s' = <[k := path]> (loaded_z64overlay_objects s).

(** The registry is as it was, or has lost the entry of one 32-bit address. *)
Definition registry_drop (s s' : state) : Prop :=
  loaded_z64overlay_objects s' = loaded_z64overlay_objects s
  \/ exists k,
       is_u32 k
       /\ is_Some (loaded_z64overlay_objects s !! k)
       /\ loaded_z64overlay_objects s' = delete k (loaded_z64overlay_objects s).

(** Every address in the registry is a 32-bit value. *)
Definition registry_in_u32 (s : state) : Prop :=
  forall k, is_Some (loaded_z64overlay_objects s !! k) -> is_u32 k.

(** A host like [Demo.gdb] that refuses every registration. *)
Definition refusing_gdb : Host := {|
  gdb_execute := fun cmd =>
    if String.prefix "add-symbol-file " cmd
    then Raise (MkExn GdbError ["No such file or directory."] [])
    else gdb_execute Demo.gdb cmd;
  format_string := format_string Demo.gdb;
  lookup_symbol_filename := lookup_symbol_filename Demo.gdb;
  lookup_symbol_value := lookup_symbol_value Demo.gdb;
  lookup_global_symbol := lookup_global_symbol Demo.gdb;
  progspace_filename := progspace_filename Demo.gdb;
  frame_read_var := frame_read_var Demo.gdb;
  frame_read_var_field := frame_read_var_field Demo.gdb;
  object_path := object_path Demo.gdb;
  path_stem := path_stem Demo.gdb;
  get_section_address_defined := get_section_address_defined Demo.gdb |}.

(** The line [unload_z64overlay_object] prints for the object file [obj_p]
    when [left] entries remain. *)
Definition unloading_message (h : Host) (obj_p : string) (left : nat) : string :=
  "Unloading overlay: " +:+ path_stem h obj_p +:+ " "
  +:+ "(" +:+ PyInt.str (Z.of_nat left) +:+ " left)".

(** A host like [Demo.gdb] in a frame whose variables cannot be read: the
    function was built without debug information. *)
Definition gdb_without_locals : Host := {|
  gdb_execute := gdb_execute Demo.gdb;
  format_string := format_string Demo.gdb;
  lookup_symbol_filename := lookup_symbol_filename Demo.gdb;
  lookup_symbol_value := lookup_symbol_value Demo.gdb;
  lookup_global_symbol := lookup_global_symbol Demo.gdb;
  progspace_filename := progspace_filename Demo.gdb;
  frame_read_var := fun name =>
    Raise (MkExn ValueError ["Variable '" +:+ name +:+ "' not found."] []);
  frame_read_var_field := fun name _ =>
    Raise (MkExn ValueError ["Variable '" +:+ name +:+ "' not found."] []);
  object_path := object_path Demo.gdb;
  path_stem := path_stem Demo.gdb;
  get_section_address_defined := get_section_address_defined Demo.gdb |}.

(** What indexing the empty list of matches raises. *)
Definition index_error : pyexn := MkExn IndexError ["list index out of range"] [].

(** The flag of the load breakpoint and the dictionary of [ovl] are as they
    were; the registry and the flag are as they were. *)
Definition keeps_obj_address_map (s s' : state) : Prop :=
  obj_address_map s' = obj_address_map s.

Definition keeps_flag (s s' : state) : Prop :=
  bp_load_enabled s' = bp_load_enabled s.

Definition keeps_registry_and_flag (s s' : state) : Prop :=
  loaded_z64overlay_objects s' = loaded_z64overlay_objects s
  /\ bp_load_enabled s' = bp_load_enabled s.

(** Relations that every command passed to gdb respects, registrations
    included. *)
Record frame_rel (R : state -> state -> Prop) : Prop := {
  fr_closed : query_closed R;
  fr_execute : forall h cmd, steps R (execute h cmd) }.

(** The section a line of [info file] names, when it matches the pattern. *)
Definition section_of_line (line : string) : string :=
  match INFO_FILE_LINE_PATTERN_fullmatch line with
  | Some (_, _, section) => section
  | None => EmptyString
  end.

(** The answer of [get_section_by_addr] read off the lines: the section of
    the first line whose range holds [addr]. *)
Definition first_section (addr : Z) (lines : list string) : result string :=
  match List.find (line_contains addr) lines with
  | Some line => Ok (section_of_line line)
  | None => Raise (no_section_found addr)
  end.

(** [s.isascii()]. *)
Definition isascii (s : string) : bool :=
  all_chars (fun c => Nat.ltb (Py.code c) 128) s.

(** The line [AddOverlaySymbols] prints first. *)
Definition loading_symbols_message (alloc : Z) : string :=
  Py.join " " ["Loading symbols for actor at "; PyInt.str alloc].

(** What [AddOverlaySymbols] reads off gdb's two answers: the function at
    [vramStart], and the section that holds it. *)
Definition ovl_target_func_name (out : string) : string :=
  Py.rstrip (Py.partition " " out).1.1.

Definition ovl_section_of (out : string) : string :=
  Py.rstrip (Py.partition " " (Py.partition "section .." out).2).1.1.

(** The state once [AddOverlaySymbols] has printed its first line and put
    its two questions, gdb having answered the first with [out]. *)
Definition ovl_first_questions (alloc : Z) (out : string) (s : state) : state :=
  logged ("info sym " +:+ ovl_target_func_name out)
    (logged "info symbol vramStart" (printed (loading_symbols_message alloc) s)).

(** The state once the four section symbols of [ovl_name] have been asked
    for, text first. *)
Definition asked_section_symbols (ovl_name : string) (s : state) : state :=
  fold_left
    (fun st sec =>
       logged (printf_command (section_start_name ovl_name (linker_script_name sec))) st)
    SectionTypes s.

(** A host like [Demo.gdb] on which [gdb_load_ovl.py] was sourced alone. *)
Definition ovl_alone_gdb : Host := {|
  gdb_execute := gdb_execute Demo.gdb;
  format_string := format_string Demo.gdb;
  lookup_symbol_filename := lookup_symbol_filename Demo.gdb;
  lookup_symbol_value := lookup_symbol_value Demo.gdb;
  lookup_global_symbol := lookup_global_symbol Demo.gdb;
  progspace_filename := progspace_filename Demo.gdb;
  frame_read_var := frame_read_var Demo.gdb;
  frame_read_var_field := frame_read_var_field Demo.gdb;
  object_path := object_path Demo.gdb;
  path_stem := path_stem Demo.gdb;
  get_section_address_defined := false |}.

(** The line printed when [get_sym_section] failed and [info file] is tried. *)
Definition fallback_message : string :=
  "get_sym_section() failed, trying get_section_by_addr()".

(** A host like [Demo.gdb] on which [info symbol] finds nothing at the
    address of the overlay. *)
Definition gdb_without_symbol_info : Host :=
  Demo.host ("No symbol matches 0x80800000." +:+ Py.NL) Demo.info_file.

(** A listing as gdb prints it: the lines of the ranges start with a tab. *)
Definition indented_info_file : string :=
  "Local exec file:" +:+ Py.NL
  +:+ Py.TAB +:+ "0x00000000 - 0x00001060 is ..makerom" +:+ Py.NL
  +:+ Py.TAB +:+ "0x00001060 - 0x00002000 is ..boot" +:+ Py.NL
  +:+ Py.TAB +:+ "0xffffffff80800000 - 0xffffffff80801800 is ..ovl_En_Kusa" +:+ Py.NL.

(** ** Reasoning about commands *)

Lemma bind_Ok_inv {A B} (m : M A) (k : A -> M B) s b s' :
  bind m k s = (Ok b, s') ->
  exists a s1, m s = (Ok a, s1) /\ k a s1 = (Ok b, s').
Proof.
  unfold bind. destruct (m s) as [[a | e] s1]; intros H.
  - exists a, s1. split; [reflexivity | exact H].
  - discriminate H.
Qed.

Lemma lift_Ok_inv {A} (r : result A) s a s' :
  lift r s = (Ok a, s') -> r = Ok a /\ s' = s.
Proof. unfold lift. intros H. inversion H. split; reflexivity. Qed.

Lemma ret_Ok_inv {A} (x : A) s a s' :
  ret x s = (Ok a, s') -> a = x /\ s' = s.
Proof. unfold ret. intros H. inversion H. split; reflexivity. Qed.

Section Steps.

Variable R : state -> state -> Prop.
Hypothesis HR : query_closed R.

Lemma steps_ret {A} (a : A) : steps R (ret a).
Proof. intros s. apply (qc_refl R HR). Qed.

Lemma steps_raise {A} (e : pyexn) : steps R (@raise A e).
Proof. intros s. apply (qc_refl R HR). Qed.

Lemma steps_lift {A} (r : result A) : steps R (lift r).
Proof. intros s. apply (qc_refl R HR). Qed.

Lemma steps_get_loaded : steps R get_loaded.
Proof. intros s. apply (qc_refl R HR). Qed.

Lemma steps_bind {A B} (m : M A) (k : A -> M B) :
  steps R m -> (forall a, steps R (k a)) -> steps R (bind m k).
Proof.
  intros Hm Hk s. specialize (Hm s). unfold after, bind in *.
  destruct (m s) as [[a | e] s1]; simpl in *.
  - eapply (qc_trans R HR); [exact Hm | apply Hk].
  - exact Hm.
Qed.

Lemma steps_try_except {A} (m : M A) (handler : pyexn -> M A) :
  steps R m -> (forall e, steps R (handler e)) -> steps R (try_except m handler).
Proof.
  intros Hm Hk s. specialize (Hm s). unfold after, try_except in *.
  destruct (m s) as [[a | e] s1]; simpl in *.
  - exact Hm.
  - eapply (qc_trans R HR); [exact Hm | apply Hk].
Qed.

Variable h : Host.

Lemma steps_get_sym_addr_from_name name : steps R (get_sym_addr_from_name h name).
Proof.
  unfold get_sym_addr_from_name. apply steps_bind.
  - apply (qc_execute R HR). reflexivity.
  - intros out. destruct (PyInt.int16 out); [apply steps_ret | apply steps_raise].
Qed.

Lemma steps_get_section_address ovl k : steps R (get_section_address h ovl k).
Proof.
  unfold get_section_address. apply steps_try_except.
  - apply steps_get_sym_addr_from_name.
  - intros e. destruct (is_Exception e); apply steps_raise.
Qed.

Lemma steps_for_each_section {V} (f : SectionType -> M V) :
  (forall sec, steps R (f sec)) -> steps R (for_each_section f).
Proof.
  intros Hf. unfold for_each_section.
  repeat (apply steps_bind; [apply Hf | intros ?]). apply steps_ret.
Qed.

Lemma steps_get_sym_section a : steps R (get_sym_section h a).
Proof.
  unfold get_sym_section. apply steps_bind.
  - apply (qc_execute R HR). reflexivity.
  - intros out. destruct (Py.split "in section " out) as [| p0 [| p1 [| p2 l]]];
      try apply steps_raise.
    destruct (Py.split " of " p1); [apply steps_raise | apply steps_ret].
Qed.

Lemma steps_int16_or_raise t : steps R (int16_or_raise t).
Proof.
  unfold int16_or_raise. destruct (PyInt.int16 t); [apply steps_ret | apply steps_raise].
Qed.

Lemma steps_scan_lines a lines : steps R (scan_lines a lines).
Proof.
  induction lines as [| line rest IH]; simpl.
  - apply steps_raise.
  - destruct (INFO_FILE_LINE_PATTERN_fullmatch line) as [[[st en] sec] |]; [| exact IH].
    apply steps_bind; [apply steps_int16_or_raise | intros x].
    apply steps_bind; [apply steps_int16_or_raise | intros y].
    destruct (_ && _)%bool; [apply steps_ret | exact IH].
Qed.

Lemma steps_get_section_by_addr a : steps R (get_section_by_addr h a).
Proof.
  unfold get_section_by_addr. apply steps_bind.
  - apply (qc_execute R HR). reflexivity.
  - intros out. apply steps_scan_lines.
Qed.

Lemma steps_get_sym_name_from_addr a : steps R (get_sym_name_from_addr h a).
Proof.
  unfold get_sym_name_from_addr. apply steps_bind; [apply steps_lift | intros t].
  destruct (VALUE_SYM_FMT_PATTERN_fullmatch t) as [[[ad [nm |]] [off |]] |];
    try (destruct (negb _)); try apply steps_raise; try apply steps_ret.
  destruct (PyInt.int10_of_digits off) as [n |]; [| apply steps_raise].
  destruct (Z.eqb n 0); apply steps_raise.
Qed.

Lemma steps_overlay_section_name a : steps R (overlay_section_name h a).
Proof.
  unfold overlay_section_name. apply steps_bind; [| intros n; apply steps_ret].
  apply steps_try_except; [apply steps_get_sym_section | intros e].
  destruct (is_ValueError e); [| apply steps_raise].
  apply steps_bind; [apply (qc_print R HR) | intros _; apply steps_get_section_by_addr].
Qed.

Lemma steps_global_value name : steps R (global_value h name).
Proof.
  unfold global_value. destruct (lookup_global_symbol h name);
    [apply steps_ret | apply steps_raise].
Qed.

(** What follows a statement that raises is not run. *)
Lemma steps_raise_bind {A B} (e : pyexn) (k : A -> M B) : steps R (bind (raise e) k).
Proof. intros s. apply (qc_refl R HR). Qed.

Lemma steps_global_get_section_address ovl k :
  steps R (global_get_section_address h ovl k).
Proof.
  unfold global_get_section_address.
  destruct (get_section_address_defined h);
    [apply steps_get_section_address | apply steps_raise].
Qed.

(** [AddOverlaySymbols] stops at the assignment into [obj_address_map]:
    all it passes to gdb are questions. *)
Lemma steps_AddOverlaySymbols alloc : steps R (AddOverlaySymbols h alloc).
Proof.
  unfold AddOverlaySymbols.
  destruct (Z.eqb alloc 0); [apply (qc_print R HR) |].
  apply steps_bind; [apply (qc_print R HR) | intros _].
  apply steps_bind; [apply (qc_execute R HR); reflexivity | intros out1].
  apply steps_bind; [apply (qc_execute R HR); reflexivity | intros out2].
  do 4 (apply steps_bind; [apply steps_global_get_section_address | intros ?]).
  apply steps_bind; [apply steps_lift | intros c_file].
  unfold assign_obj_address_map. apply steps_raise_bind.
Qed.

Lemma steps_LoadOvlCmd_invoke arg : steps R (LoadOvlCmd_invoke h arg).
Proof.
  assert (forall t i, steps R
            (let* alloc_address := GetAllocAddress t i in
             AddOverlaySymbols h alloc_address)) as Htable.
  { intros t i. apply steps_bind; [| intros a; apply steps_AddOverlaySymbols].
    unfold GetAllocAddress.
    apply steps_bind; [apply steps_lift | intros v; apply steps_ret]. }
  unfold LoadOvlCmd_invoke.
  destruct (is_pause_alias _).
  { apply steps_bind; [apply steps_global_value | intros t; apply Htable]. }
  destruct (String.eqb _ "ACTOR_PLAYER").
  { apply steps_bind; [apply steps_global_value | intros t; apply Htable]. }
  destruct (lookup_symbol_value h _); [| apply (qc_print R HR)].
  destruct (findall_type_prefix _) as [| ovl_type l]; [apply steps_raise |].
  destruct (table_of_type ovl_type); [| apply steps_raise].
  apply steps_bind; [apply steps_global_value | intros t; apply Htable].
Qed.

End Steps.

Lemma log_grows_same P s s' : gdb_log s' = gdb_log s -> log_grows P s s'.
Proof. intros E. exists []. split; [rewrite E; symmetry; apply app_nil_r | constructor]. Qed.

Lemma log_grows_refl P s : log_grows P s s.
Proof. apply log_grows_same. reflexivity. Qed.

Lemma log_grows_trans P a b c :
  log_grows P a b -> log_grows P b c -> log_grows P a c.
Proof.
  intros (n1 & E1 & F1) (n2 & E2 & F2). exists (n1 ++ n2). split.
  - rewrite E2, E1. symmetry. apply app_assoc.
  - apply Forall_app. split; assumption.
Qed.

Lemma log_grows_weaken (P Q : string -> Prop) s s' :
  (forall c, P c -> Q c) -> log_grows P s s' -> log_grows Q s s'.
Proof.
  intros HPQ (n & E & F). exists n. split; [exact E |].
  eapply Forall_impl; [exact F | exact HPQ].
Qed.

Lemma log_grows_execute (P : string -> Prop) h cmd s :
  P cmd -> log_grows P s (after (execute h cmd) s).
Proof.
  intros Hc. exists [cmd]. split; [reflexivity | repeat constructor; exact Hc].
Qed.

Lemma queried_closed : query_closed queried.
Proof.
  split.
  - intros s. split; [repeat split | apply log_grows_refl].
  - intros a b c [(A1 & A2 & A3) L1] [(B1 & B2 & B3) L2]. split.
    + repeat split; congruence.
    + eapply log_grows_trans; eassumption.
  - intros line s. split; [repeat split | apply log_grows_same; reflexivity].
  - intros h cmd Hc s. split; [repeat split | apply log_grows_execute; exact Hc].
Qed.

Lemma in_order_closed : query_closed (log_grows command_in_order).
Proof.
  split.
  - apply log_grows_refl.
  - apply log_grows_trans.
  - intros line s. apply log_grows_same. reflexivity.
  - intros h cmd Hc s. apply log_grows_execute. intros Hr. congruence.
Qed.

(** When [m] returns, the state it returns in is the one [steps] speaks of. *)
Lemma steps_at {R : state -> state -> Prop} {A} (m : M A) s r s' :
  steps R m -> m s = (r, s') -> R s s'.
Proof. intros Hm E. specialize (Hm s). unfold after in Hm. rewrite E in Hm. exact Hm. Qed.

Lemma get_section_address_Ok_inv h ovl k s n s' :
  get_section_address h ovl k s = (Ok n, s') ->
  exists out, gdb_execute h (printf_command (section_start_name ovl k)) = Ok out
              /\ PyInt.int16 out = Some n.
Proof.
  unfold get_section_address, try_except, get_sym_addr_from_name, bind, execute.
  destruct (gdb_execute h _) as [out | e] eqn:E.
  - destruct (PyInt.int16 out) as [v |] eqn:Ev.
    + intros H. inversion H. subst. exists out. split; [reflexivity | assumption].
    + unfold raise. destruct (is_Exception _); discriminate.
  - unfold raise. destruct (is_Exception e); discriminate.
Qed.

Lemma for_each_section_Ok_inv h ovl s addrs s' :
  for_each_section
    (fun sec => get_section_address h ovl (linker_script_name sec)) s = (Ok addrs, s') ->
  resolved h ovl addrs.
Proof.
  unfold for_each_section. intros H.
  apply bind_Ok_inv in H as (a1 & s1 & H1 & H).
  apply bind_Ok_inv in H as (a2 & s2 & H2 & H).
  apply bind_Ok_inv in H as (a3 & s3 & H3 & H).
  apply bind_Ok_inv in H as (a4 & s4 & H4 & H).
  apply ret_Ok_inv in H as [-> _].
  intros [| | |]; eapply get_section_address_Ok_inv; eassumption.
Qed.

(** A load that returns has found the address free, has only asked
    questions up to the point where it records the object file, and ends on
    one registration, at the offsets of [ovl_offsets]. *)
Lemma load_z64overlay_object_Ok_inv h alloc vram s s' :
  load_z64overlay_object h alloc vram s = (Ok tt, s') ->
  loaded_z64overlay_objects s !! alloc = None
  /\ exists s1 ovl addrs path,
       queried s s1 /\ resolved h ovl addrs
       /\ s' = MkState (<[alloc := path]> (loaded_z64overlay_objects s1))
                       (obj_address_map s1) (bp_load_enabled s1)
                       (stdout s1 ++ ["Reading " +:+ path_stem h path +:+ "..."]
                                  ++ ["Complete."])
                       (gdb_log s1
                          ++ [add_symbol_file_command path (ovl_offsets alloc vram addrs)]).
Proof.
  pose proof queried_closed as QC.
  unfold load_z64overlay_object. intros H.
  apply bind_Ok_inv in H as (loaded & s0 & H0 & H).
  unfold get_loaded in H0. inversion H0; subst loaded s0; clear H0.
  destruct (loaded_z64overlay_objects s !! alloc) eqn:Hfree; [discriminate H |].
  split; [reflexivity |].
  apply bind_Ok_inv in H as (sec_name & s1 & H1 & H).
  apply (steps_at _ _ _ _ (steps_overlay_section_name queried QC h vram)) in H1.
  apply bind_Ok_inv in H as (addrs & s2 & H2 & H).
  pose proof (for_each_section_Ok_inv _ _ _ _ _ H2) as Hres.
  apply (steps_at _ _ _ _
           (steps_for_each_section queried QC _
              (fun sec => steps_get_section_address queried QC h _ _))) in H2.
  apply bind_Ok_inv in H as (sym & s3 & H3 & H).
  apply (steps_at _ _ _ _ (steps_get_sym_name_from_addr queried QC h vram)) in H3.
  apply bind_Ok_inv in H as (c_file & s4 & H4 & H).
  apply lift_Ok_inv in H4 as [_ ->].
  apply bind_Ok_inv in H as (elf & s5 & H5 & H).
  assert (s5 = s3) as ->.
  { destruct (progspace_filename h); [apply ret_Ok_inv in H5 as [_ ->]; reflexivity
                                     | discriminate H5]. }
  apply bind_Ok_inv in H as (path & s6 & H6 & H).
  apply lift_Ok_inv in H6 as [_ ->].
  exists s3, sec_name, addrs, path.
  split; [| split; [exact Hres |]].
  - eapply (qc_trans _ QC); [exact H1 |]. eapply (qc_trans _ QC); eassumption.
  - cbv [bind get_loaded set_loaded print execute] in H.
    cbn [loaded_z64overlay_objects obj_address_map bp_load_enabled stdout gdb_log] in H.
    destruct (gdb_execute h _); [| discriminate H].
    inversion H. rewrite <- app_assoc. reflexivity.
Qed.

Lemma add_symbol_file_command_eq path offsets :
  add_symbol_file_command path offsets
  = "add-symbol-file -readnow " +:+ path +:+ " -o 0xFF000000"
    +:+ " -s .text " +:+ PyInt.hex (offsets TEXT)
    +:+ " -s .data " +:+ PyInt.hex (offsets DATA)
    +:+ " -s .rodata " +:+ PyInt.hex (offsets RODATA)
    +:+ " -s .bss " +:+ PyInt.hex (offsets BSS).
Proof. reflexivity. Qed.

Lemma add_symbol_file_command_in_order path offsets :
  command_in_order (add_symbol_file_command path offsets).
Proof.
  intros _. exists path, (offsets TEXT), (offsets DATA), (offsets RODATA), (offsets BSS).
  apply add_symbol_file_command_eq.
Qed.

(** A command whose continuation never returns does not return. *)
Lemma bind_raises {A B} (m : M A) (k : A -> M B) s :
  (forall a s1, exists e, (k a s1).1 = Raise e) ->
  exists e, (bind m k s).1 = Raise e.
Proof.
  intros H. unfold bind. destruct (m s) as [[a | e] s1]; [apply H |].
  exists e. reflexivity.
Qed.

(** For an overlay that is loaded, [AddOverlaySymbols] ends in an
    exception: at the latest, the one of the assignment into
    [obj_address_map]. *)
Lemma AddOverlaySymbols_raises h alloc s :
  alloc <> 0 -> exists e, (AddOverlaySymbols h alloc s).1 = Raise e.
Proof.
  intros Hnz. unfold AddOverlaySymbols.
  destruct (Z.eqb_spec alloc 0) as [E | _]; [contradiction |].
  apply bind_raises. intros _ s0.
  apply bind_raises. intros out1 s1.
  apply bind_raises. intros out2 s2.
  do 4 (apply bind_raises; intros ? ?).
  apply bind_raises. intros c_file s7.
  eexists. reflexivity.
Qed.

(** [AddOverlaySymbols] returns in one way only: the overlay is not loaded,
    and the message that says so has been printed. *)
Lemma AddOverlaySymbols_Ok_inv h alloc s s' :
  AddOverlaySymbols h alloc s = (Ok tt, s') ->
  alloc = 0 /\ s' = printed not_loaded s.
Proof.
  intros H. destruct (Z.eq_dec alloc 0) as [E | Hnz].
  - split; [exact E |]. subst alloc. inversion H. reflexivity.
  - destruct (AddOverlaySymbols_raises h alloc s Hnz) as [e He].
    rewrite H in He. discriminate He.
Qed.

Section InOrder.

Variable h : Host.

Local Abbreviation in_order := (log_grows command_in_order).

Lemma in_order_load_z64overlay_object alloc vram :
  steps in_order (load_z64overlay_object h alloc vram).
Proof.
  pose proof in_order_closed as IC.
  unfold load_z64overlay_object.
  apply (steps_bind _ IC); [apply (steps_get_loaded _ IC) | intros loaded].
  destruct (loaded !! alloc); [apply (steps_raise _ IC) |].
  apply (steps_bind _ IC); [apply (steps_overlay_section_name _ IC) | intros sec_name].
  apply (steps_bind _ IC).
  { apply (steps_for_each_section _ IC). intros sec.
    apply (steps_get_section_address _ IC). }
  intros addrs.
  apply (steps_bind _ IC); [apply (steps_get_sym_name_from_addr _ IC) | intros sym].
  apply (steps_bind _ IC); [apply (steps_lift _ IC) | intros c_file].
  apply (steps_bind _ IC).
  { destruct (progspace_filename h); [apply (steps_ret _ IC) | apply (steps_raise _ IC)]. }
  intros elf.
  apply (steps_bind _ IC); [apply (steps_lift _ IC) | intros path].
  apply (steps_bind _ IC); [apply (steps_get_loaded _ IC) | intros loaded'].
  apply (steps_bind _ IC);
    [intros s; apply log_grows_same; reflexivity | intros _].
  apply (steps_bind _ IC); [apply (qc_print _ IC) | intros _].
  apply (steps_bind _ IC); [| intros _; apply (qc_print _ IC)].
  intros s. apply log_grows_execute. apply add_symbol_file_command_in_order.
Qed.

Lemma in_order_unload_z64overlay_object alloc :
  steps in_order (unload_z64overlay_object h alloc).
Proof.
  pose proof in_order_closed as IC.
  unfold unload_z64overlay_object.
  apply (steps_bind _ IC); [apply (steps_get_loaded _ IC) | intros loaded].
  destruct (loaded !! alloc) as [obj_p |]; [| apply (steps_ret _ IC)].
  apply (steps_bind _ IC);
    [intros s; apply log_grows_same; reflexivity | intros _].
  apply (steps_bind _ IC); [apply (steps_get_loaded _ IC) | intros loaded'].
  apply (steps_bind _ IC); [apply (qc_print _ IC) | intros _].
  apply (steps_bind _ IC); [| intros _; apply (steps_ret _ IC)].
  apply (qc_execute _ IC). reflexivity.
Qed.

Lemma in_order_load_z64overlay_object_from_table t index :
  steps in_order (load_z64overlay_object_from_table h t index).
Proof.
  pose proof in_order_closed as IC.
  unfold load_z64overlay_object_from_table.
  apply (steps_bind _ IC); [apply (steps_lift _ IC) | intros v].
  destruct (Z.eqb _ _); [apply (qc_print _ IC) |].
  apply (steps_bind _ IC); [apply (steps_lift _ IC) | intros v'].
  apply in_order_load_z64overlay_object.
Qed.

Lemma in_order_LoadZ64OvlCmd_invoke arg :
  steps in_order (LoadZ64OvlCmd_invoke h arg).
Proof.
  pose proof in_order_closed as IC.
  unfold LoadZ64OvlCmd_invoke.
  destruct (String.eqb _ "AUTO ON").
  { apply (steps_bind _ IC); [intros s; apply log_grows_same; reflexivity |].
    intros _. apply (qc_print _ IC). }
  destruct (String.eqb _ "AUTO OFF").
  { apply (steps_bind _ IC); [intros s; apply log_grows_same; reflexivity |].
    intros _. apply (qc_print _ IC). }
  destruct (is_pause_alias _).
  { apply (steps_bind _ IC); [apply (steps_global_value _ IC) | intros t].
    apply in_order_load_z64overlay_object_from_table. }
  destruct (String.eqb _ "ACTOR_PLAYER").
  { apply (steps_bind _ IC); [apply (steps_global_value _ IC) | intros t].
    apply in_order_load_z64overlay_object_from_table. }
  destruct (findall_type_prefix _) as [| ovl_type l]; [apply (steps_raise _ IC) |].
  destruct (table_of_type ovl_type); [| apply (qc_print _ IC)].
  apply (steps_bind _ IC); [apply (steps_global_value _ IC) | intros t].
  destruct (lookup_symbol_value h _); [| apply (qc_print _ IC)].
  apply in_order_load_z64overlay_object_from_table.
Qed.

Lemma in_order_LoadOvlCmd_invoke arg :
  steps in_order (LoadOvlCmd_invoke h arg).
Proof. apply steps_LoadOvlCmd_invoke. apply in_order_closed. Qed.

Lemma in_order_BreakpointOverlayLoad_stop :
  steps in_order (BreakpointOverlayLoad_stop h).
Proof.
  pose proof in_order_closed as IC.
  unfold BreakpointOverlayLoad_stop.
  apply (steps_bind _ IC); [apply (steps_lift _ IC) | intros v].
  apply (steps_bind _ IC); [apply (steps_lift _ IC) | intros v'].
  apply (steps_bind _ IC); [apply in_order_load_z64overlay_object |].
  intros _. apply (steps_ret _ IC).
Qed.

End InOrder.

(** ** Facts about the text operations *)

Lemma append_cons c (s t : string) : String c s +:+ t = String c (s +:+ t).
Proof. reflexivity. Qed.

Lemma append_empty_r (s : string) : s +:+ EmptyString = s.
Proof.
  induction s as [| c s IH]; [reflexivity |].
  rewrite append_cons, IH. reflexivity.
Qed.

Lemma rev_onto_twice s : forall a b,
  Py.rev_onto (Py.rev_onto s a) b = Py.rev_onto a (s +:+ b).
Proof.
  induction s as [| c s IH]; intros a b; [reflexivity |].
  rewrite append_cons. simpl. rewrite IH. reflexivity.
Qed.

Lemma rev_involutive (s : string) : Py.rev (Py.rev s) = s.
Proof. unfold Py.rev. rewrite rev_onto_twice. apply append_empty_r. Qed.

Lemma all_chars_rev_onto p s : forall acc,
  all_chars p (Py.rev_onto s acc) = (all_chars p s && all_chars p acc)%bool.
Proof.
  induction s as [| c s IH]; intros acc; simpl; [reflexivity |].
  rewrite IH. simpl. destruct (p c), (all_chars p s); reflexivity.
Qed.

Lemma all_chars_app p s t :
  all_chars p (s +:+ t) = (all_chars p s && all_chars p t)%bool.
Proof.
  induction s as [| c s IH]; [reflexivity |].
  rewrite append_cons. simpl. rewrite IH. destruct (p c); reflexivity.
Qed.

Lemma lstrip_by_none p s :
  all_chars (fun c => negb (p c)) s = true -> Py.lstrip_by p s = s.
Proof.
  destruct s as [| c s]; simpl; [reflexivity |].
  destruct (p c); simpl; [discriminate | reflexivity].
Qed.

Lemma rstrip_by_none p s :
  all_chars (fun c => negb (p c)) s = true -> Py.rstrip_by p s = s.
Proof.
  intros H. unfold Py.rstrip_by. rewrite lstrip_by_none.
  - apply rev_involutive.
  - unfold Py.rev. rewrite all_chars_rev_onto, H. reflexivity.
Qed.

Lemma hexdigit_not_space c :
  PyInt.is_hexdigit c = true -> Py.is_literal_space c = false.
Proof.
  destruct c as [[] [] [] [] [] [] [] []]; intros H; vm_compute in H |- *;
    congruence.
Qed.

Lemma hexdigit_not_underscore c :
  PyInt.is_hexdigit c = true -> Ascii.eqb c "_" = false.
Proof.
  destruct c as [[] [] [] [] [] [] [] []]; intros H; vm_compute in H |- *;
    congruence.
Qed.

Lemma lower_x c :
  Ascii.eqb (Py.lower_char c) "x" = true -> c = "x"%char \/ c = "X"%char.
Proof.
  destruct c as [[] [] [] [] [] [] [] []]; intros H; vm_compute in H;
    try discriminate H; first [left; reflexivity | right; reflexivity].
Qed.

Lemma all_chars_impl (p q : ascii -> bool) s :
  (forall c, p c = true -> q c = true) ->
  all_chars p s = true -> all_chars q s = true.
Proof.
  intros Hpq. induction s as [| c s IH]; simpl; [reflexivity |].
  intros H. apply andb_prop in H as [Hc Hs].
  rewrite (Hpq c Hc), (IH Hs). reflexivity.
Qed.

Lemma span_hexdigits_all s :
  all_chars PyInt.is_hexdigit (span_hexdigits s).1 = true.
Proof.
  induction s as [| c s IH]; simpl; [reflexivity |].
  destruct (PyInt.is_hexdigit c) eqn:Hc; [| reflexivity].
  destruct (span_hexdigits s) as [ds r]. simpl in *. rewrite Hc, IH. reflexivity.
Qed.

Lemma digits16_all_hex ds :
  all_chars PyInt.is_hexdigit ds = true ->
  forall acc, exists n, PyInt.digits16 acc PyInt.SeenDigit ds = Some n.
Proof.
  induction ds as [| c ds IH]; simpl; intros H acc; [eexists; reflexivity |].
  apply andb_prop in H as [Hc Hs].
  rewrite (hexdigit_not_underscore c Hc).
  unfold PyInt.is_hexdigit in Hc. destruct (PyInt.digit_value c); [| discriminate].
  apply IH. exact Hs.
Qed.

(** The text of a group that matched [0x] and hexadecimal digits is a
    literal [int(..., 16)] converts. *)
Lemma match_hex_literal_converts s lit r :
  match_hex_literal s = Some (lit, r) -> exists n, PyInt.int16 lit = Some n.
Proof.
  unfold match_hex_literal. destruct s as [| c0 [| c1 s]]; try discriminate.
  destruct (Ascii.eqb_spec c0 "0") as [-> |]; [| discriminate].
  destruct (Ascii.eqb (Py.lower_char c1) "x") eqn:Hx; [| discriminate].
  pose proof (span_hexdigits_all s) as Hall.
  destruct (span_hexdigits s) as [ds r']. simpl in Hall.
  destruct ds as [| d ds]; [discriminate |]. intros H. inversion H. subst. clear H.
  assert (all_chars (fun c => negb (Py.is_literal_space c))
            (String "0" (String c1 (String d ds))) = true) as Hns.
  { change (String "0" (String c1 (String d ds)))
      with (String "0" (String c1 EmptyString) +:+ String d ds).
    rewrite all_chars_app. apply andb_true_intro. split.
    - destruct (lower_x c1 Hx) as [-> | ->]; reflexivity.
    - eapply all_chars_impl; [| exact Hall].
      intros c Hc. rewrite (hexdigit_not_space c Hc). reflexivity. }
  unfold PyInt.int16. rewrite (lstrip_by_none _ _ Hns), (rstrip_by_none _ _ Hns).
  cbn [all_chars] in Hall. apply andb_prop in Hall as [Hd Hds].
  assert (PyInt.unsigned16 (String "0" (String c1 (String d ds)))
          = PyInt.digits16 0 PyInt.SeenPrefix (String d ds)) as ->.
  { destruct (lower_x c1 Hx) as [-> | ->]; reflexivity. }
  cbn [PyInt.digits16]. rewrite (hexdigit_not_underscore d Hd).
  unfold PyInt.is_hexdigit in Hd. destruct (PyInt.digit_value d); [| discriminate].
  apply digits16_all_hex. exact Hds.
Qed.

Lemma fullmatch_bounds_convert line st en sec :
  INFO_FILE_LINE_PATTERN_fullmatch line = Some (st, en, sec) ->
  exists a b, PyInt.int16 st = Some a /\ PyInt.int16 en = Some b.
Proof.
  unfold INFO_FILE_LINE_PATTERN_fullmatch.
  destruct (match_hex_literal line) as [[st' r1] |] eqn:E1; [| discriminate].
  destruct (String.prefix " - " r1); [| discriminate].
  destruct (match_hex_literal (Py.drop 3 r1)) as [[en' r2] |] eqn:E2; [| discriminate].
  destruct (_ && _)%bool; [| discriminate].
  intros H. inversion H. subst.
  destruct (match_hex_literal_converts _ _ _ E1) as [a Ha].
  destruct (match_hex_literal_converts _ _ _ E2) as [b Hb].
  exists a, b. split; assumption.
Qed.

(** ** Reading the memory layout *)

Lemma scan_lines_step addr line rest start_str end_str sec a b s :
  INFO_FILE_LINE_PATTERN_fullmatch line = Some (start_str, end_str, sec) ->
  PyInt.int16 start_str = Some a ->
  PyInt.int16 end_str = Some b ->
  scan_lines addr (line :: rest) s
  = if ((a mod 2 ^ 32 <=? addr) && (addr <? b mod 2 ^ 32))%bool
    then (Ok sec, s) else scan_lines addr rest s.
Proof.
  intros Hm Ha Hb. cbn [scan_lines]. rewrite Hm.
  unfold bind, int16_or_raise. rewrite Ha. unfold ret at 1. rewrite Hb. unfold ret at 1.
  change 0xFFFFFFFF with (Z.ones 32).
  rewrite !Z.land_ones by lia. destruct (_ && _)%bool; reflexivity.
Qed.

Lemma scan_lines_skip addr pre rest s :
  (forall l, In l pre -> line_contains addr l = false) ->
  scan_lines addr (pre ++ rest) s = scan_lines addr rest s.
Proof.
  induction pre as [| line pre IH]; intros Hpre; [reflexivity |].
  assert (line_contains addr line = false) as Hline by (apply Hpre; left; reflexivity).
  assert (scan_lines addr (pre ++ rest) s = scan_lines addr rest s) as IH'
    by (apply IH; intros l Hl; apply Hpre; right; exact Hl).
  change ((line :: pre) ++ rest) with (line :: (pre ++ rest)).
  destruct (INFO_FILE_LINE_PATTERN_fullmatch line) as [[[st en] sec] |] eqn:Hm.
  - destruct (fullmatch_bounds_convert _ _ _ _ Hm) as (a & b & Ha & Hb).
    rewrite (scan_lines_step _ _ _ _ _ _ _ _ _ Hm Ha Hb).
    unfold line_contains in Hline. rewrite Hm, Ha, Hb in Hline. rewrite Hline.
    exact IH'.
  - cbn [scan_lines]. rewrite Hm. exact IH'.
Qed.

Lemma scan_lines_hit addr line rest s sec :
  line_contains addr line = true ->
  (exists st en, INFO_FILE_LINE_PATTERN_fullmatch line = Some (st, en, sec)) ->
  scan_lines addr (line :: rest) s = (Ok sec, s).
Proof.
  intros Hc (st & en & Hm).
  destruct (fullmatch_bounds_convert _ _ _ _ Hm) as (a & b & Ha & Hb).
  rewrite (scan_lines_step _ _ _ _ _ _ _ _ _ Hm Ha Hb).
  unfold line_contains in Hc. rewrite Hm, Ha, Hb in Hc. rewrite Hc. reflexivity.
Qed.

Lemma get_section_by_addr_unfold h addr s out :
  gdb_execute h "info file" = Ok out ->
  get_section_by_addr h addr s
  = scan_lines addr (Py.splitlines out) (logged "info file" s).
Proof.
  intros E. unfold get_section_by_addr, bind, execute. rewrite E. reflexivity.
Qed.

(** C5. Against an [info file] listing that holds the line
    [0x00001060 - 0x00002000 is ..boot], with no earlier line listing a range
    around [0x1500], [get_section_by_addr] maps [0x1500] to [..boot]; and an
    address that no listed range holds makes it raise [ValueError]. *)
Theorem get_section_by_addr_lookup (h : Host) (s : state) (out : string) :
  gdb_execute h "info file" = Ok out ->
  (forall pre post,
      Py.splitlines out = pre ++ "0x00001060 - 0x00002000 is ..boot" :: post ->
      (forall l, In l pre -> line_contains 0x1500 l = false) ->
      get_section_by_addr h 0x1500 s = (Ok "..boot", logged "info file" s))
  /\ (forall addr,
         (forall l, In l (Py.splitlines out) -> line_contains addr l = false) ->
         get_section_by_addr h addr s
         = (Raise (no_section_found addr), logged "info file" s)).
Proof.
  intros E. split.
  - intros pre post Hlines Hpre.
    rewrite (get_section_by_addr_unfold _ _ _ _ E), Hlines.
    rewrite (scan_lines_skip _ _ _ _ Hpre).
    apply scan_lines_hit; [vm_compute; reflexivity |].
    exists "0x00001060", "0x00002000". vm_compute. reflexivity.
  - intros addr Hnone.
    rewrite (get_section_by_addr_unfold _ _ _ _ E).
    rewrite <- (app_nil_r (Py.splitlines out)).
    rewrite (scan_lines_skip _ _ _ _ Hnone). reflexivity.
Qed.

Lemma get_section_by_addr_lookup_witness :
  get_section_by_addr Demo.gdb 0x1500 initial_state
  = (Ok "..boot", logged "info file" initial_state)
  /\ get_section_by_addr Demo.gdb 0x2000 initial_state
     = (Raise (no_section_found 0x2000), logged "info file" initial_state).
Proof.
  pose proof (get_section_by_addr_lookup Demo.gdb initial_state Demo.info_file eq_refl)
    as [Hboot Hnone].
  split.
  - apply (Hboot [ "Symbols from " +:+ Py.DQ +:+ "/oot/build/oot.elf" +:+ Py.DQ +:+ ".";
                   "0x00000000 - 0x00001060 is ..makerom" ]
                 [ "0xffffffff80800000 - 0xffffffff80801800 is ..ovl_En_Kusa" ]).
    + vm_compute. reflexivity.
    + intros l [<- | [<- | []]]; vm_compute; reflexivity.
  - apply Hnone. intros l Hl. vm_compute in Hl.
    destruct Hl as [<- | [<- | [<- | [<- | []]]]]; vm_compute; reflexivity.
Defined.

(** The pattern has to match the whole line: a line that starts with a
    tab, as the comment in [get_section_by_addr] shows the lines of gdb, does
    not match, and the loop passes over it. *)
Remark line_with_leading_tab_is_passed_over :
  INFO_FILE_LINE_PATTERN_fullmatch (Py.TAB +:+ "0x00001060 - 0x00002000 is ..boot")
  = None
  /\ scan_lines 0x1500 [Py.TAB +:+ "0x00001060 - 0x00002000 is ..boot"] initial_state
     = (Raise (no_section_found 0x1500), initial_state).
Proof. vm_compute. split; reflexivity. Qed.

(** C10. In the loop of [get_section_by_addr] the two bounds of a line are
    reduced to their low 32 bits before [addr] is compared with them, and the
    comparison takes the lower bound in and leaves the upper bound out; so the
    line [0xffffffff80000460 - 0xffffffff80010aa0 is ..boot] answers for
    [0x80000500] and does not answer for its own end, [0x80010aa0]. *)
Theorem section_bounds_truncated_half_open :
  (forall addr line rest start_str end_str sec a b s,
      INFO_FILE_LINE_PATTERN_fullmatch line = Some (start_str, end_str, sec) ->
      PyInt.int16 start_str = Some a ->
      PyInt.int16 end_str = Some b ->
      (a mod 2 ^ 32 <= addr < b mod 2 ^ 32 ->
       scan_lines addr (line :: rest) s = (Ok sec, s))
      /\ (~ (a mod 2 ^ 32 <= addr < b mod 2 ^ 32) ->
          scan_lines addr (line :: rest) s = scan_lines addr rest s)
      /\ (addr = b mod 2 ^ 32 ->
          scan_lines addr (line :: rest) s = scan_lines addr rest s))
  /\ (forall h s,
         gdb_execute h "info file"
         = Ok "0xffffffff80000460 - 0xffffffff80010aa0 is ..boot" ->
         get_section_by_addr h 0x80000500 s = (Ok "..boot", logged "info file" s)
         /\ get_section_by_addr h 0x80010aa0 s
            = (Raise (no_section_found 0x80010aa0), logged "info file" s)).
Proof.
  split.
  - intros addr line rest st en sec a b s Hm Ha Hb.
    rewrite (scan_lines_step _ _ _ _ _ _ _ _ _ Hm Ha Hb).
    repeat split.
    + intros [H1 H2]. apply Z.leb_le in H1. apply Z.ltb_lt in H2.
      rewrite H1, H2. reflexivity.
    + intros Hn. destruct (Z.leb_spec (a mod 2 ^ 32) addr);
        destruct (Z.ltb_spec addr (b mod 2 ^ 32)); try reflexivity.
      exfalso. apply Hn. split; assumption.
    + intros ->. rewrite Z.ltb_irrefl, andb_false_r. reflexivity.
  - intros h s E. split; rewrite (get_section_by_addr_unfold _ _ _ _ E).
    + apply scan_lines_hit; [vm_compute; reflexivity |].
      exists "0xffffffff80000460", "0xffffffff80010aa0". vm_compute. reflexivity.
    + change (Py.splitlines "0xffffffff80000460 - 0xffffffff80010aa0 is ..boot")
        with (["0xffffffff80000460 - 0xffffffff80010aa0 is ..boot"] ++ []).
      rewrite scan_lines_skip; [reflexivity |].
      intros l [<- | []]. vm_compute. reflexivity.
Qed.

Lemma section_bounds_truncated_half_open_witness :
  scan_lines 0x80000500
    ["0xffffffff80000460 - 0xffffffff80010aa0 is ..boot"] initial_state
  = (Ok "..boot", initial_state)
  /\ (let h := Demo.host EmptyString
                 "0xffffffff80000460 - 0xffffffff80010aa0 is ..boot" in
      get_section_by_addr h 0x80000500 initial_state
      = (Ok "..boot", logged "info file" initial_state)
      /\ get_section_by_addr h 0x80010aa0 initial_state
         = (Raise (no_section_found 0x80010aa0), logged "info file" initial_state)).
Proof.
  split.
  - apply (proj1 section_bounds_truncated_half_open 0x80000500
             "0xffffffff80000460 - 0xffffffff80010aa0 is ..boot" []
             "0xffffffff80000460" "0xffffffff80010aa0" "..boot"
             0xffffffff80000460 0xffffffff80010aa0 initial_state
             eq_refl eq_refl eq_refl).
    vm_compute. split; [discriminate | reflexivity].
  - apply (proj2 section_bounds_truncated_half_open
             (Demo.host EmptyString
                "0xffffffff80000460 - 0xffffffff80010aa0 is ..boot")
             initial_state).
    reflexivity.
Defined.

(** ** The registry *)

(** C2. Loading at an address the registry already holds raises at once:
    the state is the one before the call, so nothing was passed to gdb and
    the registry is as it was.  A load that returns found the address free
    and adds one entry, for that address. *)
Theorem load_z64overlay_object_exclusive (h : Host) (alloc vram : Z) (s : state) :
  (forall obj_p,
      loaded_z64overlay_objects s !! alloc = Some obj_p ->
      load_z64overlay_object h alloc vram s = (Raise already_loaded, s))
  /\ (forall s',
         load_z64overlay_object h alloc vram s = (Ok tt, s') ->
         loaded_z64overlay_objects s !! alloc = None
         /\ (exists path,
                loaded_z64overlay_objects s'
                = <[alloc := path]> (loaded_z64overlay_objects s))
         /\ size (loaded_z64overlay_objects s')
            = S (size (loaded_z64overlay_objects s))).
Proof.
  split.
  - intros obj_p Hin. unfold load_z64overlay_object, bind, get_loaded.
    rewrite Hin. reflexivity.
  - intros s' Hok.
    apply load_z64overlay_object_Ok_inv in Hok
      as (Hfree & s1 & ovl & addrs & path & [(Hl & _ & _) _] & _ & ->).
    cbn [loaded_z64overlay_objects]. rewrite Hl.
    split; [exact Hfree | split].
    + exists path. reflexivity.
    + apply map_size_insert_None. exact Hfree.
Qed.

Lemma load_z64overlay_object_exclusive_witness :
  load_z64overlay_object Demo.gdb 0x80300000 0x80800000 Demo.loaded_state
  = (Raise already_loaded, Demo.loaded_state)
  /\ size (loaded_z64overlay_objects
             (after (load_z64overlay_object Demo.gdb 0x80300000 0x80800000)
                    initial_state))
     = S (size (loaded_z64overlay_objects initial_state)).
Proof.
  split.
  - apply (proj1 (load_z64overlay_object_exclusive
                    Demo.gdb 0x80300000 0x80800000 Demo.loaded_state)
             "/oot/build/src/overlays/actors/ovl_En_Kusa/z_en_kusa.o").
    vm_compute. reflexivity.
  - apply (proj2 (load_z64overlay_object_exclusive
                    Demo.gdb 0x80300000 0x80800000 initial_state)).
    vm_compute. reflexivity.
Defined.

(** C3. Unloading an address the registry does not hold returns with the
    state untouched: no exception, no command to gdb.  Unloading one it holds
    deletes that entry and no other, and asks gdb to remove the symbol file
    recorded for it. *)
Theorem unload_z64overlay_object_spec (h : Host) (alloc : Z) (s : state) :
  (loaded_z64overlay_objects s !! alloc = None ->
   unload_z64overlay_object h alloc s = (Ok tt, s))
  /\ (forall obj_p,
         loaded_z64overlay_objects s !! alloc = Some obj_p ->
         let s' := after (unload_z64overlay_object h alloc) s in
         loaded_z64overlay_objects s' = delete alloc (loaded_z64overlay_objects s)
         /\ gdb_log s' = gdb_log s ++ ["remove-symbol-file " +:+ obj_p]
         /\ obj_address_map s' = obj_address_map s
         /\ bp_load_enabled s' = bp_load_enabled s
         /\ (forall out,
                gdb_execute h ("remove-symbol-file " +:+ obj_p) = Ok out ->
                (unload_z64overlay_object h alloc s).1 = Ok tt)).
Proof.
  split.
  - intros Hout. unfold unload_z64overlay_object, bind, get_loaded.
    rewrite Hout. reflexivity.
  - intros obj_p Hin. unfold after, unload_z64overlay_object.
    cbv [bind get_loaded set_loaded print execute ret].
    rewrite Hin.
    cbn [loaded_z64overlay_objects obj_address_map bp_load_enabled stdout gdb_log].
    destruct (gdb_execute h _) eqn:E; cbn; repeat split; try reflexivity;
      intros out Hout; congruence.
Qed.

Lemma unload_z64overlay_object_spec_witness :
  unload_z64overlay_object Demo.gdb 0x80300000 initial_state = (Ok tt, initial_state)
  /\ gdb_log (after (unload_z64overlay_object Demo.gdb 0x80300000) Demo.loaded_state)
     = gdb_log Demo.loaded_state
       ++ ["remove-symbol-file "
           +:+ "/oot/build/src/overlays/actors/ovl_En_Kusa/z_en_kusa.o"].
Proof.
  split.
  - apply (proj1 (unload_z64overlay_object_spec Demo.gdb 0x80300000 initial_state)).
    vm_compute. reflexivity.
  - refine (proj1 (proj2 (proj2 (unload_z64overlay_object_spec
                                   Demo.gdb 0x80300000 Demo.loaded_state)
                            "/oot/build/src/overlays/actors/ovl_En_Kusa/z_en_kusa.o" _))).
    vm_compute. reflexivity.
Defined.

(** ** Reading the section of a symbol *)

Lemma get_sym_section_unfold h sym s info_sym :
  gdb_execute h ("info symbol " +:+ PyInt.hex sym) = Ok info_sym ->
  get_sym_section h sym s
  = match Py.split "in section " info_sym with
    | [_; part1] =>
        match Py.split " of " part1 with
        | part2 :: _ => ret (Py.strip part2)
        | [] => raise (MkExn IndexError ["list index out of range"] [])
        end
    | _ =>
        raise (MkExn ValueError
                 ["Unexpected result for `info symbol " +:+ PyInt.hex sym +:+ "`";
                  info_sym] [])
    end (logged ("info symbol " +:+ PyInt.hex sym) s).
Proof.
  intros E. unfold get_sym_section, bind, execute. rewrite E. reflexivity.
Qed.

(** C4. When [info symbol] answers
    [Play_Init in section ..code of /path/to/rom.elf], or the same without
    the [of] part, [get_sym_section] gives [..code] and the name the load
    goes on with, once the dots are removed, is [code]. *)
Theorem overlay_section_name_parsing
    (h : Host) (vram : Z) (s : state) (info_sym : string) :
  info_sym = "Play_Init in section ..code of /path/to/rom.elf"
  \/ info_sym = "Play_Init in section ..code" ->
  gdb_execute h ("info symbol " +:+ PyInt.hex vram) = Ok info_sym ->
  get_sym_section h vram s
  = (Ok "..code", logged ("info symbol " +:+ PyInt.hex vram) s)
  /\ overlay_section_name h vram s
     = (Ok "code", logged ("info symbol " +:+ PyInt.hex vram) s).
Proof.
  intros Hinfo E.
  assert (get_sym_section h vram s
          = (Ok "..code", logged ("info symbol " +:+ PyInt.hex vram) s)) as Hsec.
  { rewrite (get_sym_section_unfold _ _ _ _ E).
    destruct Hinfo as [-> | ->].
    - change (Py.split "in section " "Play_Init in section ..code of /path/to/rom.elf")
        with ["Play_Init "; "..code of /path/to/rom.elf"].
      change (Py.split " of " "..code of /path/to/rom.elf")
        with ["..code"; "/path/to/rom.elf"].
      reflexivity.
    - change (Py.split "in section " "Play_Init in section ..code")
        with ["Play_Init "; "..code"].
      change (Py.split " of " "..code") with ["..code"].
      reflexivity. }
  split; [exact Hsec |].
  unfold overlay_section_name, bind, try_except. rewrite Hsec. reflexivity.
Qed.

Lemma overlay_section_name_parsing_witness :
  let h := Demo.host "Play_Init in section ..code of /path/to/rom.elf" Demo.info_file in
  overlay_section_name h 0x80800000 initial_state
  = (Ok "code", logged "info symbol 0x80800000" initial_state).
Proof.
  refine (proj2 (overlay_section_name_parsing
                   (Demo.host "Play_Init in section ..code of /path/to/rom.elf"
                              Demo.info_file)
                   0x80800000 initial_state
                   "Play_Init in section ..code of /path/to/rom.elf" _ _)).
  - left. reflexivity.
  - vm_compute. reflexivity.
Defined.

(** ** Command dispatch *)

Lemma LoadZ64OvlCmd_invoke_enum h arg :
  z64_subcommand_or_alias (Py.upper arg) = false ->
  LoadZ64OvlCmd_invoke h arg
  = match findall_type_prefix (Py.upper arg) with
    | [] => raise (MkExn IndexError ["list index out of range"] [])
    | ovl_type :: _ =>
        match table_of_type ovl_type with
        | None => print unsupported_type
        | Some table_name =>
            let* table := global_value h table_name in
            match lookup_symbol_value h (Py.upper arg) with
            | Raise _ => print enum_not_found
            | Ok v => load_z64overlay_object_from_table h table (cast_u32 v)
            end
        end
    end.
Proof.
  unfold z64_subcommand_or_alias, LoadZ64OvlCmd_invoke. intros H.
  destruct (String.eqb (Py.upper arg) "AUTO ON"); [discriminate H |].
  destruct (String.eqb (Py.upper arg) "AUTO OFF"); [discriminate H |].
  destruct (is_pause_alias (Py.upper arg)); [discriminate H |].
  destruct (String.eqb (Py.upper arg) "ACTOR_PLAYER"); [discriminate H |].
  reflexivity.
Qed.

Lemma LoadOvlCmd_invoke_enum h arg :
  ovl_alias (Py.upper arg) = false ->
  LoadOvlCmd_invoke h arg
  = match lookup_symbol_value h (Py.upper arg) with
    | Raise _ => print enum_not_found
    | Ok v =>
        match findall_type_prefix (Py.upper arg) with
        | [] => raise (MkExn IndexError ["list index out of range"] [])
        | ovl_type :: _ =>
            match table_of_type ovl_type with
            | None => raise unsupported_type_error
            | Some table_name =>
                let* table := global_value h table_name in
                let* alloc_address := GetAllocAddress table (cast_u32 v) in
                AddOverlaySymbols h alloc_address
            end
        end
    end.
Proof.
  unfold ovl_alias, LoadOvlCmd_invoke. intros H.
  destruct (is_pause_alias (Py.upper arg)); [discriminate H |].
  destruct (String.eqb (Py.upper arg) "ACTOR_PLAYER"); [discriminate H |].
  reflexivity.
Qed.

Lemma table_of_type_other p :
  p <> "GAMESTATE" -> p <> "ACTOR" -> p <> "EFFECT" -> table_of_type p = None.
Proof.
  intros H1 H2 H3. unfold table_of_type.
  destruct (String.eqb_spec p "GAMESTATE"); [contradiction |].
  destruct (String.eqb_spec p "ACTOR"); [contradiction |].
  destruct (String.eqb_spec p "EFFECT"); [contradiction |].
  reflexivity.
Qed.

Lemma z64_unsupported_type h arg s p rest :
  z64_subcommand_or_alias (Py.upper arg) = false ->
  findall_type_prefix (Py.upper arg) = p :: rest ->
  table_of_type p = None ->
  LoadZ64OvlCmd_invoke h arg s = (Ok tt, printed unsupported_type s).
Proof.
  intros Ha Hp Ht. rewrite (LoadZ64OvlCmd_invoke_enum _ _ Ha), Hp, Ht. reflexivity.
Qed.

Lemma z64_enum_resolved h arg s p rest name t v :
  z64_subcommand_or_alias (Py.upper arg) = false ->
  findall_type_prefix (Py.upper arg) = p :: rest ->
  table_of_type p = Some name ->
  lookup_global_symbol h name = Some t ->
  lookup_symbol_value h (Py.upper arg) = Ok v ->
  LoadZ64OvlCmd_invoke h arg s
  = load_z64overlay_object_from_table h t (cast_u32 v) s.
Proof.
  intros Ha Hp Ht Hg Hv. rewrite (LoadZ64OvlCmd_invoke_enum _ _ Ha), Hp, Ht.
  unfold bind, global_value. rewrite Hg, Hv. reflexivity.
Qed.

Lemma z64_enum_not_found h arg s p rest name t e :
  z64_subcommand_or_alias (Py.upper arg) = false ->
  findall_type_prefix (Py.upper arg) = p :: rest ->
  table_of_type p = Some name ->
  lookup_global_symbol h name = Some t ->
  lookup_symbol_value h (Py.upper arg) = Raise e ->
  LoadZ64OvlCmd_invoke h arg s = (Ok tt, printed enum_not_found s).
Proof.
  intros Ha Hp Ht Hg Hv. rewrite (LoadZ64OvlCmd_invoke_enum _ _ Ha), Hp, Ht.
  unfold bind, global_value. rewrite Hg, Hv. reflexivity.
Qed.

Lemma ovl_enum_not_found h arg s e :
  ovl_alias (Py.upper arg) = false ->
  lookup_symbol_value h (Py.upper arg) = Raise e ->
  LoadOvlCmd_invoke h arg s = (Ok tt, printed enum_not_found s).
Proof.
  intros Ha Hv. rewrite (LoadOvlCmd_invoke_enum _ _ Ha), Hv. reflexivity.
Qed.

Lemma ovl_unsupported_type h arg s v p rest :
  ovl_alias (Py.upper arg) = false ->
  lookup_symbol_value h (Py.upper arg) = Ok v ->
  findall_type_prefix (Py.upper arg) = p :: rest ->
  table_of_type p = None ->
  LoadOvlCmd_invoke h arg s = (Raise unsupported_type_error, s).
Proof.
  intros Ha Hv Hp Ht. rewrite (LoadOvlCmd_invoke_enum _ _ Ha), Hv, Hp, Ht. reflexivity.
Qed.

Lemma ovl_enum_resolved h arg s v p rest name t :
  ovl_alias (Py.upper arg) = false ->
  lookup_symbol_value h (Py.upper arg) = Ok v ->
  findall_type_prefix (Py.upper arg) = p :: rest ->
  table_of_type p = Some name ->
  lookup_global_symbol h name = Some t ->
  LoadOvlCmd_invoke h arg s
  = (let* alloc_address := GetAllocAddress t (cast_u32 v) in
     AddOverlaySymbols h alloc_address) s.
Proof.
  intros Ha Hv Hp Ht Hg. rewrite (LoadOvlCmd_invoke_enum _ _ Ha), Hv, Hp, Ht.
  unfold bind at 1, global_value. rewrite Hg. reflexivity.
Qed.

(** With [ovl], [FOO_BAR] on an ELF that has no such symbol is answered by
    the not-found message: the type of the name is never looked at. *)
Lemma ovl_FOO_BAR_is_not_a_type_error :
  (LoadOvlCmd_invoke Demo.gdb "FOO_BAR" initial_state).1
  <> Raise unsupported_type_error
  /\ stdout (after (LoadOvlCmd_invoke Demo.gdb "FOO_BAR") initial_state)
     = [enum_not_found]
  /\ stdout (after (LoadOvlCmd_invoke Demo.gdb "FOO_BAR") initial_state)
     <> [unsupported_type].
Proof. vm_compute. repeat split; [discriminate | discriminate]. Qed.

(** C6, amended. For an argument that is no alias and no sub-command, and
    whose text before the first underscore is not empty, that text selects
    the table: [GAMESTATE], [ACTOR] and [EFFECT] name the three overlay
    tables.  With any other prefix [z64ovl] prints the unsupported-type
    message and loads nothing.  [ovl] resolves the enum name first: a name
    that does not resolve gets the not-found message whatever its prefix, and
    only a name that resolves is dispatched on its prefix, any other one
    raising the unsupported-type error. *)
Theorem type_prefix_dispatch :
  table_of_type "GAMESTATE" = Some "gGameStateOverlayTable"
  /\ table_of_type "ACTOR" = Some "gActorOverlayTable"
  /\ table_of_type "EFFECT" = Some "gEffectSsOverlayTable"
  /\ (forall p, p <> "GAMESTATE" -> p <> "ACTOR" -> p <> "EFFECT" ->
                table_of_type p = None)
  /\ findall_type_prefix "ACTOR_EN_DAIKU" = ["ACTOR"]
  /\ findall_type_prefix "GAMESTATE_MAP_SELECT" = ["GAMESTATE"]
  /\ findall_type_prefix "FOO_BAR" = ["FOO"]
  /\ (forall h arg s p rest,
         z64_subcommand_or_alias (Py.upper arg) = false ->
         findall_type_prefix (Py.upper arg) = p :: rest ->
         (table_of_type p = None ->
          LoadZ64OvlCmd_invoke h arg s = (Ok tt, printed unsupported_type s))
         /\ (forall name t v,
                table_of_type p = Some name ->
                lookup_global_symbol h name = Some t ->
                lookup_symbol_value h (Py.upper arg) = Ok v ->
                LoadZ64OvlCmd_invoke h arg s
                = load_z64overlay_object_from_table h t (cast_u32 v) s))
  /\ (forall h arg s,
         ovl_alias (Py.upper arg) = false ->
         (forall e,
             lookup_symbol_value h (Py.upper arg) = Raise e ->
             LoadOvlCmd_invoke h arg s = (Ok tt, printed enum_not_found s))
         /\ (forall v p rest,
                lookup_symbol_value h (Py.upper arg) = Ok v ->
                findall_type_prefix (Py.upper arg) = p :: rest ->
                (table_of_type p = None ->
                 LoadOvlCmd_invoke h arg s = (Raise unsupported_type_error, s))
                /\ (forall name t,
                       table_of_type p = Some name ->
                       lookup_global_symbol h name = Some t ->
                       LoadOvlCmd_invoke h arg s
                       = (let* alloc_address := GetAllocAddress t (cast_u32 v) in
                          AddOverlaySymbols h alloc_address) s))).
Proof.
  repeat (split; [reflexivity |]).
  split; [exact table_of_type_other |].
  repeat (split; [reflexivity |]).
  split.
  - intros h arg s p rest Ha Hp. split.
    + intros Ht. eapply z64_unsupported_type; eassumption.
    + intros name t v Ht Hg Hv. eapply z64_enum_resolved; eassumption.
  - intros h arg s Ha. split.
    + intros e Hv. eapply ovl_enum_not_found; eassumption.
    + intros v p rest Hv Hp. split.
      * intros Ht. eapply ovl_unsupported_type; eassumption.
      * intros name t Ht Hg. eapply ovl_enum_resolved; eassumption.
Qed.

Lemma type_prefix_dispatch_witness :
  LoadZ64OvlCmd_invoke Demo.gdb "FOO_BAR" initial_state
  = (Ok tt, printed unsupported_type initial_state)
  /\ LoadZ64OvlCmd_invoke Demo.gdb "actor_en_kusa" initial_state
     = load_z64overlay_object_from_table Demo.gdb Demo.actor_table
         (cast_u32 0x125) initial_state
  /\ LoadOvlCmd_invoke Demo.gdb "FOO_BAR" initial_state
     = (Ok tt, printed enum_not_found initial_state)
  /\ LoadOvlCmd_invoke Demo.gdb "item_bow" initial_state
     = (Raise unsupported_type_error, initial_state)
  /\ LoadOvlCmd_invoke Demo.gdb "actor_en_kusa" initial_state
     = (let* alloc_address := GetAllocAddress Demo.actor_table (cast_u32 0x125) in
        AddOverlaySymbols Demo.gdb alloc_address) initial_state.
Proof.
  destruct type_prefix_dispatch as (_ & _ & _ & _ & _ & _ & _ & Hz64 & Hovl).
  refine (conj _ (conj _ (conj _ (conj _ _)))).
  - apply (proj1 (Hz64 Demo.gdb "FOO_BAR" initial_state "FOO" [] eq_refl eq_refl)).
    reflexivity.
  - apply (proj2 (Hz64 Demo.gdb "actor_en_kusa" initial_state "ACTOR" []
                    eq_refl eq_refl) "gActorOverlayTable"); reflexivity.
  - apply (proj1 (Hovl Demo.gdb "FOO_BAR" initial_state eq_refl)
             (MkExn AttributeError ["'NoneType' object has no attribute 'value'"] [])).
    reflexivity.
  - apply (proj1 (proj2 (Hovl Demo.gdb "item_bow" initial_state eq_refl)
                    3 "ITEM" [] eq_refl eq_refl)).
    reflexivity.
  - apply (proj2 (proj2 (Hovl Demo.gdb "actor_en_kusa" initial_state eq_refl)
                    0x125 "ACTOR" [] eq_refl eq_refl) "gActorOverlayTable");
      reflexivity.
Defined.

(** ** Section start symbols *)

Lemma repr_char_plain c :
  plain_char c = true ->
  PyInt.repr_char "'" c = String c EmptyString /\ Ascii.eqb "'" c = false.
Proof.
  destruct c as [[] [] [] [] [] [] [] []]; intros H; vm_compute in H |- *;
    try discriminate H; split; reflexivity.
Qed.

Lemma repr_body_plain s :
  all_chars plain_char s = true ->
  PyInt.repr_body "'" s = s /\ PyInt.contains_char "'" s = false.
Proof.
  induction s as [| c s IH]; [split; reflexivity |].
  cbn [all_chars PyInt.repr_body PyInt.contains_char]. intros H.
  apply andb_prop in H as [Hc Hs].
  destruct (repr_char_plain c Hc) as [E1 E2]. destruct (IH Hs) as [E3 E4].
  rewrite E1, E2, E3, E4. split; reflexivity.
Qed.

Lemma repr_plain s :
  all_chars plain_char s = true -> PyInt.repr s = "'" +:+ s +:+ "'".
Proof.
  intros H. unfold PyInt.repr. destruct (repr_body_plain s H) as [E1 E2].
  rewrite E2. cbn [andb]. rewrite E1. reflexivity.
Qed.

Lemma section_start_name_plain ovl sec :
  all_chars plain_char ovl = true ->
  all_chars plain_char (section_start_name ovl (linker_script_name sec)) = true.
Proof.
  intros H. unfold section_start_name.
  rewrite !all_chars_app, H. destruct sec; reflexivity.
Qed.

(** The query for [_ovl_En_KusaTextStart] is never made: the symbol asked
    for has [Segment] between the overlay and the section kind. *)
Lemma section_symbol_is_not_overlay_then_kind :
  gdb_log (after (get_section_address Demo.gdb "ovl_En_Kusa" (linker_script_name TEXT))
                 initial_state)
  = [printf_command "_ovl_En_KusaSegmentTextStart"]
  /\ gdb_log (after (get_section_address Demo.gdb "ovl_En_Kusa" (linker_script_name TEXT))
                    initial_state)
     <> [printf_command ("_" +:+ "ovl_En_Kusa" +:+ linker_script_name TEXT +:+ "Start")].
Proof. vm_compute. split; [reflexivity | discriminate]. Qed.

(** C7, amended. For every overlay name and each of the four section
    kinds, the address is that of the linker symbol
    [_<overlay>Segment<SectionKind>Start]: this is the one name asked of gdb,
    the call returns exactly when gdb prints a hexadecimal literal for it,
    and an error raised by a failed resolution carries, as its last note,
    [section_start_name=] followed by the [repr] of that name, which for a
    name of plain characters is the name between single quotes. *)
Theorem section_start_symbol (h : Host) (ovl : string) (sec : SectionType) (s : state) :
  let name := "_" +:+ ovl +:+ "Segment" +:+ linker_script_name sec +:+ "Start" in
  let r := get_section_address h ovl (linker_script_name sec) s in
  r.2 = logged (printf_command name) s
  /\ (forall out n,
         gdb_execute h (printf_command name) = Ok out ->
         PyInt.int16 out = Some n ->
         r.1 = Ok n)
  /\ (forall n,
         r.1 = Ok n ->
         exists out, gdb_execute h (printf_command name) = Ok out
                     /\ PyInt.int16 out = Some n)
  /\ (forall e,
         r.1 = Raise e ->
         is_Exception e = true ->
         last (exn_notes e) = Some ("section_start_name=" +:+ PyInt.repr name))
  /\ (all_chars plain_char ovl = true ->
      PyInt.repr name = "'" +:+ name +:+ "'").
Proof.
  intros name r. subst r.
  change name with (section_start_name ovl (linker_script_name sec)).
  split; [| split; [| split; [| split]]].
  - unfold get_section_address, try_except, get_sym_addr_from_name, bind, execute.
    destruct (gdb_execute h _) as [out | e].
    + destruct (PyInt.int16 out); [reflexivity |].
      unfold raise. destruct (is_Exception _); reflexivity.
    + unfold raise. destruct (is_Exception e); reflexivity.
  - intros out n E Hn.
    unfold get_section_address, try_except, get_sym_addr_from_name, bind, execute.
    rewrite E, Hn. reflexivity.
  - intros n Hn.
    destruct (get_section_address h ovl (linker_script_name sec) s) as [r1 s1] eqn:E.
    simpl in Hn. subst r1. eapply get_section_address_Ok_inv. exact E.
  - intros e. unfold get_section_address, try_except, get_sym_addr_from_name,
      bind, execute, section_start_note.
    destruct (gdb_execute h _) as [out | e0].
    + destruct (PyInt.int16 out); [discriminate |].
      cbn. intros H _. inversion H. reflexivity.
    + destruct (is_Exception e0) eqn:He0; cbn; intros H He; inversion H; subst.
      * cbn. apply last_snoc.
      * congruence.
  - intros Hplain. apply repr_plain. apply section_start_name_plain. exact Hplain.
Qed.

Lemma section_start_symbol_witness :
  (get_section_address Demo.gdb "ovl_En_Kusa" (linker_script_name DATA) initial_state).1
  = Ok 0x80801000
  /\ last (exn_notes
             (MkExn GdbError ["No symbol in current context."]
                ["section_start_name='_ovl_TitleSegmentBssStart'"]))
     = Some ("section_start_name=" +:+ PyInt.repr "_ovl_TitleSegmentBssStart")
  /\ PyInt.repr "_ovl_TitleSegmentBssStart" = "'_ovl_TitleSegmentBssStart'".
Proof.
  refine (conj _ (conj _ _)).
  - apply (proj1 (proj2 (section_start_symbol Demo.gdb "ovl_En_Kusa" DATA initial_state))
             "80801000" 0x80801000); vm_compute; reflexivity.
  - apply (proj1 (proj2 (proj2 (proj2
             (section_start_symbol Demo.gdb "ovl_Title" BSS initial_state))))).
    + vm_compute. reflexivity.
    + reflexivity.
  - apply (proj2 (proj2 (proj2 (proj2
             (section_start_symbol Demo.gdb "ovl_Title" BSS initial_state))))).
    vm_compute. reflexivity.
Defined.

(** ** Aborted commands *)

Lemma load_from_table_not_loaded h (t : table) index v s :
  t index "loadedRamAddr" = Ok v ->
  cast_u32 v = 0 ->
  load_z64overlay_object_from_table h t index s = (Ok tt, printed not_loaded s).
Proof.
  intros Hv H0. unfold load_z64overlay_object_from_table, bind, lift.
  rewrite Hv, H0. reflexivity.
Qed.

Lemma AddOverlaySymbols_not_loaded h (t : table) index v s :
  t index "loadedRamAddr" = Ok v ->
  cast_u32 v = 0 ->
  (let* alloc_address := GetAllocAddress t index in
   AddOverlaySymbols h alloc_address) s = (Ok tt, printed not_loaded s).
Proof.
  intros Hv H0. unfold GetAllocAddress, bind, lift, ret.
  rewrite Hv, H0. reflexivity.
Qed.

(** With [ovl], a name that resolves but has no overlay type ends the
    command by an exception: nothing at all is printed. *)
Lemma ovl_unsupported_type_is_raised_not_printed :
  (LoadOvlCmd_invoke Demo.gdb "item_bow" initial_state).1
  = Raise unsupported_type_error
  /\ stdout (after (LoadOvlCmd_invoke Demo.gdb "item_bow") initial_state) = [].
Proof. vm_compute. split; reflexivity. Qed.

(** C8, amended. A load from a table whose descriptor has
    [loadedRamAddr] zero, in either script; a [z64ovl] command whose type
    prefix, not empty, is unsupported, or whose enum name does not resolve
    once its prefix has selected a table gdb knows; an [ovl] command whose
    enum name does not resolve: each prints its message and returns, and the
    state is the old one with that line printed.  An [ovl] command whose name
    resolves but has an unsupported prefix raises instead of printing, the
    state untouched.  In all of them the registry is as before and gdb was
    passed no command. *)
Theorem aborts_leave_no_trace (h : Host) (s : state) :
  (forall (t : table) index v,
      t index "loadedRamAddr" = Ok v ->
      cast_u32 v = 0 ->
      load_z64overlay_object_from_table h t index s = (Ok tt, printed not_loaded s)
      /\ (let* alloc_address := GetAllocAddress t index in
          AddOverlaySymbols h alloc_address) s = (Ok tt, printed not_loaded s))
  /\ (forall arg p rest,
         z64_subcommand_or_alias (Py.upper arg) = false ->
         findall_type_prefix (Py.upper arg) = p :: rest ->
         table_of_type p = None ->
         LoadZ64OvlCmd_invoke h arg s = (Ok tt, printed unsupported_type s))
  /\ (forall arg p rest name t e,
         z64_subcommand_or_alias (Py.upper arg) = false ->
         findall_type_prefix (Py.upper arg) = p :: rest ->
         table_of_type p = Some name ->
         lookup_global_symbol h name = Some t ->
         lookup_symbol_value h (Py.upper arg) = Raise e ->
         LoadZ64OvlCmd_invoke h arg s = (Ok tt, printed enum_not_found s))
  /\ (forall arg e,
         ovl_alias (Py.upper arg) = false ->
         lookup_symbol_value h (Py.upper arg) = Raise e ->
         LoadOvlCmd_invoke h arg s = (Ok tt, printed enum_not_found s))
  /\ (forall arg v p rest,
         ovl_alias (Py.upper arg) = false ->
         lookup_symbol_value h (Py.upper arg) = Ok v ->
         findall_type_prefix (Py.upper arg) = p :: rest ->
         table_of_type p = None ->
         LoadOvlCmd_invoke h arg s = (Raise unsupported_type_error, s))
  /\ (forall line,
         loaded_z64overlay_objects (printed line s) = loaded_z64overlay_objects s
         /\ obj_address_map (printed line s) = obj_address_map s
         /\ gdb_log (printed line s) = gdb_log s).
Proof.
  refine (conj _ (conj _ (conj _ (conj _ (conj _ _))))).
  - intros t index v Hv H0. split.
    + apply (load_from_table_not_loaded _ _ _ _ _ Hv H0).
    + apply (AddOverlaySymbols_not_loaded _ _ _ _ _ Hv H0).
  - intros. eapply z64_unsupported_type; eassumption.
  - intros. eapply z64_enum_not_found; eassumption.
  - intros. eapply ovl_enum_not_found; eassumption.
  - intros. eapply ovl_unsupported_type; eassumption.
  - intros line. repeat split.
Qed.

Lemma aborts_leave_no_trace_witness :
  LoadZ64OvlCmd_invoke Demo.gdb "actor_en_daiku" initial_state
  = (Ok tt, printed not_loaded initial_state)
  /\ (let* alloc_address := GetAllocAddress Demo.actor_table 0x133 in
      AddOverlaySymbols Demo.gdb alloc_address) initial_state
     = (Ok tt, printed not_loaded initial_state)
  /\ LoadZ64OvlCmd_invoke Demo.gdb "FOO_BAR" initial_state
     = (Ok tt, printed unsupported_type initial_state)
  /\ LoadZ64OvlCmd_invoke Demo.gdb "ACTOR_FOO" Demo.loaded_state
     = (Ok tt, printed enum_not_found Demo.loaded_state)
  /\ LoadOvlCmd_invoke Demo.gdb "FOO_BAR" initial_state
     = (Ok tt, printed enum_not_found initial_state)
  /\ LoadOvlCmd_invoke Demo.gdb "item_bow" initial_state
     = (Raise unsupported_type_error, initial_state).
Proof.
  destruct (aborts_leave_no_trace Demo.gdb initial_state)
    as (Hzero & Htype & _ & Hovl & Hraise & _).
  destruct (aborts_leave_no_trace Demo.gdb Demo.loaded_state)
    as (_ & _ & Henum & _).
  refine (conj _ (conj _ (conj _ (conj _ (conj _ _))))).
  - rewrite (z64_enum_resolved Demo.gdb "actor_en_daiku" initial_state
               "ACTOR" [] "gActorOverlayTable" Demo.actor_table 0x133
               eq_refl eq_refl eq_refl eq_refl eq_refl).
    apply (proj1 (Hzero Demo.actor_table (cast_u32 0x133) 0 eq_refl eq_refl)).
  - apply (proj2 (Hzero Demo.actor_table 0x133 0 eq_refl eq_refl)).
  - apply (Htype "FOO_BAR" "FOO" []); reflexivity.
  - apply (Henum "ACTOR_FOO" "ACTOR" [] "gActorOverlayTable" Demo.actor_table
             (MkExn AttributeError ["'NoneType' object has no attribute 'value'"] []));
      reflexivity.
  - apply (Hovl "FOO_BAR"
             (MkExn AttributeError ["'NoneType' object has no attribute 'value'"] []));
      reflexivity.
  - apply (Hraise "item_bow" 3 "ITEM" []); reflexivity.
Defined.

(** ** Registrations *)

Lemma in_order_BreakpointFree_stop h : steps (log_grows command_in_order) (BreakpointFree_stop h).
Proof.
  pose proof in_order_closed as IC. unfold BreakpointFree_stop.
  apply (steps_bind _ IC); [apply (steps_lift _ IC) | intros v].
  apply (steps_bind _ IC); [apply in_order_unload_z64overlay_object |].
  intros _. apply (steps_ret _ IC).
Qed.

Lemma in_order_BreakpointKaleidoFree_stop h :
  steps (log_grows command_in_order) (BreakpointKaleidoFree_stop h).
Proof.
  pose proof in_order_closed as IC. unfold BreakpointKaleidoFree_stop.
  apply (steps_bind _ IC); [apply (steps_lift _ IC) | intros v].
  apply (steps_bind _ IC); [apply in_order_unload_z64overlay_object |].
  intros _. apply (steps_ret _ IC).
Qed.

(** C9. Whatever a command of either script or a breakpoint of the
    tracking script passes to gdb, every [add-symbol-file] among it has
    [-readnow], the base [-o 0xFF000000] and then the four [-s] section
    offsets.  [AUTO ON] and [AUTO OFF], in any letter case, set the flag of the
    load breakpoint and print one line: the registry is kept and gdb is
    passed no command. *)
Theorem registrations_are_eager (h : Host) (arg : string) (s : state) :
  log_grows command_in_order s (after (LoadZ64OvlCmd_invoke h arg) s)
  /\ log_grows command_in_order s (after (LoadOvlCmd_invoke h arg) s)
  /\ log_grows command_in_order s (after (BreakpointOverlayLoad_stop h) s)
  /\ log_grows command_in_order s (after (BreakpointFree_stop h) s)
  /\ log_grows command_in_order s (after (BreakpointKaleidoFree_stop h) s)
  /\ (Py.upper arg = "AUTO ON" ->
      LoadZ64OvlCmd_invoke h arg s = (Ok tt, auto_set true auto_on_message s))
  /\ (Py.upper arg = "AUTO OFF" ->
      LoadZ64OvlCmd_invoke h arg s = (Ok tt, auto_set false auto_off_message s)).
Proof.
  refine (conj _ (conj _ (conj _ (conj _ (conj _ (conj _ _)))))).
  - apply in_order_LoadZ64OvlCmd_invoke.
  - apply in_order_LoadOvlCmd_invoke.
  - apply in_order_BreakpointOverlayLoad_stop.
  - apply in_order_BreakpointFree_stop.
  - apply in_order_BreakpointKaleidoFree_stop.
  - intros E. unfold LoadZ64OvlCmd_invoke. rewrite E. reflexivity.
  - intros E. unfold LoadZ64OvlCmd_invoke. rewrite E. reflexivity.
Qed.

Lemma registrations_are_eager_witness :
  LoadZ64OvlCmd_invoke Demo.gdb "auto on" Demo.loaded_state
  = (Ok tt, auto_set true auto_on_message Demo.loaded_state)
  /\ LoadZ64OvlCmd_invoke Demo.gdb "Auto Off" Demo.loaded_state
     = (Ok tt, auto_set false auto_off_message Demo.loaded_state)
  /\ log_grows command_in_order initial_state
       (after (LoadZ64OvlCmd_invoke Demo.gdb "actor_en_kusa") initial_state).
Proof.
  refine (conj _ (conj _ _)).
  - apply (proj1 (proj2 (proj2 (proj2 (proj2 (proj2
             (registrations_are_eager Demo.gdb "auto on" Demo.loaded_state))))))).
    reflexivity.
  - apply (proj2 (proj2 (proj2 (proj2 (proj2 (proj2
             (registrations_are_eager Demo.gdb "Auto Off" Demo.loaded_state))))))).
    reflexivity.
  - apply (proj1 (registrations_are_eager Demo.gdb "actor_en_kusa" initial_state)).
Defined.

(** ** Section offsets *)

(** The [ovl] command on the overlay of the examples, loaded at
    [0x80300000]: after its questions it stops at the assignment into
    [obj_address_map], and gdb has been given no symbol file. *)
Remark ovl_load_of_a_loaded_overlay_stops :
  LoadOvlCmd_invoke Demo.gdb "actor_en_kusa" initial_state
  = (Raise (name_error "obj_address_map"),
     MkState ∅ ∅ false
       ["Loading symbols for actor at  2150629376"]
       ["info symbol vramStart"; "info sym EnKusa_Init";
        printf_command "_ovl_En_KusaSegmentTextStart";
        printf_command "_ovl_En_KusaSegmentDataStart";
        printf_command "_ovl_En_KusaSegmentRoDataStart";
        printf_command "_ovl_En_KusaSegmentBssStart"]).
Proof. vm_compute. reflexivity. Qed.



(** ** How a load can end *)

Lemma bind_cases {A B} (R : state -> state -> Prop) (m : M A) (k : A -> M B) s r s' :
  steps R m ->
  bind m k s = (r, s') ->
  (exists e, r = Raise e /\ m s = (Raise e, s') /\ R s s')
  \/ (exists a s1, m s = (Ok a, s1) /\ R s s1 /\ k a s1 = (r, s')).
Proof.
  intros Hm. specialize (Hm s). unfold after, bind in *.
  destruct (m s) as [[a | e] s1]; simpl in Hm; intros H.
  - right. exists a, s1. repeat split; assumption.
  - left. inversion H. subst. exists e. repeat split; assumption.
Qed.

(** The three ways [load_z64overlay_object] ends: refused because the
    address is taken; failed while asking, before anything is recorded; or
    recorded, with the registration passed to gdb, which accepts or refuses
    it. *)
Lemma load_z64overlay_object_outcome h alloc vram s r s' :
  load_z64overlay_object h alloc vram s = (r, s') ->
  (is_Some (loaded_z64overlay_objects s !! alloc)
   /\ r = Raise already_loaded /\ s' = s)
  \/ (loaded_z64overlay_objects s !! alloc = None
      /\ (exists e, r = Raise e) /\ queried s s')
  \/ (loaded_z64overlay_objects s !! alloc = None
      /\ exists s1 ovl addrs path,
           queried s s1 /\ resolved h ovl addrs
           /\ loaded_z64overlay_objects s'
              = <[alloc := path]> (loaded_z64overlay_objects s1)
           /\ obj_address_map s' = obj_address_map s1
           /\ bp_load_enabled s' = bp_load_enabled s1
           /\ gdb_log s'
              = gdb_log s1
                ++ [add_symbol_file_command path (ovl_offsets alloc vram addrs)]
           /\ match r with
              | Ok _ =>
                  exists out,
                    gdb_execute h
                      (add_symbol_file_command path (ovl_offsets alloc vram addrs))
                    = Ok out
              | Raise e =>
                  gdb_execute h
                    (add_symbol_file_command path (ovl_offsets alloc vram addrs))
                  = Raise e
              end).
Proof.
  pose proof queried_closed as QC.
  unfold load_z64overlay_object. intros H.
  unfold bind at 1, get_loaded at 1 in H.
  destruct (loaded_z64overlay_objects s !! alloc) as [p |] eqn:Hfree.
  { left. inversion H. split; [eexists; reflexivity | split; reflexivity]. }
  right.
  apply (bind_cases queried) in H as [(e & -> & _ & Hq) | (sec_name & s1 & _ & H1 & H)];
    [left; split; [reflexivity | split; [eexists; reflexivity | exact Hq]] | |
     apply steps_overlay_section_name; exact QC].
  apply (bind_cases queried) in H as [(e & -> & _ & Hq) | (addrs & s2 & H2 & Hq2 & H)];
    [left; split; [reflexivity | split; [eexists; reflexivity |]];
     eapply (qc_trans _ QC); eassumption | |
     apply (steps_for_each_section _ QC); intros sec;
     apply (steps_get_section_address _ QC)].
  pose proof (for_each_section_Ok_inv _ _ _ _ _ H2) as Hres.
  assert (queried s s2) as Hs2 by (eapply (qc_trans _ QC); eassumption).
  apply (bind_cases queried) in H as [(e & -> & _ & Hq) | (sym & s3 & _ & Hq3 & H)];
    [left; split; [reflexivity | split; [eexists; reflexivity |]];
     eapply (qc_trans _ QC); eassumption | |
     apply (steps_get_sym_name_from_addr _ QC)].
  assert (queried s s3) as Hs3 by (eapply (qc_trans _ QC); eassumption).
  apply (bind_cases queried) in H as [(e & -> & _ & Hq) | (c_file & s4 & _ & Hq4 & H)];
    [left; split; [reflexivity | split; [eexists; reflexivity |]];
     eapply (qc_trans _ QC); eassumption | | apply (steps_lift _ QC)].
  assert (queried s s4) as Hs4 by (eapply (qc_trans _ QC); eassumption).
  apply (bind_cases queried) in H as [(e & -> & _ & Hq) | (elf & s5 & _ & Hq5 & H)];
    [left; split; [reflexivity | split; [eexists; reflexivity |]];
     eapply (qc_trans _ QC); eassumption | |
     destruct (progspace_filename h); [apply (steps_ret _ QC) | apply (steps_raise _ QC)]].
  assert (queried s s5) as Hs5 by (eapply (qc_trans _ QC); eassumption).
  apply (bind_cases queried) in H as [(e & -> & _ & Hq) | (path & s6 & _ & Hq6 & H)];
    [left; split; [reflexivity | split; [eexists; reflexivity |]];
     eapply (qc_trans _ QC); eassumption | | apply (steps_lift _ QC)].
  assert (queried s s6) as Hs6 by (eapply (qc_trans _ QC); eassumption).
  right. split; [reflexivity |].
  exists s6, sec_name, addrs, path.
  cbv [bind get_loaded set_loaded print execute] in H.
  cbn [loaded_z64overlay_objects obj_address_map bp_load_enabled stdout gdb_log] in H.
  destruct (gdb_execute h _) as [out | e] eqn:E; inversion H; subst; clear H;
    cbn [loaded_z64overlay_objects obj_address_map bp_load_enabled stdout gdb_log];
    repeat (split; [first [assumption | reflexivity] |]).
  - exists out. reflexivity.
  - reflexivity.
Qed.

Lemma cast_u32_is_u32 v : is_u32 (cast_u32 v).
Proof. unfold is_u32, cast_u32. apply Z.mod_pos_bound. reflexivity. Qed.

Lemma queried_same_loaded s s' :
  queried s s' -> loaded_z64overlay_objects s' = loaded_z64overlay_objects s.
Proof. intros [(H & _ & _) _]. exact H. Qed.

(** X1. A load that raises has either left the registry as it was, or failed
    on the registration itself: gdb refused the [add-symbol-file] command, and
    the entry recorded just before it stays, so that every later load at this
    address is refused as already loaded. *)
Theorem refused_registration_stays_recorded
    (h : Host) (alloc vram : Z) (s s' : state) (e : pyexn) :
  load_z64overlay_object h alloc vram s = (Raise e, s') ->
  loaded_z64overlay_objects s' = loaded_z64overlay_objects s
  \/ exists path cmd,
       loaded_z64overlay_objects s !! alloc = None
       /\ loaded_z64overlay_objects s'
          = <[alloc := path]> (loaded_z64overlay_objects s)
       /\ last (gdb_log s') = Some cmd
       /\ is_registration cmd = true
       /\ gdb_execute h cmd = Raise e
       /\ forall vram',
            load_z64overlay_object h alloc vram' s' = (Raise already_loaded, s').
Proof.
  intros H. apply load_z64overlay_object_outcome in H
    as [(_ & _ & ->) | [(_ & _ & Hq) | (Hfree & s1 & ovl & addrs & path & Hq & _
                                        & Hl & _ & _ & Hlog & Hexec)]].
  - left. reflexivity.
  - left. apply queried_same_loaded. exact Hq.
  - right. exists path, (add_symbol_file_command path (ovl_offsets alloc vram addrs)).
    rewrite (queried_same_loaded _ _ Hq) in Hl.
    refine (conj Hfree (conj Hl (conj _ (conj _ (conj Hexec _))))).
    + rewrite Hlog. apply last_snoc.
    + reflexivity.
    + intros vram'. unfold load_z64overlay_object, bind, get_loaded.
      rewrite Hl, lookup_insert_eq. reflexivity.
Qed.

Lemma refused_registration_stays_recorded_witness :
  let s' := after (load_z64overlay_object refusing_gdb 0x80300000 0x80800000)
                  initial_state in
  loaded_z64overlay_objects s' = loaded_z64overlay_objects initial_state
  \/ exists path cmd,
       loaded_z64overlay_objects initial_state !! 0x80300000 = None
       /\ loaded_z64overlay_objects s'
          = <[0x80300000 := path]> (loaded_z64overlay_objects initial_state)
       /\ last (gdb_log s') = Some cmd
       /\ is_registration cmd = true
       /\ gdb_execute refusing_gdb cmd
          = Raise (MkExn GdbError ["No such file or directory."] [])
       /\ forall vram',
            load_z64overlay_object refusing_gdb 0x80300000 vram' s'
            = (Raise already_loaded, s').
Proof.
  apply (refused_registration_stays_recorded refusing_gdb 0x80300000 0x80800000
           initial_state).
  vm_compute. reflexivity.
Defined.

Lemma load_registry_step h alloc vram s :
  is_u32 alloc -> registry_step s (after (load_z64overlay_object h alloc vram) s).
Proof.
  intros Hu. unfold after.
  destruct (load_z64overlay_object h alloc vram s) as [r s'] eqn:H. cbn.
  apply load_z64overlay_object_outcome in H
    as [(_ & _ & ->) | [(_ & _ & Hq) | (Hfree & s1 & ovl & addrs & path & Hq & _
                                        & Hl & _)]].
  - left. reflexivity.
  - left. apply queried_same_loaded. exact Hq.
  - right. exists alloc, path. rewrite (queried_same_loaded _ _ Hq) in Hl.
    repeat split; try assumption; apply Hu.
Qed.

Lemma from_table_registry_step h (t : table) index s :
  registry_step s (after (load_z64overlay_object_from_table h t index) s).
Proof.
  unfold after, load_z64overlay_object_from_table, bind, lift.
  destruct (t index "loadedRamAddr") as [v | e]; [| left; reflexivity].
  destruct (Z.eqb (cast_u32 v) 0); [left; reflexivity |].
  destruct (t index "vramStart") as [v' | e]; [| left; reflexivity].
  apply load_registry_step. apply cast_u32_is_u32.
Qed.

Lemma global_then_table_registry_step h name index s :
  registry_step s
    (after (let* table := global_value h name in
            load_z64overlay_object_from_table h table index) s).
Proof.
  unfold after, bind at 1, global_value.
  destruct (lookup_global_symbol h name) as [t |]; [| left; reflexivity].
  apply from_table_registry_step.
Qed.

Lemma invoke_registry_step h arg s :
  registry_step s (after (LoadZ64OvlCmd_invoke h arg) s).
Proof.
  unfold LoadZ64OvlCmd_invoke.
  destruct (String.eqb _ "AUTO ON"); [left; reflexivity |].
  destruct (String.eqb _ "AUTO OFF"); [left; reflexivity |].
  destruct (is_pause_alias _); [apply global_then_table_registry_step |].
  destruct (String.eqb _ "ACTOR_PLAYER"); [apply global_then_table_registry_step |].
  destruct (findall_type_prefix _) as [| ovl_type l]; [left; reflexivity |].
  destruct (table_of_type ovl_type) as [name |]; [| left; reflexivity].
  unfold after, bind at 1, global_value.
  destruct (lookup_global_symbol h name) as [t |]; [| left; reflexivity].
  destruct (lookup_symbol_value h _); [| left; reflexivity].
  apply from_table_registry_step.
Qed.

Lemma load_stop_registry_step h s :
  registry_step s (after (BreakpointOverlayLoad_stop h) s).
Proof.
  unfold after, BreakpointOverlayLoad_stop, bind at 1, lift.
  destruct (frame_read_var h "allocatedRamAddr") as [v | e]; [| left; reflexivity].
  unfold bind at 1.
  destruct (frame_read_var h "vramStart") as [v' | e]; [| left; reflexivity].
  pose proof (load_registry_step h (cast_u32 v) (cast_u32 v') s (cast_u32_is_u32 v)) as H.
  unfold after in H. unfold bind, ret.
  destruct (load_z64overlay_object h (cast_u32 v) (cast_u32 v') s) as [[[] | e] s'];
    exact H.
Qed.

Lemma unload_registry_drop h alloc s :
  is_u32 alloc -> registry_drop s (after (unload_z64overlay_object h alloc) s).
Proof.
  intros Hu. unfold after, unload_z64overlay_object.
  cbv [bind get_loaded set_loaded print execute ret].
  destruct (loaded_z64overlay_objects s !! alloc) as [obj_p |] eqn:E;
    [| left; reflexivity].
  right. exists alloc. split; [exact Hu | split; [eexists; exact E |]].
  cbn [loaded_z64overlay_objects obj_address_map bp_load_enabled stdout gdb_log].
  destruct (gdb_execute h _); reflexivity.
Qed.

Lemma free_stop_registry_drop (r : result Z) h s :
  registry_drop s
    (after (let* v := lift r in
            unload_z64overlay_object h (cast_u32 v) ;; ret false) s).
Proof.
  unfold after, bind at 1, lift. destruct r as [v | e]; [| left; reflexivity].
  pose proof (unload_registry_drop h (cast_u32 v) s (cast_u32_is_u32 v)) as H.
  unfold after in H. unfold bind, ret.
  destruct (unload_z64overlay_object h (cast_u32 v) s) as [[[] | e] s']; exact H.
Qed.

Lemma registry_step_keeps_u32 s s' :
  registry_step s s' -> registry_in_u32 s -> registry_in_u32 s'.
Proof.
  intros [E | (k & path & Hk & _ & E)] Hin j Hj; rewrite E in Hj.
  - apply Hin. exact Hj.
  - apply lookup_insert_is_Some in Hj as [<- | [_ Hj]]; [exact Hk | apply Hin; exact Hj].
Qed.

Lemma registry_drop_keeps_u32 s s' :
  registry_drop s s' -> registry_in_u32 s -> registry_in_u32 s'.
Proof.
  intros [E | (k & Hk & _ & E)] Hin j Hj; rewrite E in Hj.
  - apply Hin. exact Hj.
  - apply Hin. destruct Hj as [x Hx].
    apply lookup_delete_Some in Hx as [_ Hx]. eexists. exact Hx.
Qed.

(** X2. Whatever its argument and however it ends, a [z64ovl] command
    leaves the registry as it was or adds one entry at a free address, and so
    does a stop of the load breakpoint; a stop of a free breakpoint leaves it
    as it was or deletes one entry.  The addresses concerned are 32-bit
    values: a registry whose addresses are 32-bit values stays so. *)
Theorem registry_moves_one_entry_at_a_time (h : Host) (arg : string) (s : state) :
  registry_in_u32 s ->
  (registry_step s (after (LoadZ64OvlCmd_invoke h arg) s)
   /\ registry_in_u32 (after (LoadZ64OvlCmd_invoke h arg) s))
  /\ (registry_step s (after (BreakpointOverlayLoad_stop h) s)
      /\ registry_in_u32 (after (BreakpointOverlayLoad_stop h) s))
  /\ (registry_drop s (after (BreakpointFree_stop h) s)
      /\ registry_in_u32 (after (BreakpointFree_stop h) s))
  /\ (registry_drop s (after (BreakpointKaleidoFree_stop h) s)
      /\ registry_in_u32 (after (BreakpointKaleidoFree_stop h) s)).
Proof.
  intros Hin.
  pose proof (invoke_registry_step h arg s) as H1.
  pose proof (load_stop_registry_step h s) as H2.
  pose proof (free_stop_registry_drop (frame_read_var h "ptr") h s) as H3.
  pose proof (free_stop_registry_drop
                (frame_read_var_field h "ovl" "loadedRamAddr") h s) as H4.
  refine (conj (conj H1 _) (conj (conj H2 _) (conj (conj H3 _) (conj H4 _)))).
  - exact (registry_step_keeps_u32 _ _ H1 Hin).
  - exact (registry_step_keeps_u32 _ _ H2 Hin).
  - exact (registry_drop_keeps_u32 _ _ H3 Hin).
  - exact (registry_drop_keeps_u32 _ _ H4 Hin).
Qed.

Lemma registry_moves_one_entry_at_a_time_witness :
  registry_step initial_state
    (after (LoadZ64OvlCmd_invoke Demo.gdb "actor_en_kusa") initial_state)
  /\ registry_drop Demo.loaded_state
       (after (BreakpointFree_stop Demo.gdb) Demo.loaded_state).
Proof.
  split.
  - refine (proj1 (proj1 (registry_moves_one_entry_at_a_time
                            Demo.gdb "actor_en_kusa" initial_state _))).
    intros k [x Hx]. vm_compute in Hx. discriminate Hx.
  - refine (proj1 (proj1 (proj2 (proj2 (registry_moves_one_entry_at_a_time
                                          Demo.gdb "actor_en_kusa"
                                          Demo.loaded_state _))))).
    intros k [x Hx]. unfold Demo.loaded_state in Hx.
    cbn [loaded_z64overlay_objects] in Hx.
    apply lookup_singleton_Some in Hx as [<- _].
    vm_compute. split; [discriminate | reflexivity].
Defined.

(** ** Unloading *)

Lemma unload_present h alloc s obj_p :
  loaded_z64overlay_objects s !! alloc = Some obj_p ->
  after (unload_z64overlay_object h alloc) s
  = MkState (delete alloc (loaded_z64overlay_objects s))
            (obj_address_map s) (bp_load_enabled s)
            (stdout s
               ++ [unloading_message h obj_p
                     (size (delete alloc (loaded_z64overlay_objects s)))])
            (gdb_log s ++ ["remove-symbol-file " +:+ obj_p])
  /\ (unload_z64overlay_object h alloc s).1
     = match gdb_execute h ("remove-symbol-file " +:+ obj_p) with
       | Ok _ => Ok tt
       | Raise e => Raise e
       end.
Proof.
  intros E. unfold after, unload_z64overlay_object.
  cbv [bind get_loaded set_loaded print execute ret].
  rewrite E.
  cbn [loaded_z64overlay_objects obj_address_map bp_load_enabled stdout gdb_log].
  destruct (gdb_execute h _); split; reflexivity.
Qed.

Lemma unload_absent h alloc s :
  loaded_z64overlay_objects s !! alloc = None ->
  unload_z64overlay_object h alloc s = (Ok tt, s).
Proof.
  intros E. unfold unload_z64overlay_object, bind, get_loaded. rewrite E. reflexivity.
Qed.

(** X3. Unloading the address of a load that returned undoes it: the
    registry is again the one before the load, gdb is asked to remove the very
    object file the load registered, and the line printed counts the entries
    the registry had before the load. *)
Theorem load_then_unload_restores_registry
    (h : Host) (alloc vram : Z) (s s1 : state) :
  load_z64overlay_object h alloc vram s = (Ok tt, s1) ->
  exists path offsets,
    loaded_z64overlay_objects s1 !! alloc = Some path
    /\ last (gdb_log s1) = Some (add_symbol_file_command path offsets)
    /\ loaded_z64overlay_objects (after (unload_z64overlay_object h alloc) s1)
       = loaded_z64overlay_objects s
    /\ last (gdb_log (after (unload_z64overlay_object h alloc) s1))
       = Some ("remove-symbol-file " +:+ path)
    /\ last (stdout (after (unload_z64overlay_object h alloc) s1))
       = Some (unloading_message h path (size (loaded_z64overlay_objects s))).
Proof.
  intros H. apply load_z64overlay_object_Ok_inv in H
    as (Hfree & s0 & ovl & addrs & path & Hq & _ & ->).
  pose proof (queried_same_loaded _ _ Hq) as Hl.
  exists path, (ovl_offsets alloc vram addrs).
  assert (loaded_z64overlay_objects
            (MkState (<[alloc := path]> (loaded_z64overlay_objects s0))
               (obj_address_map s0) (bp_load_enabled s0)
               (stdout s0 ++ ["Reading " +:+ path_stem h path +:+ "..."]
                          ++ ["Complete."])
               (gdb_log s0
                  ++ [add_symbol_file_command path (ovl_offsets alloc vram addrs)]))
          !! alloc = Some path) as Hin
    by (cbn [loaded_z64overlay_objects]; apply lookup_insert_eq).
  destruct (unload_present h _ _ _ Hin) as [-> _].
  cbn [loaded_z64overlay_objects stdout gdb_log].
  rewrite Hl, (delete_insert_id _ _ _ Hfree).
  refine (conj _ (conj _ (conj eq_refl (conj _ _))));
    first [apply lookup_insert_eq | apply last_snoc].
Qed.

Lemma load_then_unload_restores_registry_witness :
  let s1 := after (load_z64overlay_object Demo.gdb 0x80300000 0x80800000)
                  initial_state in
  exists path offsets,
    loaded_z64overlay_objects s1 !! 0x80300000 = Some path
    /\ last (gdb_log s1) = Some (add_symbol_file_command path offsets)
    /\ loaded_z64overlay_objects
         (after (unload_z64overlay_object Demo.gdb 0x80300000) s1)
       = loaded_z64overlay_objects initial_state
    /\ last (gdb_log (after (unload_z64overlay_object Demo.gdb 0x80300000) s1))
       = Some ("remove-symbol-file " +:+ path)
    /\ last (stdout (after (unload_z64overlay_object Demo.gdb 0x80300000) s1))
       = Some (unloading_message Demo.gdb path
                 (size (loaded_z64overlay_objects initial_state))).
Proof.
  refine (load_then_unload_restores_registry Demo.gdb 0x80300000 0x80800000
            initial_state _ _).
  vm_compute. reflexivity.
Defined.

(** X4. Unloading is idempotent, whether or not gdb accepts the removal:
    after [unload_z64overlay_object] the address is not in the registry, the
    other entries are as before, and unloading it again returns without
    raising and without touching the state. *)
Theorem unload_is_idempotent (h : Host) (alloc : Z) (s : state) :
  loaded_z64overlay_objects (after (unload_z64overlay_object h alloc) s)
  = delete alloc (loaded_z64overlay_objects s)
  /\ unload_z64overlay_object h alloc (after (unload_z64overlay_object h alloc) s)
     = (Ok tt, after (unload_z64overlay_object h alloc) s).
Proof.
  destruct (loaded_z64overlay_objects s !! alloc) as [obj_p |] eqn:E.
  - destruct (unload_present h _ _ _ E) as [-> _].
    cbn [loaded_z64overlay_objects]. split; [reflexivity |].
    apply unload_absent. cbn [loaded_z64overlay_objects]. apply lookup_delete_eq.
  - unfold after. rewrite (unload_absent _ _ _ E). cbn.
    split; [symmetry; apply delete_id; exact E | apply unload_absent; exact E].
Qed.

(** X5. A free breakpoint that stops on a pointer the registry does not
    hold (as nearly every call of the allocator's free is) changes nothing and
    returns [False], so that execution goes on; the pointer is compared after
    its reduction to 32 bits.  When the variable cannot be read, the error of
    gdb is raised with the state untouched. *)
Theorem free_breakpoint_ignores_other_pointers (h : Host) (s : state) :
  (forall v,
      frame_read_var h "ptr" = Ok v ->
      loaded_z64overlay_objects s !! (v mod 2 ^ 32) = None ->
      BreakpointFree_stop h s = (Ok false, s))
  /\ (forall v,
         frame_read_var_field h "ovl" "loadedRamAddr" = Ok v ->
         loaded_z64overlay_objects s !! (v mod 2 ^ 32) = None ->
         BreakpointKaleidoFree_stop h s = (Ok false, s))
  /\ (forall e,
         frame_read_var h "ptr" = Raise e ->
         BreakpointFree_stop h s = (Raise e, s))
  /\ (forall e,
         frame_read_var_field h "ovl" "loadedRamAddr" = Raise e ->
         BreakpointKaleidoFree_stop h s = (Raise e, s)).
Proof.
  refine (conj _ (conj _ (conj _ _))).
  - intros v Hv Hout. unfold BreakpointFree_stop, bind at 1, lift. rewrite Hv.
    unfold bind. rewrite (unload_absent h (cast_u32 v) s Hout). reflexivity.
  - intros v Hv Hout. unfold BreakpointKaleidoFree_stop, bind at 1, lift. rewrite Hv.
    unfold bind. rewrite (unload_absent h (cast_u32 v) s Hout). reflexivity.
  - intros e He. unfold BreakpointFree_stop, bind, lift. rewrite He. reflexivity.
  - intros e He. unfold BreakpointKaleidoFree_stop, bind, lift. rewrite He. reflexivity.
Qed.

Lemma free_breakpoint_ignores_other_pointers_witness :
  BreakpointFree_stop Demo.gdb initial_state = (Ok false, initial_state)
  /\ BreakpointKaleidoFree_stop Demo.gdb initial_state = (Ok false, initial_state)
  /\ BreakpointFree_stop gdb_without_locals Demo.loaded_state
     = (Raise (MkExn ValueError ["Variable 'ptr' not found."] []), Demo.loaded_state)
  /\ BreakpointKaleidoFree_stop gdb_without_locals Demo.loaded_state
     = (Raise (MkExn ValueError ["Variable 'ovl' not found."] []), Demo.loaded_state).
Proof.
  refine (conj _ (conj _ (conj _ _))).
  - refine (proj1 (free_breakpoint_ignores_other_pointers Demo.gdb initial_state)
              0x80300000 eq_refl _).
    vm_compute. reflexivity.
  - refine (proj1 (proj2 (free_breakpoint_ignores_other_pointers Demo.gdb initial_state))
              0x80300000 eq_refl _).
    vm_compute. reflexivity.
  - refine (proj1 (proj2 (proj2 (free_breakpoint_ignores_other_pointers
                                   gdb_without_locals Demo.loaded_state)))
              _ eq_refl).
  - refine (proj2 (proj2 (proj2 (free_breakpoint_ignores_other_pointers
                                   gdb_without_locals Demo.loaded_state)))
              _ eq_refl).
Defined.

(** ** Arguments of the commands *)

Lemma upper_lower_char c : Py.upper_char (Py.lower_char c) = Py.upper_char c.
Proof. destruct c as [[] [] [] [] [] [] [] []]; reflexivity. Qed.

Lemma upper_lower s : Py.upper (Py.lower s) = Py.upper s.
Proof.
  induction s as [| c s IH]; [reflexivity |].
  unfold Py.upper, Py.lower in *. cbn [Py.map_str].
  rewrite upper_lower_char, IH. reflexivity.
Qed.

Lemma invoke_upper_eq h arg1 arg2 :
  Py.upper arg1 = Py.upper arg2 ->
  LoadZ64OvlCmd_invoke h arg1 = LoadZ64OvlCmd_invoke h arg2
  /\ LoadOvlCmd_invoke h arg1 = LoadOvlCmd_invoke h arg2.
Proof.
  intros E. unfold LoadZ64OvlCmd_invoke, LoadOvlCmd_invoke. rewrite E.
  split; reflexivity.
Qed.

(** X6. On arguments written in ASCII, both commands take no account of
    letter case: two such arguments that are the same once in lower case run
    the same command, and an argument runs the command its lower-case form
    runs.  Nothing is said of arguments with characters outside ASCII. *)
Theorem commands_ignore_letter_case (h : Host) (arg1 arg2 : string) :
  isascii arg1 = true -> isascii arg2 = true ->
  Py.lower arg1 = Py.lower arg2 ->
  (LoadZ64OvlCmd_invoke h arg1 = LoadZ64OvlCmd_invoke h arg2
   /\ LoadOvlCmd_invoke h arg1 = LoadOvlCmd_invoke h arg2)
  /\ (LoadZ64OvlCmd_invoke h (Py.lower arg1) = LoadZ64OvlCmd_invoke h arg1
      /\ LoadOvlCmd_invoke h (Py.lower arg1) = LoadOvlCmd_invoke h arg1).
Proof.
  intros _ _ E. split.
  - apply invoke_upper_eq.
    rewrite <- (upper_lower arg1), E. apply upper_lower.
  - apply invoke_upper_eq. apply upper_lower.
Qed.

Lemma commands_ignore_letter_case_witness :
  LoadZ64OvlCmd_invoke Demo.gdb "Actor_En_Kusa" = LoadZ64OvlCmd_invoke Demo.gdb "ACTOR_en_kusa"
  /\ LoadOvlCmd_invoke Demo.gdb "pause" = LoadOvlCmd_invoke Demo.gdb "Pause".
Proof.
  split.
  - refine (proj1 (proj1 (commands_ignore_letter_case
                            Demo.gdb "Actor_En_Kusa" "ACTOR_en_kusa"
                            eq_refl eq_refl eq_refl))).
  - refine (proj2 (proj1 (commands_ignore_letter_case
                            Demo.gdb "pause" "Pause" eq_refl eq_refl eq_refl))).
Defined.

(** X7. An argument that is empty, or that starts with an underscore, has
    no type prefix: [z64ovl] raises [IndexError] on it, and so does [ovl] when
    gdb resolves the argument as a symbol; nothing is printed, recorded or
    passed to gdb.  When gdb does not resolve it, [ovl] prints the not-found
    message instead. *)
Theorem missing_type_prefix_is_an_IndexError (h : Host) (arg : string) (s : state) :
  arg = EmptyString \/ (exists rest, arg = String "_" rest) ->
  LoadZ64OvlCmd_invoke h arg s = (Raise index_error, s)
  /\ (forall v,
         lookup_symbol_value h (Py.upper arg) = Ok v ->
         LoadOvlCmd_invoke h arg s = (Raise index_error, s))
  /\ (forall e,
         lookup_symbol_value h (Py.upper arg) = Raise e ->
         LoadOvlCmd_invoke h arg s = (Ok tt, printed enum_not_found s)).
Proof.
  intros Harg.
  assert (z64_subcommand_or_alias (Py.upper arg) = false
          /\ ovl_alias (Py.upper arg) = false
          /\ findall_type_prefix (Py.upper arg) = []) as (Hz & Ho & Hp).
  { destruct Harg as [-> | [rest ->]]; repeat split; reflexivity. }
  refine (conj _ (conj _ _)).
  - rewrite (LoadZ64OvlCmd_invoke_enum _ _ Hz), Hp. reflexivity.
  - intros v Hv. rewrite (LoadOvlCmd_invoke_enum _ _ Ho), Hv, Hp. reflexivity.
  - intros e He. rewrite (LoadOvlCmd_invoke_enum _ _ Ho), He. reflexivity.
Qed.

Lemma missing_type_prefix_is_an_IndexError_witness :
  LoadZ64OvlCmd_invoke Demo.gdb EmptyString Demo.loaded_state
  = (Raise index_error, Demo.loaded_state)
  /\ LoadZ64OvlCmd_invoke Demo.gdb "_en_kusa" Demo.loaded_state
     = (Raise index_error, Demo.loaded_state)
  /\ LoadOvlCmd_invoke Demo.gdb "_en_kusa" Demo.loaded_state
     = (Ok tt, printed enum_not_found Demo.loaded_state).
Proof.
  refine (conj _ (conj _ _)).
  - refine (proj1 (missing_type_prefix_is_an_IndexError
                     Demo.gdb EmptyString Demo.loaded_state _)).
    left. reflexivity.
  - refine (proj1 (missing_type_prefix_is_an_IndexError
                     Demo.gdb "_en_kusa" Demo.loaded_state _)).
    right. exists "en_kusa". reflexivity.
  - refine (proj2 (proj2 (missing_type_prefix_is_an_IndexError
                            Demo.gdb "_en_kusa" Demo.loaded_state _)) _ eq_refl).
    right. exists "en_kusa". reflexivity.
Defined.

(** ** What the commands leave alone *)

Section Frame.

Variable R : state -> state -> Prop.
Hypothesis FR : frame_rel R.
Variable h : Host.

Let QC : query_closed R := fr_closed R FR.

Lemma frame_load_z64overlay_object alloc vram :
  (forall m, steps R (set_loaded m)) ->
  steps R (load_z64overlay_object h alloc vram).
Proof.
  intros Hset. unfold load_z64overlay_object.
  apply (steps_bind _ QC); [apply (steps_get_loaded _ QC) | intros loaded].
  destruct (loaded !! alloc); [apply (steps_raise _ QC) |].
  apply (steps_bind _ QC); [apply (steps_overlay_section_name _ QC) | intros sec_name].
  apply (steps_bind _ QC).
  { apply (steps_for_each_section _ QC). intros sec.
    apply (steps_get_section_address _ QC). }
  intros addrs.
  apply (steps_bind _ QC); [apply (steps_get_sym_name_from_addr _ QC) | intros sym].
  apply (steps_bind _ QC); [apply (steps_lift _ QC) | intros c_file].
  apply (steps_bind _ QC).
  { destruct (progspace_filename h); [apply (steps_ret _ QC) | apply (steps_raise _ QC)]. }
  intros elf.
  apply (steps_bind _ QC); [apply (steps_lift _ QC) | intros path].
  apply (steps_bind _ QC); [apply (steps_get_loaded _ QC) | intros loaded'].
  apply (steps_bind _ QC); [apply Hset | intros _].
  apply (steps_bind _ QC); [apply (qc_print _ QC) | intros _].
  apply (steps_bind _ QC); [apply (fr_execute _ FR) | intros _; apply (qc_print _ QC)].
Qed.

Lemma frame_unload_z64overlay_object alloc :
  (forall m, steps R (set_loaded m)) ->
  steps R (unload_z64overlay_object h alloc).
Proof.
  intros Hset. unfold unload_z64overlay_object.
  apply (steps_bind _ QC); [apply (steps_get_loaded _ QC) | intros loaded].
  destruct (loaded !! alloc) as [obj_p |]; [| apply (steps_ret _ QC)].
  apply (steps_bind _ QC); [apply Hset | intros _].
  apply (steps_bind _ QC); [apply (steps_get_loaded _ QC) | intros loaded'].
  apply (steps_bind _ QC); [apply (qc_print _ QC) | intros _].
  apply (steps_bind _ QC); [apply (fr_execute _ FR) | intros _; apply (steps_ret _ QC)].
Qed.

Lemma frame_load_z64overlay_object_from_table t index :
  (forall m, steps R (set_loaded m)) ->
  steps R (load_z64overlay_object_from_table h t index).
Proof.
  intros Hset. unfold load_z64overlay_object_from_table.
  apply (steps_bind _ QC); [apply (steps_lift _ QC) | intros v].
  destruct (Z.eqb _ _); [apply (qc_print _ QC) |].
  apply (steps_bind _ QC); [apply (steps_lift _ QC) | intros v'].
  apply frame_load_z64overlay_object. exact Hset.
Qed.

Lemma frame_LoadZ64OvlCmd_invoke arg :
  (forall m, steps R (set_loaded m)) ->
  (forall b, steps R (set_bp_load_enabled b))
  \/ (String.eqb (Py.upper arg) "AUTO ON" = false
      /\ String.eqb (Py.upper arg) "AUTO OFF" = false) ->
  steps R (LoadZ64OvlCmd_invoke h arg).
Proof.
  intros Hset Hauto. unfold LoadZ64OvlCmd_invoke.
  destruct (String.eqb _ "AUTO ON") eqn:Eon.
  { destruct Hauto as [Hflag | [Hon _]]; [| discriminate Hon].
    apply (steps_bind _ QC); [apply Hflag | intros _; apply (qc_print _ QC)]. }
  destruct (String.eqb _ "AUTO OFF") eqn:Eoff.
  { destruct Hauto as [Hflag | [_ Hoff]]; [| discriminate Hoff].
    apply (steps_bind _ QC); [apply Hflag | intros _; apply (qc_print _ QC)]. }
  destruct (is_pause_alias _).
  { apply (steps_bind _ QC); [apply (steps_global_value _ QC) | intros t].
    apply frame_load_z64overlay_object_from_table. exact Hset. }
  destruct (String.eqb _ "ACTOR_PLAYER").
  { apply (steps_bind _ QC); [apply (steps_global_value _ QC) | intros t].
    apply frame_load_z64overlay_object_from_table. exact Hset. }
  destruct (findall_type_prefix _) as [| ovl_type l]; [apply (steps_raise _ QC) |].
  destruct (table_of_type ovl_type); [| apply (qc_print _ QC)].
  apply (steps_bind _ QC); [apply (steps_global_value _ QC) | intros t].
  destruct (lookup_symbol_value h _); [| apply (qc_print _ QC)].
  apply frame_load_z64overlay_object_from_table. exact Hset.
Qed.

Lemma frame_BreakpointOverlayLoad_stop :
  (forall m, steps R (set_loaded m)) ->
  steps R (BreakpointOverlayLoad_stop h).
Proof.
  intros Hset. unfold BreakpointOverlayLoad_stop.
  apply (steps_bind _ QC); [apply (steps_lift _ QC) | intros v].
  apply (steps_bind _ QC); [apply (steps_lift _ QC) | intros v'].
  apply (steps_bind _ QC); [apply frame_load_z64overlay_object; exact Hset |].
  intros _. apply (steps_ret _ QC).
Qed.

Lemma frame_free_stop (r : result Z) :
  (forall m, steps R (set_loaded m)) ->
  steps R (let* v := lift r in
           unload_z64overlay_object h (cast_u32 v) ;; ret false).
Proof.
  intros Hset.
  apply (steps_bind _ QC); [apply (steps_lift _ QC) | intros v].
  apply (steps_bind _ QC); [apply frame_unload_z64overlay_object; exact Hset |].
  intros _. apply (steps_ret _ QC).
Qed.

Lemma frame_LoadOvlCmd_invoke arg : steps R (LoadOvlCmd_invoke h arg).
Proof. apply steps_LoadOvlCmd_invoke. exact QC. Qed.

End Frame.

Lemma keeps_obj_address_map_frame : frame_rel keeps_obj_address_map.
Proof.
  split; [split |]; unfold keeps_obj_address_map.
  - reflexivity.
  - intros a b c H1 H2. congruence.
  - intros line s. reflexivity.
  - intros h cmd _ s. reflexivity.
  - intros h cmd s. reflexivity.
Qed.

Lemma keeps_flag_frame : frame_rel keeps_flag.
Proof.
  split; [split |]; unfold keeps_flag.
  - reflexivity.
  - intros a b c H1 H2. congruence.
  - intros line s. reflexivity.
  - intros h cmd _ s. reflexivity.
  - intros h cmd s. reflexivity.
Qed.

Lemma keeps_registry_and_flag_frame : frame_rel keeps_registry_and_flag.
Proof.
  split; [split |]; unfold keeps_registry_and_flag.
  - intros s. split; reflexivity.
  - intros a b c [H1 H2] [H3 H4]. split; congruence.
  - intros line s. split; reflexivity.
  - intros h cmd _ s. split; reflexivity.
  - intros h cmd s. split; reflexivity.
Qed.

(** X8. The two scripts keep to their own state, however a command ends.
    [z64ovl] and the three breakpoints never write to the dictionary of
    [ovl]; only the [AUTO] sub-commands change the flag of the load
    breakpoint: every other [z64ovl] command and every stop of a breakpoint
    leaves it as it is; and [ovl] changes neither the registry nor the
    flag. *)
Theorem commands_keep_to_their_own_state (h : Host) (arg : string) (s : state) :
  obj_address_map (after (LoadZ64OvlCmd_invoke h arg) s) = obj_address_map s
  /\ (String.eqb (Py.upper arg) "AUTO ON" = false ->
      String.eqb (Py.upper arg) "AUTO OFF" = false ->
      bp_load_enabled (after (LoadZ64OvlCmd_invoke h arg) s) = bp_load_enabled s)
  /\ (obj_address_map (after (BreakpointOverlayLoad_stop h) s) = obj_address_map s
      /\ bp_load_enabled (after (BreakpointOverlayLoad_stop h) s) = bp_load_enabled s)
  /\ (obj_address_map (after (BreakpointFree_stop h) s) = obj_address_map s
      /\ bp_load_enabled (after (BreakpointFree_stop h) s) = bp_load_enabled s)
  /\ (obj_address_map (after (BreakpointKaleidoFree_stop h) s) = obj_address_map s
      /\ bp_load_enabled (after (BreakpointKaleidoFree_stop h) s) = bp_load_enabled s)
  /\ (loaded_z64overlay_objects (after (LoadOvlCmd_invoke h arg) s)
      = loaded_z64overlay_objects s
      /\ bp_load_enabled (after (LoadOvlCmd_invoke h arg) s) = bp_load_enabled s).
Proof.
  pose proof keeps_obj_address_map_frame as FM.
  pose proof keeps_flag_frame as FF.
  pose proof keeps_registry_and_flag_frame as FRF.
  assert (forall m, steps keeps_obj_address_map (set_loaded m)) as HM
    by (intros m s0; reflexivity).
  assert (forall m, steps keeps_flag (set_loaded m)) as HF
    by (intros m s0; reflexivity).
  refine (conj _ (conj _ (conj (conj _ _) (conj (conj _ _) (conj (conj _ _) _))))).
  - apply (frame_LoadZ64OvlCmd_invoke _ FM h arg HM). left. intros b s0. reflexivity.
  - intros Hon Hoff. apply (frame_LoadZ64OvlCmd_invoke _ FF h arg HF).
    right. split; assumption.
  - apply (frame_BreakpointOverlayLoad_stop _ FM h HM).
  - apply (frame_BreakpointOverlayLoad_stop _ FF h HF).
  - apply (frame_free_stop _ FM h (frame_read_var h "ptr") HM).
  - apply (frame_free_stop _ FF h (frame_read_var h "ptr") HF).
  - apply (frame_free_stop _ FM h (frame_read_var_field h "ovl" "loadedRamAddr") HM).
  - apply (frame_free_stop _ FF h (frame_read_var_field h "ovl" "loadedRamAddr") HF).
  - apply (frame_LoadOvlCmd_invoke _ FRF h arg).
Qed.

Lemma commands_keep_to_their_own_state_witness :
  bp_load_enabled
    (after (LoadZ64OvlCmd_invoke Demo.gdb "actor_en_kusa") initial_state)
  = bp_load_enabled initial_state.
Proof.
  refine (proj1 (proj2 (commands_keep_to_their_own_state
                          Demo.gdb "actor_en_kusa" initial_state))
            eq_refl eq_refl).
Defined.

(** ** The memory layout, in general *)

Lemma scan_lines_first_section addr lines s :
  scan_lines addr lines s = (first_section addr lines, s).
Proof.
  unfold first_section. induction lines as [| line rest IH]; [reflexivity |].
  cbn [List.find].
  destruct (line_contains addr line) eqn:Hc.
  - apply scan_lines_hit; [exact Hc |].
    unfold line_contains in Hc. unfold section_of_line.
    destruct (INFO_FILE_LINE_PATTERN_fullmatch line) as [[[st en] sec] |];
      [exists st, en; reflexivity | discriminate Hc].
  - rewrite <- IH.
    apply (scan_lines_skip addr [line] rest s).
    intros l [<- | []]. exact Hc.
Qed.

(** X9. [get_section_by_addr] answers with the section of the first line of
    [info file] that matches the pattern and whose range, reduced to 32 bits,
    holds the address; lines that do not match and ranges that do not hold it
    are passed over, and [ValueError] is raised when no line is left.  An
    error of gdb on [info file] is raised as it is.  In each case [info file]
    is the one command passed to gdb. *)
Theorem get_section_by_addr_first_match (h : Host) (addr : Z) (s : state) :
  (forall out,
      gdb_execute h "info file" = Ok out ->
      get_section_by_addr h addr s
      = (first_section addr (Py.splitlines out), logged "info file" s))
  /\ (forall e,
         gdb_execute h "info file" = Raise e ->
         get_section_by_addr h addr s = (Raise e, logged "info file" s)).
Proof.
  split.
  - intros out E. rewrite (get_section_by_addr_unfold _ _ _ _ E).
    apply scan_lines_first_section.
  - intros e E. unfold get_section_by_addr, bind, execute. rewrite E. reflexivity.
Qed.

Lemma get_section_by_addr_first_match_witness :
  get_section_by_addr Demo.gdb 0x80800400 initial_state
  = (Ok "..ovl_En_Kusa", logged "info file" initial_state)
  /\ get_section_by_addr refusing_gdb 0x80801800 initial_state
     = (Raise (no_section_found 0x80801800), logged "info file" initial_state).
Proof.
  split.
  - rewrite (proj1 (get_section_by_addr_first_match Demo.gdb 0x80800400 initial_state)
               Demo.info_file eq_refl).
    vm_compute. reflexivity.
  - rewrite (proj1 (get_section_by_addr_first_match refusing_gdb 0x80801800
                      initial_state)
               Demo.info_file eq_refl).
    vm_compute. reflexivity.
Defined.

Lemma line_contains_in_u32 addr line :
  line_contains addr line = true -> is_u32 addr.
Proof.
  unfold line_contains, is_u32.
  destruct (INFO_FILE_LINE_PATTERN_fullmatch line) as [[[st en] sec] |]; [| discriminate].
  destruct (PyInt.int16 st) as [a |]; [| discriminate].
  destruct (PyInt.int16 en) as [b |]; [| discriminate].
  intros H. apply andb_prop in H as [H1 H2].
  apply Z.leb_le in H1. apply Z.ltb_lt in H2.
  pose proof (Z.mod_pos_bound a (2 ^ 32) eq_refl).
  pose proof (Z.mod_pos_bound b (2 ^ 32) eq_refl).
  lia.
Qed.

Lemma find_none_of_all_false {A} (p : A -> bool) l :
  (forall x, In x l -> p x = false) -> List.find p l = None.
Proof.
  induction l as [| x l IH]; intros H; [reflexivity |].
  cbn [List.find]. rewrite (H x (or_introl eq_refl)).
  apply IH. intros y Hy. apply H. right. exact Hy.
Qed.

(** X10. The ranges are compared after both bounds are reduced to 32 bits:
    no listing gives a section to a negative address or to one of [2^32] or
    more, and a line whose reduced end is not above its reduced start, such as
    the empty range of a section without contents, answers for no address. *)
Theorem sections_cover_32_bit_addresses_only (addr : Z) :
  (addr < 0 \/ 2 ^ 32 <= addr ->
   forall lines s,
     scan_lines addr lines s = (Raise (no_section_found addr), s))
  /\ (forall line start_str end_str sec a b rest s,
         INFO_FILE_LINE_PATTERN_fullmatch line = Some (start_str, end_str, sec) ->
         PyInt.int16 start_str = Some a ->
         PyInt.int16 end_str = Some b ->
         b mod 2 ^ 32 <= a mod 2 ^ 32 ->
         scan_lines addr (line :: rest) s = scan_lines addr rest s).
Proof.
  split.
  - intros Hout lines s. rewrite scan_lines_first_section. unfold first_section.
    rewrite find_none_of_all_false; [reflexivity |].
    intros l _. destruct (line_contains addr l) eqn:Hc; [| reflexivity].
    apply line_contains_in_u32 in Hc. unfold is_u32 in Hc. lia.
  - intros line st en sec a b rest s Hm Ha Hb Hle.
    rewrite (scan_lines_step _ _ _ _ _ _ _ _ _ Hm Ha Hb).
    destruct (Z.leb_spec (a mod 2 ^ 32) addr);
      destruct (Z.ltb_spec addr (b mod 2 ^ 32)); try reflexivity.
    lia.
Qed.

Lemma sections_cover_32_bit_addresses_only_witness :
  scan_lines 0xffffffff80800400 (Py.splitlines Demo.info_file) initial_state
  = (Raise (no_section_found 0xffffffff80800400), initial_state)
  /\ scan_lines 0x1060
       ["0x00001060 - 0x00001060 is ..makerom.bss";
        "0x00001060 - 0x00002000 is ..boot"] initial_state
     = scan_lines 0x1060 ["0x00001060 - 0x00002000 is ..boot"] initial_state.
Proof.
  split.
  - refine (proj1 (sections_cover_32_bit_addresses_only 0xffffffff80800400) _ _ _).
    right. vm_compute. discriminate.
  - refine (proj2 (sections_cover_32_bit_addresses_only 0x1060)
              "0x00001060 - 0x00001060 is ..makerom.bss"
              "0x00001060" "0x00001060" "..makerom.bss" 0x1060 0x1060 _ _ _ _ _ _).
    + vm_compute. reflexivity.
    + vm_compute. reflexivity.
    + vm_compute. reflexivity.
    + vm_compute. discriminate.
Defined.

(** ** What the patterns match *)

Lemma str_append_assoc (a b c : string) : (a +:+ b) +:+ c = a +:+ (b +:+ c).
Proof.
  induction a as [| x a IH]; [reflexivity |].
  rewrite !append_cons, IH. reflexivity.
Qed.

Lemma prefix_drop p s :
  String.prefix p s = true -> s = p +:+ Py.drop (String.length p) s.
Proof.
  revert s. induction p as [| c p IH]; intros s H; [reflexivity |].
  destruct s as [| d s]; [discriminate H |].
  cbn [String.prefix] in H. destruct (ascii_dec c d) as [-> |]; [| discriminate H].
  cbn [String.length Py.drop]. rewrite append_cons. f_equal. apply IH. exact H.
Qed.

Lemma rev_onto_app s acc : Py.rev_onto s acc = Py.rev s +:+ acc.
Proof.
  unfold Py.rev. revert acc. induction s as [| c s IH]; intros acc; [reflexivity |].
  cbn [Py.rev_onto]. rewrite (IH (String c acc)), (IH (String c EmptyString)).
  rewrite str_append_assoc. reflexivity.
Qed.

Lemma partition_go_sound sep s : forall cur a b,
  Py.partition_go sep cur s = Some (a, b) ->
  Py.rev cur +:+ s = a +:+ sep +:+ b.
Proof.
  induction s as [| c s IH]; intros cur a b; cbn [Py.partition_go].
  - destruct (String.prefix sep EmptyString) eqn:Hp; [| discriminate].
    intros H. inversion H. subst. f_equal. apply (prefix_drop _ _ Hp).
  - destruct (String.prefix sep (String c s)) eqn:Hp.
    + intros H. inversion H. subst. f_equal. apply (prefix_drop _ _ Hp).
    + intros H. apply IH in H. rewrite <- H.
      unfold Py.rev. cbn [Py.rev_onto]. rewrite (rev_onto_app cur (String c EmptyString)).
      rewrite str_append_assoc. reflexivity.
Qed.

Lemma partition_go_none_plus s : forall cur,
  Py.partition_go "+" cur s = None -> PyInt.contains_char "+" s = false.
Proof.
  induction s as [| c s IH]; intros cur; [reflexivity |].
  cbn [Py.partition_go PyInt.contains_char String.prefix].
  destruct (ascii_dec "+" c) as [<- | Hne].
  - destruct s; discriminate.
  - intros H. apply IH in H. rewrite H.
    destruct (Ascii.eqb_spec "+" c); [contradiction | reflexivity].
Qed.

Lemma partition_go_first_plus s : forall cur a b,
  Py.partition_go "+" cur s = Some (a, b) ->
  PyInt.contains_char "+" cur = false ->
  PyInt.contains_char "+" a = false.
Proof.
  assert (forall t acc, PyInt.contains_char "+" t = false ->
                        PyInt.contains_char "+" acc = false ->
                        PyInt.contains_char "+" (Py.rev_onto t acc) = false) as Hrev.
  { induction t as [| c t IH]; intros acc Ht Hacc; [exact Hacc |].
    cbn [PyInt.contains_char] in Ht. apply orb_false_elim in Ht as [Hc Ht].
    cbn [Py.rev_onto]. apply IH; [exact Ht |].
    cbn [PyInt.contains_char]. rewrite Hc, Hacc. reflexivity. }
  induction s as [| c s IH]; intros cur a b; cbn [Py.partition_go String.prefix].
  - discriminate.
  - destruct (ascii_dec "+" c) as [<- | Hne].
    + destruct s; intros H Hcur; inversion H; subst; apply Hrev;
        first [exact Hcur | reflexivity].
    + intros H Hcur. apply (IH _ _ _ H).
      cbn [PyInt.contains_char]. rewrite Hcur.
      destruct (Ascii.eqb_spec "+" c); [contradiction | reflexivity].
Qed.

Lemma substring_drop n s :
  String.substring 0 n s +:+ Py.drop n s = s.
Proof.
  revert s. induction n as [| n IH]; intros s.
  - destruct s; reflexivity.
  - destruct s as [| c s]; [reflexivity |].
    cbn [String.substring Py.drop]. rewrite append_cons, IH. reflexivity.
Qed.

Lemma span_hexdigits_sound s : (span_hexdigits s).1 +:+ (span_hexdigits s).2 = s.
Proof.
  induction s as [| c s IH]; [reflexivity |].
  cbn [span_hexdigits]. destruct (PyInt.is_hexdigit c); [| reflexivity].
  destruct (span_hexdigits s) as [ds r]. cbn in *. rewrite append_cons, IH. reflexivity.
Qed.

Lemma match_hex_literal_sound s lit r :
  match_hex_literal s = Some (lit, r) ->
  s = lit +:+ r /\ exists c ds, lit = String "0" (String c ds).
Proof.
  unfold match_hex_literal. destruct s as [| c0 [| c1 s]]; try discriminate.
  destruct (Ascii.eqb_spec c0 "0") as [-> |]; [| discriminate].
  destruct (Ascii.eqb (Py.lower_char c1) "x"); [| discriminate].
  pose proof (span_hexdigits_sound s) as Hs.
  destruct (span_hexdigits s) as [ds r']. cbn in Hs.
  destruct ds as [| d ds]; [discriminate |]. intros H. inversion H. subst.
  split; [| eexists; eexists; reflexivity].
  rewrite !append_cons. reflexivity.
Qed.

Lemma match_sym_part_sound body name off :
  match_sym_part body = Some (name, off) ->
  name <> EmptyString
  /\ PyInt.contains_char "+" name = false
  /\ body = match off with
            | None => name +:+ ">"
            | Some digits => name +:+ "+" +:+ digits +:+ ">"
            end.
Proof.
  unfold match_sym_part, cut_at_plus.
  destruct (Py.partition_go "+" EmptyString body) as [[nm after] |] eqn:Hcut.
  - destruct (_ && _)%bool eqn:Hc; [| discriminate].
    intros H. inversion H. subst. clear H.
    apply andb_prop in Hc as [Hc _]. apply andb_prop in Hc as [Hc _].
    apply andb_prop in Hc as [Hne Hgt].
    apply String.eqb_eq in Hgt.
    pose proof (partition_go_sound _ _ _ _ _ Hcut) as Hb.
    change (Py.rev EmptyString +:+ body) with body in Hb.
    pose proof (partition_go_first_plus _ _ _ _ Hcut eq_refl) as Hplus.
    refine (conj _ (conj Hplus _)).
    + intros ->. discriminate Hne.
    + rewrite Hb. do 2 f_equal.
      rewrite <- Hgt. symmetry. apply substring_drop.
  - destruct (_ && _)%bool eqn:Hc; [| discriminate].
    intros H. inversion H. subst. clear H.
    apply andb_prop in Hc as [Hgt Hn].
    apply String.eqb_eq in Hgt.
    pose proof (partition_go_none_plus _ _ Hcut) as Hplus.
    pose proof (substring_drop (String.length body - 1) body) as Hb.
    rewrite Hgt in Hb.
    refine (conj _ (conj _ (eq_sym Hb))).
    + intros E. rewrite E in Hb. cbn in Hb.
      destruct body as [| c [| d body]]; try discriminate Hb; discriminate Hn.
    + rewrite <- Hb, <- (negb_involutive (PyInt.contains_char _ _)) in Hplus.
      destruct (PyInt.contains_char "+" (String.substring 0 _ body)) eqn:Hs;
        [| reflexivity].
      exfalso. revert Hplus Hs. generalize (String.substring 0 (String.length body - 1) body).
      intros t. induction t as [| c t IHt]; [discriminate |].
      rewrite append_cons. cbn [PyInt.contains_char].
      destruct (Ascii.eqb "+" c); [discriminate |].
      cbn [orb]. exact IHt.
Qed.

Lemma VALUE_SYM_FMT_PATTERN_fullmatch_sound t addr_str name off :
  VALUE_SYM_FMT_PATTERN_fullmatch t = Some (addr_str, Some name, off) ->
  name <> EmptyString
  /\ PyInt.contains_char "+" name = false
  /\ (exists c ds, addr_str = String "0" (String c ds))
  /\ t = addr_str +:+ " <"
         +:+ match off with
             | None => name +:+ ">"
             | Some digits => name +:+ "+" +:+ digits +:+ ">"
             end.
Proof.
  unfold VALUE_SYM_FMT_PATTERN_fullmatch.
  destruct (match_hex_literal t) as [[lit r] |] eqn:Hm; [| discriminate].
  apply match_hex_literal_sound in Hm as [Ht Hlit].
  destruct r as [| c r]; [discriminate |].
  destruct (String.prefix " <" (String c r)) eqn:Hp; [| discriminate].
  destruct (match_sym_part _) as [[nm o] |] eqn:Hs; [| discriminate].
  intros H. inversion H. subst addr_str nm o. clear H.
  apply match_sym_part_sound in Hs as (Hne & Hplus & Hbody).
  refine (conj Hne (conj Hplus (conj Hlit _))).
  rewrite Ht. f_equal. rewrite (prefix_drop _ _ Hp) at 1.
  cbn [String.length]. rewrite Hbody. reflexivity.
Qed.

(** ** The symbol at the start of an overlay *)

Lemma get_sym_name_from_addr_cases h addr s s' r :
  get_sym_name_from_addr h addr s = (r, s') ->
  s' = s
  /\ match r with
     | Ok name =>
         exists t addr_str,
           format_string h addr = Ok t
           /\ VALUE_SYM_FMT_PATTERN_fullmatch t = Some (addr_str, Some name, None)
           /\ Py.lower addr_str = PyInt.hex addr
     | Raise e =>
         format_string h addr = Raise e
         \/ exn_class_of e = ValueError
         \/ exn_class_of e = AssertionError
     end.
Proof.
  unfold get_sym_name_from_addr, bind, lift.
  destruct (format_string h addr) as [t | e0] eqn:Ef;
    [| intros H; inversion H; split; [reflexivity | left; reflexivity]].
  destruct (VALUE_SYM_FMT_PATTERN_fullmatch t) as [[[addr_str sym] off] |] eqn:Hm;
    [| intros H; inversion H; split; [reflexivity | right; left; reflexivity]].
  destruct (String.eqb (Py.lower addr_str) (PyInt.hex addr)) eqn:Heq; cbn [negb];
    [| intros H; inversion H; split; [reflexivity | right; left; reflexivity]].
  destruct sym as [name |];
    [| intros H; inversion H; split; [reflexivity | right; left; reflexivity]].
  destruct off as [digits |].
  { destruct (PyInt.int10_of_digits digits) as [n |];
      [destruct (Z.eqb n 0) |];
      intros H; inversion H; split; try reflexivity;
        right; first [left; reflexivity | right; reflexivity]. }
  intros H. inversion H. subst. clear H. split; [reflexivity |].
  exists t, addr_str. apply String.eqb_eq in Heq. repeat split; assumption.
Qed.

(** X11. [get_sym_name_from_addr] changes nothing and passes no command
    to gdb.  It returns a name only when gdb formats the address as the
    address itself, in any letter case, followed by that name between [ <]
    and [>]; the name is not empty and holds no [+], so that an address shown
    inside a symbol, as [<name+offset>], is never taken for the symbol; a
    negative address has no name.  Otherwise it raises the error of gdb, a
    [ValueError] or an [AssertionError]. *)
Theorem get_sym_name_from_addr_sound
    (h : Host) (addr : Z) (s s' : state) (r : result string) :
  get_sym_name_from_addr h addr s = (r, s') ->
  s' = s
  /\ match r with
     | Ok name =>
         0 <= addr
         /\ name <> EmptyString
         /\ PyInt.contains_char "+" name = false
         /\ exists addr_str,
              format_string h addr = Ok (addr_str +:+ " <" +:+ name +:+ ">")
              /\ Py.lower addr_str = PyInt.hex addr
     | Raise e =>
         format_string h addr = Raise e
         \/ exn_class_of e = ValueError
         \/ exn_class_of e = AssertionError
     end.
Proof.
  intros H. apply get_sym_name_from_addr_cases in H as [-> H].
  split; [reflexivity |]. destruct r as [name | e]; [| exact H].
  destruct H as (t & addr_str & Hf & Hm & Heq).
  apply VALUE_SYM_FMT_PATTERN_fullmatch_sound in Hm
    as (Hne & Hplus & (c & ds & Hlit) & Ht).
  refine (conj _ (conj Hne (conj Hplus _))).
  - destruct addr as [| p | p]; [lia | lia |].
    subst addr_str. discriminate Heq.
  - exists addr_str. rewrite <- Ht. split; [exact Hf | exact Heq].
Qed.

Lemma get_sym_name_from_addr_sound_witness :
  0 <= 0x80800000
  /\ "EnKusa_Init" <> EmptyString
  /\ PyInt.contains_char "+" "EnKusa_Init" = false
  /\ exists addr_str,
       format_string Demo.gdb 0x80800000
       = Ok (addr_str +:+ " <" +:+ "EnKusa_Init" +:+ ">")
       /\ Py.lower addr_str = PyInt.hex 0x80800000.
Proof.
  refine (proj2 (get_sym_name_from_addr_sound Demo.gdb 0x80800000
                   initial_state initial_state (Ok "EnKusa_Init") _)).
  vm_compute. reflexivity.
Defined.

(** A load that returns, with what it learnt on the way. *)
Lemma load_z64overlay_object_Ok_facts h alloc vram s s' :
  load_z64overlay_object h alloc vram s = (Ok tt, s') ->
  exists sym c_file elf path offsets,
    (exists s0, get_sym_name_from_addr h vram s0 = (Ok sym, s0))
    /\ lookup_symbol_filename h sym = Ok c_file
    /\ progspace_filename h = Some elf
    /\ object_path h elf c_file = Ok path
    /\ loaded_z64overlay_objects s' !! alloc = Some path
    /\ last (gdb_log s') = Some (add_symbol_file_command path offsets)
    /\ last (stdout s') = Some "Complete.".
Proof.
  unfold load_z64overlay_object. intros H.
  apply bind_Ok_inv in H as (loaded & s0 & H0 & H).
  unfold get_loaded in H0. inversion H0; subst loaded s0; clear H0.
  destruct (loaded_z64overlay_objects s !! alloc); [discriminate H |].
  apply bind_Ok_inv in H as (sec_name & s1 & _ & H).
  apply bind_Ok_inv in H as (addrs & s2 & _ & H).
  apply bind_Ok_inv in H as (sym & s3 & H3 & H).
  pose proof (proj1 (get_sym_name_from_addr_cases _ _ _ _ _ H3)) as ->.
  apply bind_Ok_inv in H as (c_file & s4 & H4 & H).
  apply lift_Ok_inv in H4 as [H4 ->].
  apply bind_Ok_inv in H as (elf & s5 & H5 & H).
  destruct (progspace_filename h) as [elf' |] eqn:Helf; [| discriminate H5].
  apply ret_Ok_inv in H5 as [-> ->].
  apply bind_Ok_inv in H as (path & s6 & H6 & H).
  apply lift_Ok_inv in H6 as [H6 ->].
  exists sym, c_file, elf', path, (ovl_offsets alloc vram addrs).
  cbv [bind get_loaded set_loaded print execute] in H.
  cbn [loaded_z64overlay_objects obj_address_map bp_load_enabled stdout gdb_log] in H.
  destruct (gdb_execute h _); [| discriminate H].
  inversion H. cbn [loaded_z64overlay_objects stdout gdb_log].
  refine (conj (ex_intro _ s2 H3) (conj H4 (conj eq_refl (conj H6 (conj _ (conj _ _))))));
    first [apply lookup_insert_eq | apply last_snoc].
Qed.

(** X12. The object file a load registers is found from the symbol gdb
    shows at [vram_address]: the source file of that symbol, turned by the
    path library into the object file beside the ELF file of the program.
    That path is the one recorded in the registry for [alloc_address] and the
    one in the [add-symbol-file] command, the last command of the load. *)
Theorem registered_object_file (h : Host) (alloc vram : Z) (s s' : state) :
  load_z64overlay_object h alloc vram s = (Ok tt, s') ->
  exists addr_str sym c_file elf path offsets,
    format_string h vram = Ok (addr_str +:+ " <" +:+ sym +:+ ">")
    /\ lookup_symbol_filename h sym = Ok c_file
    /\ progspace_filename h = Some elf
    /\ object_path h elf c_file = Ok path
    /\ loaded_z64overlay_objects s' !! alloc = Some path
    /\ last (gdb_log s') = Some (add_symbol_file_command path offsets)
    /\ last (stdout s') = Some "Complete.".
Proof.
  intros H. apply load_z64overlay_object_Ok_facts in H
    as (sym & c_file & elf & path & offsets & (s0 & Hsym) & H).
  apply get_sym_name_from_addr_cases in Hsym as (_ & t & addr_str & Hf & Hm & _).
  apply VALUE_SYM_FMT_PATTERN_fullmatch_sound in Hm as (_ & _ & _ & Ht).
  exists addr_str, sym, c_file, elf, path, offsets.
  split; [rewrite <- Ht; exact Hf | exact H].
Qed.

Lemma registered_object_file_witness :
  exists addr_str sym c_file elf path offsets,
    format_string Demo.gdb 0x80800000 = Ok (addr_str +:+ " <" +:+ sym +:+ ">")
    /\ lookup_symbol_filename Demo.gdb sym = Ok c_file
    /\ progspace_filename Demo.gdb = Some elf
    /\ object_path Demo.gdb elf c_file = Ok path
    /\ loaded_z64overlay_objects
         (after (load_z64overlay_object Demo.gdb 0x80300000 0x80800000) initial_state)
       !! 0x80300000 = Some path
    /\ last (gdb_log
               (after (load_z64overlay_object Demo.gdb 0x80300000 0x80800000)
                      initial_state))
       = Some (add_symbol_file_command path offsets)
    /\ last (stdout
               (after (load_z64overlay_object Demo.gdb 0x80300000 0x80800000)
                      initial_state))
       = Some "Complete.".
Proof.
  refine (registered_object_file Demo.gdb 0x80300000 0x80800000 initial_state _ _).
  vm_compute. reflexivity.
Defined.

(** ** How [ovl] ends *)

Lemma execute_Ok_inv h cmd s out s' :
  execute h cmd s = (Ok out, s') -> gdb_execute h cmd = Ok out /\ s' = logged cmd s.
Proof. unfold execute. intros H. inversion H. split; reflexivity. Qed.

(** A load from a table returns only when the overlay is not loaded. *)
Lemma ovl_table_load_Ok_inv h name i s s' :
  (let* table := global_value h name in
   let* alloc_address := GetAllocAddress table i in
   AddOverlaySymbols h alloc_address) s = (Ok tt, s') ->
  s' = printed not_loaded s.
Proof.
  intros H.
  apply bind_Ok_inv in H as (t & s1 & H1 & H).
  unfold global_value in H1.
  destruct (lookup_global_symbol h name); [| discriminate H1].
  apply ret_Ok_inv in H1 as [_ E1]. rewrite E1 in H. clear E1 s1.
  apply bind_Ok_inv in H as (a & s2 & H2 & H).
  unfold GetAllocAddress in H2.
  apply bind_Ok_inv in H2 as (v & s3 & H3 & H2).
  apply lift_Ok_inv in H3 as [_ E3]. rewrite E3 in H2. clear E3 s3.
  apply ret_Ok_inv in H2 as [_ E2]. rewrite E2 in H. clear E2 s2.
  apply AddOverlaySymbols_Ok_inv in H as [_ H]. exact H.
Qed.

(** X13. The [ovl] command never gives gdb a symbol file.  Whatever its
    argument and however it ends, the commands it passes to gdb are
    questions, none of them an [add-symbol-file], and the registry, the
    dictionary and the flag are as they were.  It returns in two ways only,
    having printed one line: that the overlay is not loaded, or that the enum
    value could not be found; a command for an overlay that is loaded ends in
    an exception. *)
Theorem ovl_never_registers (h : Host) (arg : string) (s : state) :
  queried s (after (LoadOvlCmd_invoke h arg) s)
  /\ (forall s',
         LoadOvlCmd_invoke h arg s = (Ok tt, s') ->
         s' = printed not_loaded s \/ s' = printed enum_not_found s).
Proof.
  split; [apply (steps_LoadOvlCmd_invoke _ queried_closed) |].
  intros s'. unfold LoadOvlCmd_invoke.
  destruct (is_pause_alias _).
  { intros H. left. eapply ovl_table_load_Ok_inv. exact H. }
  destruct (String.eqb _ "ACTOR_PLAYER").
  { intros H. left. eapply ovl_table_load_Ok_inv. exact H. }
  destruct (lookup_symbol_value h _) as [v | e].
  - destruct (findall_type_prefix _) as [| ovl_type l]; [discriminate |].
    destruct (table_of_type ovl_type) as [name |]; [| discriminate].
    intros H. left. eapply ovl_table_load_Ok_inv. exact H.
  - intros H. right. inversion H. reflexivity.
Qed.

Lemma ovl_never_registers_witness :
  after (LoadOvlCmd_invoke Demo.gdb "actor_en_daiku") initial_state
  = printed not_loaded initial_state
  \/ after (LoadOvlCmd_invoke Demo.gdb "actor_en_daiku") initial_state
     = printed enum_not_found initial_state.
Proof.
  refine (proj2 (ovl_never_registers Demo.gdb "actor_en_daiku" initial_state) _ _).
  vm_compute. reflexivity.
Defined.

(** ** Where a load by [ovl] stops *)

Lemma bind_run {A B} (m : M A) (k : A -> M B) s a s1 :
  m s = (Ok a, s1) -> bind m k s = k a s1.
Proof. intros E. unfold bind. rewrite E. reflexivity. Qed.

Lemma bind_raise_run {A B} (m : M A) (k : A -> M B) s e s1 :
  m s = (Raise e, s1) -> bind m k s = (Raise e, s1).
Proof. intros E. unfold bind. rewrite E. reflexivity. Qed.

Lemma execute_run h cmd s out :
  gdb_execute h cmd = Ok out -> execute h cmd s = (Ok out, logged cmd s).
Proof. intros E. unfold execute. rewrite E. reflexivity. Qed.

Lemma get_section_address_run h ovl k s out n :
  gdb_execute h (printf_command (section_start_name ovl k)) = Ok out ->
  PyInt.int16 out = Some n ->
  get_section_address h ovl k s
  = (Ok n, logged (printf_command (section_start_name ovl k)) s).
Proof.
  intros H1 H2.
  unfold get_section_address, try_except, get_sym_addr_from_name, bind, execute.
  rewrite H1, H2. reflexivity.
Qed.

(** X14. Where a load by [ovl] stops, for an overlay that is loaded and a
    gdb that answers the two questions about [vramStart].  When
    [gdb_load_ovl.py] was sourced alone, the load ends on the [NameError] of
    [get_section_address] right after the two questions.  When
    [gdb_load_z64overlay.py] was sourced too, gdb resolves the four section
    symbols and knows the source file of the function, the load asks for the
    four symbols and ends on the [NameError] of [obj_address_map].  Either
    way one line was printed, and nothing was recorded. *)
Theorem ovl_load_stops_at_undefined_name
    (h : Host) (alloc : Z) (s : state) (out1 out2 : string) :
  alloc <> 0 ->
  gdb_execute h "info symbol vramStart" = Ok out1 ->
  gdb_execute h ("info sym " +:+ ovl_target_func_name out1) = Ok out2 ->
  (get_section_address_defined h = false ->
   AddOverlaySymbols h alloc s
   = (Raise (name_error "get_section_address"), ovl_first_questions alloc out1 s))
  /\ (get_section_address_defined h = true ->
      forall addrs c_file,
        resolved h (ovl_section_of out2) addrs ->
        lookup_symbol_filename h (ovl_target_func_name out1) = Ok c_file ->
        AddOverlaySymbols h alloc s
        = (Raise (name_error "obj_address_map"),
           asked_section_symbols (ovl_section_of out2)
             (ovl_first_questions alloc out1 s))).
Proof.
  intros Hnz H1 H2. unfold AddOverlaySymbols.
  destruct (Z.eqb_spec alloc 0) as [E | _]; [contradiction |].
  rewrite (bind_run _ _ s tt (printed (loading_symbols_message alloc) s) eq_refl).
  rewrite (bind_run _ _ _ _ _ (execute_run h _ _ _ H1)).
  fold (ovl_target_func_name out1).
  rewrite (bind_run _ _ _ _ _ (execute_run h _ _ _ H2)).
  fold (ovl_section_of out2). fold (ovl_first_questions alloc out1 s).
  unfold global_get_section_address. split.
  - intros Hd. rewrite Hd. reflexivity.
  - intros Hd addrs c_file Hres Hfile. rewrite Hd.
    destruct (Hres TEXT) as (o1 & G1 & I1). destruct (Hres DATA) as (o2 & G2 & I2).
    destruct (Hres RODATA) as (o3 & G3 & I3). destruct (Hres BSS) as (o4 & G4 & I4).
    cbn [linker_script_name] in G1, G2, G3, G4.
    rewrite (bind_run _ _ _ _ _ (get_section_address_run h _ _ _ _ _ G1 I1)).
    rewrite (bind_run _ _ _ _ _ (get_section_address_run h _ _ _ _ _ G2 I2)).
    rewrite (bind_run _ _ _ _ _ (get_section_address_run h _ _ _ _ _ G3 I3)).
    rewrite (bind_run _ _ _ _ _ (get_section_address_run h _ _ _ _ _ G4 I4)).
    rewrite Hfile. reflexivity.
Qed.

Lemma ovl_load_stops_at_undefined_name_witness :
  AddOverlaySymbols ovl_alone_gdb 0x80300000 initial_state
  = (Raise (name_error "get_section_address"),
     ovl_first_questions 0x80300000
       ("EnKusa_Init in section ..ovl_En_Kusa" +:+ Py.NL) initial_state)
  /\ AddOverlaySymbols Demo.gdb 0x80300000 initial_state
     = (Raise (name_error "obj_address_map"),
        asked_section_symbols "ovl_En_Kusa"
          (ovl_first_questions 0x80300000
             ("EnKusa_Init in section ..ovl_En_Kusa" +:+ Py.NL) initial_state)).
Proof.
  assert (0x80300000 <> 0) as Hnz by discriminate.
  split.
  - refine (proj1 (ovl_load_stops_at_undefined_name
                     ovl_alone_gdb 0x80300000 initial_state
                     ("EnKusa_Init in section ..ovl_En_Kusa" +:+ Py.NL)
                     ("EnKusa_Init in section ..ovl_En_Kusa of /oot/build/oot.elf"
                      +:+ Py.NL)
                     Hnz eq_refl eq_refl) eq_refl).
  - refine (proj2 (ovl_load_stops_at_undefined_name
                     Demo.gdb 0x80300000 initial_state
                     ("EnKusa_Init in section ..ovl_En_Kusa" +:+ Py.NL)
                     ("EnKusa_Init in section ..ovl_En_Kusa of /oot/build/oot.elf"
                      +:+ Py.NL)
                     Hnz eq_refl eq_refl) eq_refl demo_addresses
                  "src/overlays/actors/ovl_En_Kusa/z_en_kusa.c" _ eq_refl).
    intros [];
      [exists "80800000" | exists "80801000" | exists "80801400" | exists "80801800"];
      split; vm_compute; reflexivity.
Defined.

(** ** The two ways to the section name *)

Lemma split_go_not_nil sep s : forall skip cur, Py.split_go sep skip cur s <> [].
Proof.
  induction s as [| c s IH]; intros skip cur; cbn [Py.split_go]; [discriminate |].
  destruct skip; [| apply IH].
  destruct (String.prefix sep (String c s)); [discriminate | apply IH].
Qed.

(** X15. The name of the overlay's section is looked for in two ways, the
    second only after a [ValueError] of the first.  When the answer to
    [info symbol] holds [in section ] exactly once, the name is read from it
    and [info file] is never asked.  When it holds it no times or several
    times, the fallback line is printed and the name is the one
    [get_section_by_addr] finds, without its leading dots.  An error of gdb
    that is no [ValueError] ends the load at once: there is no second try. *)
Theorem section_name_fallback (h : Host) (vram : Z) (s : state) :
  let cmd := "info symbol " +:+ PyInt.hex vram in
  (forall info,
      gdb_execute h cmd = Ok info ->
      length (Py.split "in section " info) = 2%nat ->
      exists name, overlay_section_name h vram s = (Ok name, logged cmd s))
  /\ (forall info,
         gdb_execute h cmd = Ok info ->
         length (Py.split "in section " info) <> 2%nat ->
         overlay_section_name h vram s
         = (let* name := get_section_by_addr h vram in
            ret (Py.removeprefix ".." name)) (printed fallback_message (logged cmd s)))
  /\ (forall e,
         gdb_execute h cmd = Raise e ->
         is_ValueError e = false ->
         overlay_section_name h vram s = (Raise e, logged cmd s)).
Proof.
  intros cmd. refine (conj _ (conj _ _)).
  - intros info E Hlen. unfold overlay_section_name, bind, try_except.
    rewrite (get_sym_section_unfold _ _ _ _ E). fold cmd.
    destruct (Py.split "in section " info) as [| p0 [| p1 [| p2 l]]];
      try discriminate Hlen.
    pose proof (split_go_not_nil " of " p1 O EmptyString) as Hne.
    unfold Py.split. destruct (Py.split_go " of " 0 EmptyString p1) as [| q l];
      [contradiction |].
    eexists. reflexivity.
  - intros info E Hlen. unfold overlay_section_name, bind at 1, try_except.
    rewrite (get_sym_section_unfold _ _ _ _ E). fold cmd.
    destruct (Py.split "in section " info) as [| p0 [| p1 [| p2 l]]];
      try reflexivity.
    contradiction Hlen. reflexivity.
  - intros e E Hne. unfold overlay_section_name, bind, try_except, get_sym_section,
      bind, execute.
    fold cmd. rewrite E, Hne. reflexivity.
Qed.

Lemma section_name_fallback_witness :
  (exists name,
      overlay_section_name Demo.gdb 0x80800000 initial_state
      = (Ok name, logged "info symbol 0x80800000" initial_state))
  /\ overlay_section_name gdb_without_symbol_info 0x80800000 initial_state
     = (Ok "ovl_En_Kusa",
        logged "info file"
          (printed fallback_message (logged "info symbol 0x80800000" initial_state)))
  /\ overlay_section_name Demo.gdb 0x80900000 initial_state
     = (Raise (MkExn GdbError ["No symbol in current context."] []),
        logged "info symbol 0x80900000" initial_state).
Proof.
  refine (conj _ (conj _ _)).
  - refine (proj1 (section_name_fallback Demo.gdb 0x80800000 initial_state)
              ("EnKusa_Init in section ..ovl_En_Kusa of /oot/build/oot.elf" +:+ Py.NL)
              eq_refl _).
    vm_compute. reflexivity.
  - rewrite (proj1 (proj2 (section_name_fallback gdb_without_symbol_info
                             0x80800000 initial_state))
               ("No symbol matches 0x80800000." +:+ Py.NL) eq_refl).
    + vm_compute. reflexivity.
    + vm_compute. discriminate.
  - refine (proj2 (proj2 (section_name_fallback Demo.gdb 0x80900000 initial_state))
              _ eq_refl eq_refl).
Defined.

(** ** White space around a section name *)

Lemma lstrip_by_idempotent p s : Py.lstrip_by p (Py.lstrip_by p s) = Py.lstrip_by p s.
Proof.
  induction s as [| c s IH]; [reflexivity |].
  cbn [Py.lstrip_by]. destruct (p c) eqn:Hc; [exact IH |].
  cbn [Py.lstrip_by]. rewrite Hc. reflexivity.
Qed.

Lemma lstrip_by_head p s c u : Py.lstrip_by p s = String c u -> p c = false.
Proof.
  induction s as [| d s IH]; [discriminate |].
  cbn [Py.lstrip_by]. destruct (p d) eqn:Hd; [exact IH |].
  intros H. inversion H. subst. exact Hd.
Qed.

Lemma rev_cons c s : Py.rev (String c s) = Py.rev s +:+ String c EmptyString.
Proof. unfold Py.rev at 1. cbn [Py.rev_onto]. apply rev_onto_app. Qed.

Lemma rev_snoc s c : Py.rev (s +:+ String c EmptyString) = String c (Py.rev s).
Proof.
  rewrite <- (rev_involutive s) at 1. rewrite <- rev_cons. apply rev_involutive.
Qed.

Lemma lstrip_by_snoc p a c :
  p c = false ->
  Py.lstrip_by p (a +:+ String c EmptyString) = Py.lstrip_by p a +:+ String c EmptyString.
Proof.
  intros Hc. induction a as [| d a IH].
  - change (EmptyString +:+ String c EmptyString) with (String c EmptyString).
    cbn [Py.lstrip_by]. rewrite Hc. reflexivity.
  - rewrite append_cons. cbn [Py.lstrip_by]. destruct (p d); [exact IH |].
    rewrite append_cons. reflexivity.
Qed.

Lemma rstrip_by_cons p c u :
  p c = false -> Py.rstrip_by p (String c u) = String c (Py.rstrip_by p u).
Proof.
  intros Hc. unfold Py.rstrip_by.
  rewrite rev_cons, (lstrip_by_snoc _ _ _ Hc), rev_snoc. reflexivity.
Qed.

Lemma rstrip_by_idempotent p s : Py.rstrip_by p (Py.rstrip_by p s) = Py.rstrip_by p s.
Proof.
  unfold Py.rstrip_by. rewrite rev_involutive, lstrip_by_idempotent. reflexivity.
Qed.

Lemma rstrip_by_last p init c :
  Py.rstrip_by p (init +:+ String c EmptyString) = init +:+ String c EmptyString ->
  p c = false.
Proof.
  unfold Py.rstrip_by. rewrite rev_snoc. cbn [Py.lstrip_by].
  destruct (p c) eqn:Hc; [| reflexivity].
  intros H. exfalso.
  apply (f_equal Py.rev) in H. rewrite rev_involutive, rev_snoc in H.
  assert (forall t, String.length (Py.lstrip_by p t) <= String.length t)%nat as Hlen.
  { induction t as [| d t IHt]; [reflexivity |].
    cbn [Py.lstrip_by]. destruct (p d); cbn [String.length]; lia. }
  specialize (Hlen (Py.rev init)). rewrite H in Hlen. cbn [String.length] in Hlen. lia.
Qed.

(** What [strip] returns has no white space left at either end. *)
Lemma strip_is_stripped s :
  Py.strip (Py.strip s) = Py.strip s
  /\ (forall c rest, Py.strip s = String c rest -> Py.isspace c = false)
  /\ (forall init c,
         Py.strip s = init +:+ String c EmptyString -> Py.isspace c = false).
Proof.
  unfold Py.strip, Py.rstrip.
  assert (Py.lstrip_by Py.isspace (Py.rstrip_by Py.isspace (Py.lstrip_by Py.isspace s))
          = Py.rstrip_by Py.isspace (Py.lstrip_by Py.isspace s)) as Hl.
  { destruct (Py.lstrip_by Py.isspace s) as [| c u] eqn:Hu; [reflexivity |].
    pose proof (lstrip_by_head _ _ _ _ Hu) as Hc.
    rewrite (rstrip_by_cons _ _ _ Hc). cbn [Py.lstrip_by]. rewrite Hc. reflexivity. }
  refine (conj _ (conj _ _)).
  - rewrite Hl. apply rstrip_by_idempotent.
  - intros c rest H. rewrite <- Hl in H. eapply lstrip_by_head. exact H.
  - intros init c H. apply (rstrip_by_last _ init c).
    rewrite <- H. apply rstrip_by_idempotent.
Qed.

(** X16. The section name [get_sym_section] returns carries no white space
    at its ends: neither the line feed that ends gdb's answer nor a blank
    before [of]; stripping it again changes nothing.  The one command passed
    to gdb is [info symbol] with the address in hexadecimal. *)
Theorem get_sym_section_is_stripped
    (h : Host) (sym : Z) (s s' : state) (name : string) :
  get_sym_section h sym s = (Ok name, s') ->
  Py.strip name = name
  /\ (forall c rest, name = String c rest -> Py.isspace c = false)
  /\ (forall init c, name = init +:+ String c EmptyString -> Py.isspace c = false)
  /\ s' = logged ("info symbol " +:+ PyInt.hex sym) s.
Proof.
  unfold get_sym_section. intros H.
  apply bind_Ok_inv in H as (info & s1 & H1 & H).
  apply execute_Ok_inv in H1 as [_ ->].
  destruct (Py.split "in section " info) as [| p0 [| p1 [| p2 l]]];
    try discriminate H.
  destruct (Py.split " of " p1) as [| q l]; [discriminate H |].
  apply ret_Ok_inv in H as [-> ->].
  destruct (strip_is_stripped q) as (H1 & H2 & H3).
  refine (conj H1 (conj H2 (conj H3 eq_refl))).
Qed.

Lemma get_sym_section_is_stripped_witness :
  Py.strip "..ovl_En_Kusa" = "..ovl_En_Kusa"
  /\ (forall c rest, "..ovl_En_Kusa" = String c rest -> Py.isspace c = false)
  /\ (forall init c,
         "..ovl_En_Kusa" = init +:+ String c EmptyString -> Py.isspace c = false).
Proof.
  destruct (get_sym_section_is_stripped
              (Demo.host ("EnKusa_Init in section ..ovl_En_Kusa " +:+ Py.NL)
                         Demo.info_file)
              0x80800000 initial_state
              (logged "info symbol 0x80800000" initial_state) "..ovl_En_Kusa")
    as (H1 & H2 & H3 & _).
  - vm_compute. reflexivity.
  - exact (conj H1 (conj H2 H3)).
Defined.

(** ** Lines the pattern does not take *)

Lemma fullmatch_starts_with_zero line groups :
  INFO_FILE_LINE_PATTERN_fullmatch line = Some groups ->
  exists rest, line = String "0" rest.
Proof.
  unfold INFO_FILE_LINE_PATTERN_fullmatch.
  destruct (match_hex_literal line) as [[st r1] |] eqn:E1; [| discriminate].
  intros _. apply match_hex_literal_sound in E1 as [-> (c & ds & ->)].
  eexists. rewrite !append_cons. reflexivity.
Qed.

(** X17. The pattern of [get_section_by_addr] has to match a line from its
    first character, which must be the [0] of the start address: a line that
    begins with anything else, be it a tab or a blank, is passed over.  So
    against a listing whose lines all begin otherwise, as when gdb indents
    every range, [get_section_by_addr] finds no section for any address and
    raises [ValueError]. *)
Theorem indented_lines_are_never_matched (h : Host) (addr : Z) (s : state) :
  (forall line c rest,
      line = String c rest ->
      c <> "0"%char ->
      INFO_FILE_LINE_PATTERN_fullmatch line = None)
  /\ (forall out,
         gdb_execute h "info file" = Ok out ->
         (forall line, In line (Py.splitlines out) ->
                       forall rest, line <> String "0" rest) ->
         get_section_by_addr h addr s
         = (Raise (no_section_found addr), logged "info file" s)).
Proof.
  split.
  - intros line c rest -> Hc.
    destruct (INFO_FILE_LINE_PATTERN_fullmatch (String c rest)) as [g |] eqn:Hm;
      [| reflexivity].
    apply fullmatch_starts_with_zero in Hm as [rest' Hm].
    inversion Hm. contradiction.
  - intros out E Hlines.
    rewrite (get_section_by_addr_unfold _ _ _ _ E), scan_lines_first_section.
    unfold first_section. rewrite find_none_of_all_false; [reflexivity |].
    intros l Hl. unfold line_contains.
    destruct (INFO_FILE_LINE_PATTERN_fullmatch l) as [g |] eqn:Hm; [| reflexivity].
    apply fullmatch_starts_with_zero in Hm as [rest ->].
    exfalso. exact (Hlines _ Hl rest eq_refl).
Qed.

Lemma indented_lines_are_never_matched_witness :
  INFO_FILE_LINE_PATTERN_fullmatch
    (Py.TAB +:+ "0x00001060 - 0x00002000 is ..boot") = None
  /\ get_section_by_addr (Demo.host EmptyString indented_info_file)
       0x1500 initial_state
     = (Raise (no_section_found 0x1500), logged "info file" initial_state).
Proof.
  split.
  - refine (proj1 (indented_lines_are_never_matched Demo.gdb 0 initial_state)
              _ (ascii_of_nat 9) "0x00001060 - 0x00002000 is ..boot" eq_refl _).
    discriminate.
  - refine (proj2 (indented_lines_are_never_matched
                     (Demo.host EmptyString indented_info_file) 0x1500 initial_state)
              indented_info_file eq_refl _).
    intros line Hl rest. vm_compute in Hl.
    destruct Hl as [<- | [<- | [<- | [<- | []]]]]; discriminate.
Defined.
